(** * Return/refund lifecycle and SLA violation detection of the order service

    A shallow embedding of
    - [services/order-service/src/utils/slaViolationUtils.js],
    - [services/order-service/src/controllers/return.js] and
    - the SLA violation middleware ([checkOrderSLAViolation] and friends),
    followed by the properties the specification states about them.

    Conventions of the embedding.
    - A JavaScript [Date] is its time value: the number of milliseconds
      since the epoch, an integer ([Z]).  Only valid dates are modelled.
    - Local time is UTC shifted by a constant offset [tz] (no daylight
      saving), a variable of the sections that need it.
    - A MongoDB collection is the list of its documents in insertion order;
      [find]/[findOne] are [filter]/[find], [save] replaces the document
      with the same [_id], inserts append.  The database and the
      notification service do not throw.
    - A field that may be [undefined] or [null] is an [option]; a JavaScript
      truthiness test on it is a test for [Some].
    - Collaborators (product catalog, user directory, logistics and payment
      gateways) are answered by an environment record given to the
      operation; a call that throws is [None].
    - Monetary amounts are JavaScript numbers; they are modelled as exact
      rationals ([Q]), and [Math.round x] as [floor (x + 1/2)].
    - The text of a message built from a template is the template's name
      with the values put into it (the notes of a violation, the failure of
      a refund); fixed messages are strings. *)

From Stdlib Require Import ZArith List String Bool Lia QArith Qround.
Import ListNotations.
Open Scope string_scope.
Open Scope list_scope.
Open Scope Z_scope.

(** ** JavaScript helpers *)

Module JS.

(** [a || b] on possibly missing values. *)
Definition orElse {A : Type} (a b : option A) : option A :=
  match a with
  | Some _ => a
  | None => b
  end.

(** [a || d] with a default that is always present. *)
Definition orDefault {A : Type} (a : option A) (d : A) : A :=
  match a with
  | Some x => x
  | None => d
  end.

(** Truthiness of a string: the empty string is falsy. *)
Definition truthyString (s : string) : option string :=
  if String.eqb s "" then None else Some s.

(** Truthiness of a string that may be missing: [undefined], [null] and the
    empty string are falsy. *)
Definition truthy (s : option string) : option string :=
  match s with
  | Some x => truthyString x
  | None => None
  end.

(** [xs[0]] *)
Definition first {A : Type} (xs : list A) : option A :=
  match xs with
  | [] => None
  | x :: _ => Some x
  end.

(** [o?.f] for a field that may itself be missing. *)
Definition chain {A B : Type} (o : option A) (f : A -> option B) : option B :=
  match o with
  | Some x => f x
  | None => None
  end.

Definition isSome {A : Type} (o : option A) : bool :=
  match o with
  | Some _ => true
  | None => false
  end.

(** [x === y] on strings that may be [undefined]. *)
Definition strictEqOpt (a b : option string) : bool :=
  match a, b with
  | Some x, Some y => String.eqb x y
  | None, None => true
  | _, _ => false
  end.

(** [Math.round] on the quotient of two integers, [d > 0]:
    [Math.round (n / d) = floor (n / d + 1/2)]. *)
Definition roundDiv (n d : Z) : Z := (2 * n + d) / (2 * d).

(** [Math.round] on a rational. *)
Definition round (x : Q) : Z := Qfloor (x + (1 # 2))%Q.

End JS.

(** ** Dates *)

Module JSDate.

Definition Date := Z.

Definition msPerMinute : Z := 60000.
Definition msPerHour : Z := 3600000.
Definition msPerDay : Z := 86400000.

Section LocalTime.

(** Offset of local time from UTC, in milliseconds. *)
Variable tz : Z.

Definition localTime (t : Date) : Z := t + tz.

(** The time value of local midnight of the day of [t]. *)
Definition dayStart (t : Date) : Date :=
  (localTime t / msPerDay) * msPerDay - tz.

(** [t.getHours()] *)
Definition getHours (t : Date) : Z :=
  (localTime t mod msPerDay) / msPerHour.

(** Minutes, seconds and milliseconds of [t], in milliseconds. *)
Definition withinHour (t : Date) : Z := localTime t mod msPerHour.

(** [t.setHours(h)]: the hour is replaced, minutes, seconds and
    milliseconds are kept; an hour outside 0..23 carries into the day. *)
Definition setHours (t : Date) (h : Z) : Date :=
  dayStart t + h * msPerHour + withinHour t.

(** [t.setHours(h, m, s, ms)] *)
Definition setHours4 (t : Date) (h m s ms : Z) : Date :=
  dayStart t + h * msPerHour + m * msPerMinute + s * 1000 + ms.

(** [t.setDate(t.getDate() + n)]: the day of the month plus [n] is
    normalised into the following months, which adds [n] days. *)
Definition addDays (t : Date) (n : Z) : Date := t + n * msPerDay.

End LocalTime.

End JSDate.

(** ** SLA configuration and the SLA calculator *)

Module SlaUtils.
Import JSDate.

(** models/slaType; [expected_hours] is a whole number of hours. *)
Record SLAType := { expected_hours : Z }.

Record DispatchHours := { start : Z; end_ : Z }.

(** models/dealerSla, with [sla_type] populated. *)
Record DealerSLA := {
  dealer_id : string;
  sla_type : option SLAType;
  dispatch_hours : option DispatchHours;
  is_active : bool
}.

Section Calculator.

Variable tz : Z.

(** [expectedTime.setHours(expectedTime.getHours() + expected_hours)],
    guarded by the truthiness of [expected_hours]. *)
Definition addExpectedHours (t : Date) (ty : SLAType) : Date :=
  if Z.eqb (expected_hours ty) 0 then t
  else setHours tz t (getHours tz t + expected_hours ty).

Definition adjustForDispatchHours (t : Date) (w : DispatchHours) : Date :=
  let fulfillmentHour := getHours tz t in
  if fulfillmentHour <? start w then
    setHours4 tz t (start w) 0 0 0
  else if fulfillmentHour >? end_ w then
    setHours4 tz (addDays t 1) (start w) 0 0 0
  else t.

(** slaViolationUtils.js, [calculateExpectedFulfillmentTime] *)
Definition calculateExpectedFulfillmentTime
    (orderDate : Date) (dealerSLA : option DealerSLA) : option Date :=
  match dealerSLA with
  | None => None
  | Some d =>
      match sla_type d with
      | None => None
      | Some ty =>
          let expectedTime := addExpectedHours orderDate ty in
          match dispatch_hours d with
          | None => Some expectedTime
          | Some w => Some (adjustForDispatchHours expectedTime w)
          end
      end
  end.

End Calculator.

End SlaUtils.


(** ** Orders *)

Module OrderModel.
Import JSDate.

Record Timestamps := {
  packedAt : option Date;
  deliveredAt : option Date
}.

Record TrackingInfo := {
  status : option string;
  timestamps : option Timestamps
}.

(** An entry of [skuItem.dealerMapped]. *)
Record DealerMapped := { dealerId : option string }.

(** An entry of [order.dealerMapping]. *)
Record DealerMapping := {
  dm_sku : option string;
  dm_dealerId : option string
}.

Record ReturnInfo := {
  is_return : bool;
  return_id : nat
}.

Record SkuItem := {
  sku : string;
  quantity : Z;
  selling_price : Q;
  dealerMapped : list DealerMapped;
  tracking_info : option TrackingInfo;
  return_info : option ReturnInfo
}.

Record CustomerDetails := { userId : option string }.

Record SlaInfo := {
  actualFulfillmentTime : option Date;
  isSLAMet : option bool;
  violationMinutes : option Z;
  expectedFulfillmentTime : option Date
}.

Record Order := {
  _id : string;
  orderId : string;
  customerDetails : option CustomerDetails;
  skus : list SkuItem;
  dealerMapping : list DealerMapping;
  orderDate : option Date;
  createdAt : option Date;
  payment_id : option string;
  slaInfo : SlaInfo
}.

(** [s.tracking_info?.status] *)
Definition trackingStatus (s : SkuItem) : option string :=
  JS.chain (tracking_info s) status.

(** [s.tracking_info?.timestamps?.packedAt] *)
Definition skuPackedAt (s : SkuItem) : option Date :=
  JS.chain (JS.chain (tracking_info s) timestamps) packedAt.

(** [s.tracking_info?.timestamps?.deliveredAt] *)
Definition skuDeliveredAt (s : SkuItem) : option Date :=
  JS.chain (JS.chain (tracking_info s) timestamps) deliveredAt.

(** [order.skus.find(s => s.sku === sku)] *)
Definition findSku (order : Order) (name : string) : option SkuItem :=
  find (fun s => String.eqb (sku s) name) (skus order).

(** [Order.findById] *)
Definition findOrderById (orders : list Order) (id : string) : option Order :=
  find (fun o => String.eqb (_id o) id) orders.

(** [Order.findByIdAndUpdate(id, patch)] and [order.save()]: the first
    document with this [_id] is replaced by its update. *)
Fixpoint updateOrderById (f : Order -> Order) (id : string)
    (orders : list Order) : list Order :=
  match orders with
  | [] => []
  | o :: rest =>
      if String.eqb (_id o) id then f o :: rest
      else o :: updateOrderById f id rest
  end.

End OrderModel.

(** ** SLA violation utilities (slaViolationUtils.js) *)

Module SlaViolationUtils.
Import JSDate SlaUtils OrderModel.

(** The text of a violation note, by its template and the values
    interpolated into it. *)
Inductive Note :=
| SkuNote (sku : string) (expected actual : Date)
| OrderNote (count : nat) (maxMinutes : Z).

(** The violation object built by the checks. *)
Record ViolationData := {
  v_dealer_id : string;
  v_order_id : string;
  v_sku : option string;
  expected_fulfillment_time : Date;
  actual_fulfillment_time : Date;
  violation_minutes : Z;
  notes : Note
}.

(** The two shapes [checkSKUSLAViolation] returns:
    [{ hasViolation: false, violation: null }] and
    [{ hasViolation: true, violation: {...} }]. *)
Inductive SkuCheck :=
| NoViolation
| Violation (v : ViolationData).

Definition hasViolation (c : SkuCheck) : bool :=
  match c with
  | NoViolation => false
  | Violation _ => true
  end.

Definition violation (c : SkuCheck) : option ViolationData :=
  match c with
  | NoViolation => None
  | Violation v => Some v
  end.

(** models/slaViolation *)
Record SLAViolation := {
  r_dealer_id : string;
  r_order_id : string;
  r_sku : option string;
  r_expected_fulfillment_time : Date;
  r_actual_fulfillment_time : Date;
  r_violation_minutes : Z;
  r_notes : Note;
  resolved : bool
}.

Section Checks.

Variable tz : Z.

(** [DealerSLA.findOne({ dealer_id }).populate('sla_type')] *)
Definition findDealerSLA (dealerSlas : list DealerSLA) (id : string)
    : option DealerSLA :=
  find (fun d => String.eqb (dealer_id d) id) dealerSlas.

(** The dealer of a SKU:
    [skuItem.dealerMapped?.[0]?.dealerId ||
     order.dealerMapping.find(dm => dm.sku === sku)?.dealerId ||
     order.dealerMapping[0]?.dealerId], then [if (!dealerId)].  Each [||]
    passes over an id that is missing or empty, so the result is the first
    of the three that is a non-empty id, and [None] when none is. *)
Definition resolveDealer (order : Order) (skuItem : SkuItem) (name : string)
    : option string :=
  JS.orElse (JS.truthy (JS.chain (JS.first (dealerMapped skuItem)) dealerId))
    (JS.orElse
       (JS.truthy
          (JS.chain
             (find (fun dm => JS.strictEqOpt (dm_sku dm) (Some name))
                   (dealerMapping order))
             dm_dealerId))
       (JS.truthy (JS.chain (JS.first (dealerMapping order)) dm_dealerId))).

(** [Math.round((packedAtDate - expectedFulfillmentTime) / (1000 * 60))] *)
Definition violationMinutesOf (packed expected : Date) : Z :=
  JS.roundDiv (packed - expected) msPerMinute.

(** [checkSKUSLAViolation(order, sku, packedAt)]; [now] is the value of
    [new Date()]. *)
Definition checkSKUSLAViolation (dealerSlas : list DealerSLA) (now : Date)
    (order : Order) (name : string) (packed : Date) : SkuCheck :=
  match dealerMapping order with
  | [] => NoViolation
  | _ :: _ =>
      match findSku order name with
      | None => NoViolation
      | Some skuItem =>
          match resolveDealer order skuItem name with
          | None => NoViolation
          | Some dealer =>
              match findDealerSLA dealerSlas dealer with
              | None => NoViolation
              | Some dealerSLA =>
                  if negb (is_active dealerSLA) then NoViolation
                  else
                    let orderDate :=
                      JS.orDefault
                        (JS.orElse (orderDate order) (createdAt order)) now in
                    match calculateExpectedFulfillmentTime tz orderDate
                            (Some dealerSLA) with
                    | None => NoViolation
                    | Some expected =>
                        let minutes := violationMinutesOf packed expected in
                        if minutes >? 0 then
                          Violation
                            {| v_dealer_id := dealer;
                               v_order_id := _id order;
                               v_sku := Some name;
                               expected_fulfillment_time := expected;
                               actual_fulfillment_time := packed;
                               violation_minutes := minutes;
                               notes := SkuNote name expected packed |}
                        else NoViolation
                    end
              end
          end
      end
  end.

(** An entry of [skuViolations]: [{ sku, violation }]. *)
Record SkuViolation := {
  sv_sku : string;
  sv_violation : ViolationData
}.

Record PackingCheck := {
  pc_hasViolation : bool;
  pc_violation : option ViolationData;
  skuViolations : list SkuViolation;
  allSkusViolated : option bool;
  partialMessage : option (nat * nat)
}.

Definition emptyPackingCheck : PackingCheck :=
  {| pc_hasViolation := false;
     pc_violation := None;
     skuViolations := [];
     allSkusViolated := None;
     partialMessage := None |}.

(** The filter of the packed SKUs:
    [status === "Packed" && timestamps?.packedAt]. *)
Definition isPacked (s : SkuItem) : bool :=
  JS.strictEqOpt (trackingStatus s) (Some "Packed") &&
  JS.isSome (skuPackedAt s).

(** The state of the loop over the packed SKUs. *)
Record LoopState := {
  l_skuViolations : list SkuViolation;
  l_allSkusViolated : bool;
  l_hasAnyViolation : bool
}.

(** The check of one packed SKU in the loop:
    [checkSKUSLAViolation(order, skuItem.sku,
       skuItem.tracking_info.timestamps.packedAt || packedAt || new Date())] *)
Definition checkPackedSku (dealerSlas : list DealerSLA) (now : Date)
    (order : Order) (packedArg : option Date) (skuItem : SkuItem) : SkuCheck :=
  checkSKUSLAViolation dealerSlas now order (sku skuItem)
    (JS.orDefault (JS.orElse (skuPackedAt skuItem) packedArg) now).

Definition loopBody (dealerSlas : list DealerSLA) (now : Date)
    (order : Order) (packedArg : option Date)
    (st : LoopState) (skuItem : SkuItem) : LoopState :=
  match checkPackedSku dealerSlas now order packedArg skuItem with
  | Violation v =>
      {| l_skuViolations :=
           l_skuViolations st ++ [{| sv_sku := sku skuItem; sv_violation := v |}];
         l_allSkusViolated := l_allSkusViolated st;
         l_hasAnyViolation := true |}
  | NoViolation =>
      {| l_skuViolations := l_skuViolations st;
         l_allSkusViolated := false;
         l_hasAnyViolation := l_hasAnyViolation st |}
  end.

(** [max?.violation_minutes]: the accumulator of the reduction is an entry
    [{ sku, violation }], which has no property [violation_minutes]. *)
Definition accViolationMinutes (max : option SkuViolation) : option Z :=
  JS.chain max (fun _ => None).

(** [skuViolations.reduce((max, sv) =>
       sv.violation.violation_minutes > (max?.violation_minutes || 0)
         ? sv : max, null)] *)
Definition maxViolationOf (svs : list SkuViolation) : option SkuViolation :=
  fold_left
    (fun max sv =>
       if violation_minutes (sv_violation sv)
            >? JS.orDefault (accViolationMinutes max) 0
       then Some sv else max)
    svs None.

(** [checkSLAViolationOnPacking(order, packedAt, sku = null)] *)
Definition checkSLAViolationOnPacking (dealerSlas : list DealerSLA)
    (now : Date) (order : Order) (packedArg : option Date)
    (skuArg : option string) : PackingCheck :=
  match skus order with
  | [] => emptyPackingCheck
  | _ :: _ =>
      match JS.chain skuArg JS.truthyString with
      | Some name =>
          match findSku order name with
          | None => emptyPackingCheck
          | Some skuItem =>
              let at_ :=
                JS.orDefault (JS.orElse (skuPackedAt skuItem) packedArg) now in
              let skuCheck :=
                checkSKUSLAViolation dealerSlas now order name at_ in
              {| pc_hasViolation := hasViolation skuCheck;
                 pc_violation := violation skuCheck;
                 skuViolations :=
                   match skuCheck with
                   | Violation v => [{| sv_sku := name; sv_violation := v |}]
                   | NoViolation => []
                   end;
                 allSkusViolated := Some (hasViolation skuCheck);
                 partialMessage := None |}
          end
      | None =>
          let packedSkus := filter isPacked (skus order) in
          match packedSkus with
          | [] => emptyPackingCheck
          | _ :: _ =>
              let final :=
                fold_left (loopBody dealerSlas now order packedArg) packedSkus
                  {| l_skuViolations := [];
                     l_allSkusViolated := true;
                     l_hasAnyViolation := false |} in
              let svs := l_skuViolations final in
              let orderViolated :=
                l_hasAnyViolation final && l_allSkusViolated final &&
                Nat.eqb (List.length svs) (List.length packedSkus) in
              if orderViolated then
                let maxViolation := maxViolationOf svs in
                {| pc_hasViolation := true;
                   pc_violation :=
                     match maxViolation with
                     | Some mv =>
                         let v := sv_violation mv in
                         Some {| v_dealer_id := v_dealer_id v;
                                 v_order_id := _id order;
                                 v_sku := None;
                                 expected_fulfillment_time :=
                                   expected_fulfillment_time v;
                                 actual_fulfillment_time :=
                                   actual_fulfillment_time v;
                                 violation_minutes := violation_minutes v;
                                 notes :=
                                   OrderNote (List.length svs) (violation_minutes v) |}
                     | None => None
                     end;
                   skuViolations := svs;
                   allSkusViolated := Some true;
                   partialMessage := None |}
              else
                {| pc_hasViolation := false;
                   pc_violation := None;
                   skuViolations := svs;
                   allSkusViolated := Some false;
                   partialMessage :=
                     if (0 <? List.length svs)%nat
                     then Some (List.length svs, List.length packedSkus) else None |}
          end
      end
  end.

End Checks.

(** The document [recordSKUViolations] and [recordSLAViolation] store for a
    violation object: [sku: violationData.sku || null], [resolved: false]. *)
Definition toRecord (v : ViolationData) : SLAViolation :=
  {| r_dealer_id := v_dealer_id v;
     r_order_id := v_order_id v;
     r_sku := JS.chain (v_sku v) JS.truthyString;
     r_expected_fulfillment_time := expected_fulfillment_time v;
     r_actual_fulfillment_time := actual_fulfillment_time v;
     r_violation_minutes := violation_minutes v;
     r_notes := notes v;
     resolved := false |}.

(** [recordSLAViolation(violationData)]: [violation.save()] *)
Definition recordSLAViolation (v : ViolationData)
    (ledger : list SLAViolation) : list SLAViolation :=
  ledger ++ [toRecord v].

(** [recordSKUViolations(violations)]: [SLAViolation.insertMany] *)
Definition recordSKUViolations (vs : list ViolationData)
    (ledger : list SLAViolation) : list SLAViolation :=
  ledger ++ map toRecord vs.

(** The patch of [updateOrderWithSLAViolation]. *)
Definition slaPatch (v : ViolationData) (o : Order) : Order :=
  {| _id := _id o;
     orderId := orderId o;
     customerDetails := customerDetails o;
     skus := skus o;
     dealerMapping := dealerMapping o;
     orderDate := orderDate o;
     createdAt := createdAt o;
     payment_id := payment_id o;
     slaInfo :=
       {| actualFulfillmentTime := Some (actual_fulfillment_time v);
          isSLAMet := Some false;
          violationMinutes := Some (violation_minutes v);
          expectedFulfillmentTime := Some (expected_fulfillment_time v) |} |}.

(** [updateOrderWithSLAViolation(orderId, violationData)] *)
Definition updateOrderWithSLAViolation (id : string) (v : ViolationData)
    (orders : list Order) : list Order :=
  updateOrderById (slaPatch v) id orders.

End SlaViolationUtils.


(** ** SLA violation middleware *)

Module SlaMiddleware.
Import JSDate SlaUtils OrderModel SlaViolationUtils.

(** The collections the sweep reads and writes. *)
Record Store := {
  violations : list SLAViolation;
  orders : list Order
}.

Section Middleware.

Variable tz : Z.

(** The filter of [checkOrderSLAViolation]: packed, with a packing time,
    and neither delivered nor cancelled. *)
Definition isPackedActive (s : SkuItem) : bool :=
  JS.strictEqOpt (trackingStatus s) (Some "Packed") &&
  JS.isSome (skuPackedAt s) &&
  negb (JS.strictEqOpt (trackingStatus s) (Some "Delivered")) &&
  negb (JS.strictEqOpt (trackingStatus s) (Some "Cancelled")).

(** [SLAViolation.find({ order_id, sku: { $in: names }, resolved: false })] *)
Definition findExistingViolations (ledger : list SLAViolation)
    (order_id : string) (names : list string) : list SLAViolation :=
  filter
    (fun r =>
       String.eqb (r_order_id r) order_id &&
       match r_sku r with
       | Some s => existsb (String.eqb s) names
       | None => false
       end &&
       negb (resolved r))
    ledger.

(** [existingSkuSet.has(sku)], the set being
    [new Set(existingViolations.map(v => v.sku?.toString()))]. *)
Definition existingSkuSetHas (existing : list SLAViolation) (name : string)
    : bool :=
  existsb (fun key => JS.strictEqOpt key (Some name)) (map r_sku existing).

(** [SLAViolation.findOne({ order_id, sku: null, resolved: false })] *)
Definition findExistingOrderViolation (ledger : list SLAViolation)
    (order_id : string) : option SLAViolation :=
  find
    (fun r =>
       String.eqb (r_order_id r) order_id &&
       negb (JS.isSome (r_sku r)) &&
       negb (resolved r))
    ledger.

(** The first half of [checkOrderSLAViolation]: the SKU-level violations
    that have no unresolved record yet are inserted. *)
Definition recordNewSkuViolations (order : Order) (slaCheck : PackingCheck)
    (ledger : list SLAViolation) : list SLAViolation :=
  match skuViolations slaCheck with
  | [] => ledger
  | _ :: _ =>
      let existingViolations :=
        findExistingViolations ledger (_id order)
          (map sv_sku (skuViolations slaCheck)) in
      let newViolations :=
        filter (fun sv => negb (existingSkuSetHas existingViolations (sv_sku sv)))
          (skuViolations slaCheck) in
      match newViolations with
      | [] => ledger
      | _ :: _ => recordSKUViolations (map sv_violation newViolations) ledger
      end
  end.

(** [checkOrderSLAViolation(order)] *)
Definition checkOrderSLAViolation (dealerSlas : list DealerSLA) (now : Date)
    (order : Order) (st : Store) : bool * Store :=
  match skus order with
  | [] => (false, st)
  | _ :: _ =>
      match filter isPackedActive (skus order) with
      | [] => (false, st)
      | _ :: _ =>
          let slaCheck :=
            checkSLAViolationOnPacking tz dealerSlas now order None None in
          let ledger := recordNewSkuViolations order slaCheck (violations st) in
          let anySkuViolation := (0 <? List.length (skuViolations slaCheck))%nat in
          match pc_hasViolation slaCheck, pc_violation slaCheck,
                allSkusViolated slaCheck with
          | true, Some v, Some true =>
              match findExistingOrderViolation ledger (_id order) with
              | None =>
                  (true,
                   {| violations := ledger;
                      orders :=
                        updateOrderWithSLAViolation (_id order) v (orders st) |})
              | Some _ =>
                  (anySkuViolation,
                   {| violations := ledger; orders := orders st |})
              end
          | _, _, _ =>
              (anySkuViolation, {| violations := ledger; orders := orders st |})
          end
      end
  end.

(** The middleware's own copy of [calculateExpectedFulfillmentTime]. *)
Definition calculateExpectedFulfillmentTime
    (orderDate : Date) (dealerSLA : option DealerSLA) : option Date :=
  match dealerSLA with
  | None => None
  | Some d =>
      match sla_type d with
      | None => None
      | Some ty =>
          let expectedTime :=
            if Z.eqb (expected_hours ty) 0 then orderDate
            else setHours tz orderDate (getHours tz orderDate + expected_hours ty) in
          match dispatch_hours d with
          | None => Some expectedTime
          | Some w =>
              let fulfillmentHour := getHours tz expectedTime in
              if fulfillmentHour <? start w then
                Some (setHours4 tz expectedTime (start w) 0 0 0)
              else if fulfillmentHour >? end_ w then
                Some (setHours4 tz (addDays expectedTime 1) (start w) 0 0 0)
              else Some expectedTime
          end
      end
  end.

End Middleware.

(** Unresolved ledger entries of an order for a SKU slot
    ([None] is the order-level slot). *)
Definition unresolvedFor (order_id : string) (slot : option string)
    (ledger : list SLAViolation) : list SLAViolation :=
  filter
    (fun r =>
       String.eqb (r_order_id r) order_id &&
       JS.strictEqOpt (r_sku r) slot &&
       negb (resolved r))
    ledger.

End SlaMiddleware.


(** ** Return requests (models/return, as the controller uses it) *)

Module ReturnModel.
Import JSDate.

Inductive ReturnStatus :=
| Requested
| Validated
| Pickup_Scheduled
| Pickup_Completed
| Under_Inspection
| Approved
| Rejected
| Refund_Processed
| Completed.

Definition statusEqb (a b : ReturnStatus) : bool :=
  match a, b with
  | Requested, Requested
  | Validated, Validated
  | Pickup_Scheduled, Pickup_Scheduled
  | Pickup_Completed, Pickup_Completed
  | Under_Inspection, Under_Inspection
  | Approved, Approved
  | Rejected, Rejected
  | Refund_Processed, Refund_Processed
  | Completed, Completed => true
  | _, _ => false
  end.

(** The status as the string the source compares and stores. *)
Definition statusName (s : ReturnStatus) : string :=
  match s with
  | Requested => "Requested"
  | Validated => "Validated"
  | Pickup_Scheduled => "Pickup_Scheduled"
  | Pickup_Completed => "Pickup_Completed"
  | Under_Inspection => "Under_Inspection"
  | Approved => "Approved"
  | Rejected => "Rejected"
  | Refund_Processed => "Refund_Processed"
  | Completed => "Completed"
  end.

(** [borzoResponse?.order_id || `PICKUP_${Date.now()}`] *)
Inductive PickupId :=
| BorzoPickup (order_id : string)
| LocalPickup (at_ : Date).

(** [borzoResponse?.tracking_number || `TRK_${Date.now()}`], or the number
    the carrier reports on completion. *)
Inductive TrackingNumber :=
| Tracking (number : string)
| LocalTracking (at_ : Date).

(** The pickup sub-record; the address and geocoding payload is left out. *)
Record PickupRequest := {
  pickupId : option PickupId;
  scheduledDate : option Date;
  logisticsPartner : option string;
  trackingNumber : option TrackingNumber;
  borzoOrderId : option string;
  borzoTrackingUrl : option string;
  completedDate : option Date
}.

Record Inspection := {
  inspectedBy : option string;
  inspectedAt : option Date;
  skuMatch : option bool;
  condition : option string;
  conditionNotes : option string;
  inspectionImages : list string;
  isApproved : option bool;
  rejectionReason : option string
}.

Record Refund := {
  refundAmount : Q;
  processedBy : option string;
  processedAt : option Date;
  refundMethod : option string;
  refundStatus : option string;
  transactionId : option string;
  refundNotes : option string;
  refund_id : option nat
}.

Record Timestamps := {
  requestedAt : option Date;
  validatedAt : option Date;
  pickupScheduledAt : option Date;
  pickupCompletedAt : option Date;
  inspectionStartedAt : option Date;
  inspectionCompletedAt : option Date;
  refundProcessedAt : option Date;
  completedAt : option Date
}.

Record Note := {
  note : option string;
  addedBy : option string
}.

Record Return := {
  _id : nat;
  orderId : string;
  customerId : string;
  sku : string;
  quantity : Z;
  returnReason : string;
  returnDescription : option string;
  returnImages : list string;
  isEligible : bool;
  eligibilityReason : string;
  isWithinReturnWindow : option bool;
  isProductReturnable : option bool;
  returnWindowDays : option Z;
  originalOrderDate : option Date;
  originalDeliveryDate : option Date;
  dealerId : option string;
  returnStatus : ReturnStatus;
  actionTaken : option string;
  refund : Refund;
  pickupRequest : PickupRequest;
  inspection : Inspection;
  timestamps : Timestamps;
  notes : list Note
}.

Definition emptyPickupRequest : PickupRequest :=
  {| pickupId := None; scheduledDate := None; logisticsPartner := None;
     trackingNumber := None; borzoOrderId := None; borzoTrackingUrl := None;
     completedDate := None |}.

Definition emptyInspection : Inspection :=
  {| inspectedBy := None; inspectedAt := None; skuMatch := None;
     condition := None; conditionNotes := None; inspectionImages := [];
     isApproved := None; rejectionReason := None |}.

(** Assignments to the fields of a return request. *)

Definition setReturnStatus (s : ReturnStatus) (r : Return) : Return :=
  {| _id := _id r; orderId := orderId r; customerId := customerId r;
     sku := sku r; quantity := quantity r; returnReason := returnReason r;
     returnDescription := returnDescription r; returnImages := returnImages r;
     isEligible := isEligible r; eligibilityReason := eligibilityReason r;
     isWithinReturnWindow := isWithinReturnWindow r;
     isProductReturnable := isProductReturnable r;
     returnWindowDays := returnWindowDays r;
     originalOrderDate := originalOrderDate r;
     originalDeliveryDate := originalDeliveryDate r; dealerId := dealerId r;
     returnStatus := s; actionTaken := actionTaken r; refund := refund r;
     pickupRequest := pickupRequest r; inspection := inspection r;
     timestamps := timestamps r; notes := notes r |}.

Definition setActionTaken (a : string) (r : Return) : Return :=
  {| _id := _id r; orderId := orderId r; customerId := customerId r;
     sku := sku r; quantity := quantity r; returnReason := returnReason r;
     returnDescription := returnDescription r; returnImages := returnImages r;
     isEligible := isEligible r; eligibilityReason := eligibilityReason r;
     isWithinReturnWindow := isWithinReturnWindow r;
     isProductReturnable := isProductReturnable r;
     returnWindowDays := returnWindowDays r;
     originalOrderDate := originalOrderDate r;
     originalDeliveryDate := originalDeliveryDate r; dealerId := dealerId r;
     returnStatus := returnStatus r; actionTaken := Some a; refund := refund r;
     pickupRequest := pickupRequest r; inspection := inspection r;
     timestamps := timestamps r; notes := notes r |}.

Definition setRefund (f : Refund) (r : Return) : Return :=
  {| _id := _id r; orderId := orderId r; customerId := customerId r;
     sku := sku r; quantity := quantity r; returnReason := returnReason r;
     returnDescription := returnDescription r; returnImages := returnImages r;
     isEligible := isEligible r; eligibilityReason := eligibilityReason r;
     isWithinReturnWindow := isWithinReturnWindow r;
     isProductReturnable := isProductReturnable r;
     returnWindowDays := returnWindowDays r;
     originalOrderDate := originalOrderDate r;
     originalDeliveryDate := originalDeliveryDate r; dealerId := dealerId r;
     returnStatus := returnStatus r; actionTaken := actionTaken r; refund := f;
     pickupRequest := pickupRequest r; inspection := inspection r;
     timestamps := timestamps r; notes := notes r |}.

Definition setPickupRequest (p : PickupRequest) (r : Return) : Return :=
  {| _id := _id r; orderId := orderId r; customerId := customerId r;
     sku := sku r; quantity := quantity r; returnReason := returnReason r;
     returnDescription := returnDescription r; returnImages := returnImages r;
     isEligible := isEligible r; eligibilityReason := eligibilityReason r;
     isWithinReturnWindow := isWithinReturnWindow r;
     isProductReturnable := isProductReturnable r;
     returnWindowDays := returnWindowDays r;
     originalOrderDate := originalOrderDate r;
     originalDeliveryDate := originalDeliveryDate r; dealerId := dealerId r;
     returnStatus := returnStatus r; actionTaken := actionTaken r;
     refund := refund r; pickupRequest := p; inspection := inspection r;
     timestamps := timestamps r; notes := notes r |}.

Definition setInspection (i : Inspection) (r : Return) : Return :=
  {| _id := _id r; orderId := orderId r; customerId := customerId r;
     sku := sku r; quantity := quantity r; returnReason := returnReason r;
     returnDescription := returnDescription r; returnImages := returnImages r;
     isEligible := isEligible r; eligibilityReason := eligibilityReason r;
     isWithinReturnWindow := isWithinReturnWindow r;
     isProductReturnable := isProductReturnable r;
     returnWindowDays := returnWindowDays r;
     originalOrderDate := originalOrderDate r;
     originalDeliveryDate := originalDeliveryDate r; dealerId := dealerId r;
     returnStatus := returnStatus r; actionTaken := actionTaken r;
     refund := refund r; pickupRequest := pickupRequest r; inspection := i;
     timestamps := timestamps r; notes := notes r |}.

Definition setTimestamps (t : Timestamps) (r : Return) : Return :=
  {| _id := _id r; orderId := orderId r; customerId := customerId r;
     sku := sku r; quantity := quantity r; returnReason := returnReason r;
     returnDescription := returnDescription r; returnImages := returnImages r;
     isEligible := isEligible r; eligibilityReason := eligibilityReason r;
     isWithinReturnWindow := isWithinReturnWindow r;
     isProductReturnable := isProductReturnable r;
     returnWindowDays := returnWindowDays r;
     originalOrderDate := originalOrderDate r;
     originalDeliveryDate := originalDeliveryDate r; dealerId := dealerId r;
     returnStatus := returnStatus r; actionTaken := actionTaken r;
     refund := refund r; pickupRequest := pickupRequest r;
     inspection := inspection r; timestamps := t; notes := notes r |}.

Definition setNotes (n : list Note) (r : Return) : Return :=
  {| _id := _id r; orderId := orderId r; customerId := customerId r;
     sku := sku r; quantity := quantity r; returnReason := returnReason r;
     returnDescription := returnDescription r; returnImages := returnImages r;
     isEligible := isEligible r; eligibilityReason := eligibilityReason r;
     isWithinReturnWindow := isWithinReturnWindow r;
     isProductReturnable := isProductReturnable r;
     returnWindowDays := returnWindowDays r;
     originalOrderDate := originalOrderDate r;
     originalDeliveryDate := originalDeliveryDate r; dealerId := dealerId r;
     returnStatus := returnStatus r; actionTaken := actionTaken r;
     refund := refund r; pickupRequest := pickupRequest r;
     inspection := inspection r; timestamps := timestamps r; notes := n |}.

(** The result of the eligibility evaluator. *)
Record Eligibility := {
  e_isEligible : bool;
  e_reason : string;
  e_isWithinReturnWindow : option bool;
  e_isProductReturnable : option bool;
  e_returnWindowDays : option Z
}.

Definition setEligibility (e : Eligibility) (r : Return) : Return :=
  {| _id := _id r; orderId := orderId r; customerId := customerId r;
     sku := sku r; quantity := quantity r; returnReason := returnReason r;
     returnDescription := returnDescription r; returnImages := returnImages r;
     isEligible := e_isEligible e; eligibilityReason := e_reason e;
     isWithinReturnWindow := e_isWithinReturnWindow e;
     isProductReturnable := e_isProductReturnable e;
     returnWindowDays := returnWindowDays r;
     originalOrderDate := originalOrderDate r;
     originalDeliveryDate := originalDeliveryDate r; dealerId := dealerId r;
     returnStatus := returnStatus r; actionTaken := actionTaken r;
     refund := refund r; pickupRequest := pickupRequest r;
     inspection := inspection r; timestamps := timestamps r; notes := notes r |}.

(** models/paymentModel: [payment_id] is the provider's payment id. *)
Record Payment := {
  p_id : string;
  p_payment_id : option string
}.

(** models/refund *)
Record RefundRecord := {
  rr_id : nat;
  rr_order_id : string;
  rr_return_id : nat;
  razorpay_payout_id : option string;
  razorpay_refund_id : option string;
  rr_amount : Q;
  rr_currency : string;
  rr_status : string;
  refund_type : string;
  rr_reason : string
}.

(** A notification handed to the notification service. *)
Record Notification := {
  recipients : list string;
  title : string;
  n_returnId : nat
}.

(** A request sent to the payment gateway. *)
Inductive ProviderCall :=
| CreateContact
| CreateFundAccount (contact_id : string)
| CreatePayout (fund_account_id : string) (amount : Z)
| FetchPayment (payment_id : string)
| CreateRefund (payment_id : string) (amount : Z).

(** The persisted state and the log of outgoing effects. *)
Record Db := {
  returns : list Return;
  orders : list OrderModel.Order;
  payments : list Payment;
  refunds : list RefundRecord;
  notifications : list Notification;
  providerCalls : list ProviderCall;
  nextId : nat
}.

(** [Return.findById] *)
Definition findById (rs : list Return) (id : nat) : option Return :=
  find (fun r => Nat.eqb (_id r) id) rs.

(** [Return.findOne({ orderId, sku })] *)
Definition findByOrderAndSku (rs : list Return) (o s : string)
    : option Return :=
  find (fun r => String.eqb (orderId r) o && String.eqb (sku r) s) rs.

(** [returnRequest.save()] *)
Fixpoint saveReturn (r : Return) (rs : list Return) : list Return :=
  match rs with
  | [] => []
  | x :: rest =>
      if Nat.eqb (_id x) (_id r) then r :: rest
      else x :: saveReturn r rest
  end.

Definition withReturns (rs : list Return) (db : Db) : Db :=
  {| returns := rs; orders := orders db; payments := payments db;
     refunds := refunds db; notifications := notifications db;
     providerCalls := providerCalls db; nextId := nextId db |}.

Definition withOrders (os : list OrderModel.Order) (db : Db) : Db :=
  {| returns := returns db; orders := os; payments := payments db;
     refunds := refunds db; notifications := notifications db;
     providerCalls := providerCalls db; nextId := nextId db |}.

Definition save (r : Return) (db : Db) : Db :=
  withReturns (saveReturn r (returns db)) db.

(** [createUnicastOrMulticastNotificationUtilityFunction]: the notification
    is handed over and the call returns.  A call that throws is not part of
    this model: the handlers would answer it from their [catch], with their
    "Failed to ..." message, after what they saved. *)
Definition notify (to : list string) (t : string) (id : nat) (db : Db) : Db :=
  {| returns := returns db; orders := orders db; payments := payments db;
     refunds := refunds db;
     notifications :=
       notifications db ++ [{| recipients := to; title := t; n_returnId := id |}];
     providerCalls := providerCalls db; nextId := nextId db |}.

Definition logCall (c : ProviderCall) (db : Db) : Db :=
  {| returns := returns db; orders := orders db; payments := payments db;
     refunds := refunds db; notifications := notifications db;
     providerCalls := providerCalls db ++ [c]; nextId := nextId db |}.

(** [new Refund({...}).save()]: the record gets a fresh id. *)
Definition insertRefund (mk : nat -> RefundRecord) (db : Db) : nat * Db :=
  (nextId db,
   {| returns := returns db; orders := orders db; payments := payments db;
      refunds := refunds db ++ [mk (nextId db)];
      notifications := notifications db; providerCalls := providerCalls db;
      nextId := S (nextId db) |}).

(** [Return.create({...})]: the document gets a fresh id. *)
Definition insertReturn (mk : nat -> Return) (db : Db) : Return * Db :=
  (mk (nextId db),
   {| returns := returns db ++ [mk (nextId db)]; orders := orders db;
      payments := payments db; refunds := refunds db;
      notifications := notifications db; providerCalls := providerCalls db;
      nextId := S (nextId db) |}).

End ReturnModel.


(** ** The return controller (controllers/return.js) *)

Module ReturnController.
Import JSDate ReturnModel.
Module O := OrderModel.

(** *** Collaborators *)

(** The answer of the product catalog: [data.success] and
    [data.data?.is_returnable]. *)
Record ProductResponse := {
  success : bool;
  is_returnable : option bool
}.

(** The answer of the logistics gateway. *)
Record BorzoResponse := {
  order_id : option string;
  tracking_number : option string;
  tracking_url : option string
}.

Record BankDetails := {
  account_number : option string;
  ifsc_code : option string;
  bank_account_holder_name : option string
}.

(** The answer of the user directory. *)
Record UserData := { bank_details : option BankDetails }.

(** The payout the payment gateway created. *)
Record PayoutData := {
  po_id : string;
  po_currency : option string;
  po_status : string
}.

(** The payment as the gateway reports it, amounts in paise. *)
Record PaymentDetails := {
  pd_amount : option Z;
  pd_amount_refunded : option Z
}.

(** The refund the payment gateway created. *)
Record RefundData := {
  rf_id : string;
  rf_currency : option string;
  rf_status : string;
  rf_error_description : option string
}.

(** What the outside world answers during one operation; [None] is a call
    that throws.  [now] is the value of [new Date()] and [Date.now()]. *)
Record Env := {
  now : Date;
  productResponse : option ProductResponse;
  borzoResponse : option BorzoResponse;
  userResponse : option UserData;
  contactResp : option string;
  fundResp : option string;
  payoutResp : option PayoutData;
  paymentDetailsResponse : option PaymentDetails;
  refundResponse : option RefundData
}.

(** *** Results *)

(** The message of the error [processRefundPayment] catches, by the place
    that throws it. *)
Inductive RefundFailure :=
| OrderNotFound
| PaymentNotFound
| PaymentIdNotFound
| InsufficientBalance (refundAmount : Q) (refundableBalance : Z)
| RefundFailed (description : option string)
| GatewayError.

(** [{ success: true, transactionId, refundId, refundType }] or
    [{ success: false, message }]. *)
Inductive RefundResult :=
| RefundSucceeded (transactionId : string) (refundId : nat) (refundType : string)
| RefundNotProcessed (message : RefundFailure).

Definition succeeded (r : RefundResult) : bool :=
  match r with
  | RefundSucceeded _ _ _ => true
  | RefundNotProcessed _ => false
  end.

(** The text given to [sendError]. *)
Inductive ErrorMessage :=
| Plain (text : string)
| RefundProcessingFailed (message : RefundFailure).

Inductive Response :=
| SendSuccess (data : Return) (message : string)
| SendError (message : ErrorMessage).

(** Truthiness of a string that may be missing. *)
Definition truthy (s : option string) : option string :=
  JS.chain s JS.truthyString.

(** *** Assignments to the timestamp ledger *)

Definition stampValidatedAt (d : option Date) (t : Timestamps) : Timestamps :=
  {| requestedAt := requestedAt t; validatedAt := d;
     pickupScheduledAt := pickupScheduledAt t;
     pickupCompletedAt := pickupCompletedAt t;
     inspectionStartedAt := inspectionStartedAt t;
     inspectionCompletedAt := inspectionCompletedAt t;
     refundProcessedAt := refundProcessedAt t; completedAt := completedAt t |}.

Definition stampPickupScheduledAt (d : Date) (t : Timestamps) : Timestamps :=
  {| requestedAt := requestedAt t; validatedAt := validatedAt t;
     pickupScheduledAt := Some d;
     pickupCompletedAt := pickupCompletedAt t;
     inspectionStartedAt := inspectionStartedAt t;
     inspectionCompletedAt := inspectionCompletedAt t;
     refundProcessedAt := refundProcessedAt t; completedAt := completedAt t |}.

Definition stampPickupCompletedAt (d : Date) (t : Timestamps) : Timestamps :=
  {| requestedAt := requestedAt t; validatedAt := validatedAt t;
     pickupScheduledAt := pickupScheduledAt t;
     pickupCompletedAt := Some d;
     inspectionStartedAt := inspectionStartedAt t;
     inspectionCompletedAt := inspectionCompletedAt t;
     refundProcessedAt := refundProcessedAt t; completedAt := completedAt t |}.

Definition stampInspectionStartedAt (d : Date) (t : Timestamps) : Timestamps :=
  {| requestedAt := requestedAt t; validatedAt := validatedAt t;
     pickupScheduledAt := pickupScheduledAt t;
     pickupCompletedAt := pickupCompletedAt t;
     inspectionStartedAt := Some d;
     inspectionCompletedAt := inspectionCompletedAt t;
     refundProcessedAt := refundProcessedAt t; completedAt := completedAt t |}.

Definition stampInspectionCompletedAt (d : Date) (t : Timestamps) : Timestamps :=
  {| requestedAt := requestedAt t; validatedAt := validatedAt t;
     pickupScheduledAt := pickupScheduledAt t;
     pickupCompletedAt := pickupCompletedAt t;
     inspectionStartedAt := inspectionStartedAt t;
     inspectionCompletedAt := Some d;
     refundProcessedAt := refundProcessedAt t; completedAt := completedAt t |}.

Definition stampRefundProcessedAt (d : Date) (t : Timestamps) : Timestamps :=
  {| requestedAt := requestedAt t; validatedAt := validatedAt t;
     pickupScheduledAt := pickupScheduledAt t;
     pickupCompletedAt := pickupCompletedAt t;
     inspectionStartedAt := inspectionStartedAt t;
     inspectionCompletedAt := inspectionCompletedAt t;
     refundProcessedAt := Some d; completedAt := completedAt t |}.

Definition stampCompletedAt (d : Date) (t : Timestamps) : Timestamps :=
  {| requestedAt := requestedAt t; validatedAt := validatedAt t;
     pickupScheduledAt := pickupScheduledAt t;
     pickupCompletedAt := pickupCompletedAt t;
     inspectionStartedAt := inspectionStartedAt t;
     inspectionCompletedAt := inspectionCompletedAt t;
     refundProcessedAt := refundProcessedAt t; completedAt := Some d |}.

(** *** Helper functions of the controller *)

Module Helpers.

(** [productResponse.data?.success] and then
    [productResponse.data.data?.is_returnable || false]; a call that throws
    leaves [isProductReturnable = false]. *)
Definition productReturnable (resp : option ProductResponse) : bool :=
  match resp with
  | Some p => if success p then JS.orDefault (is_returnable p) false else false
  | None => false
  end.

Definition ineligible (why : string) : Eligibility :=
  {| e_isEligible := false; e_reason := why;
     e_isWithinReturnWindow := None; e_isProductReturnable := None;
     e_returnWindowDays := None |}.

(** [validateReturnEligibility(order, sku)] *)
Definition validateReturnEligibility (env : Env) (order : O.Order)
    (name : string) : Eligibility :=
  match O.findSku order name with
  | None => ineligible "SKU not found in order"
  | Some orderSku =>
      match O.skuDeliveredAt orderSku with
      | None => ineligible "Delivery date not found"
      | Some deliveryDate =>
          let returnWindowDays := 7 in
          let returnDeadline := addDays deliveryDate returnWindowDays in
          let isWithinReturnWindow := now env <=? returnDeadline in
          let isProductReturnable := productReturnable (productResponse env) in
          let isEligible := isWithinReturnWindow && isProductReturnable in
          let reason :=
            if isEligible then "Return request is eligible"
            else if negb isWithinReturnWindow then "Return window has expired"
            else "Product is not returnable" in
          {| e_isEligible := isEligible; e_reason := reason;
             e_isWithinReturnWindow := Some isWithinReturnWindow;
             e_isProductReturnable := Some isProductReturnable;
             e_returnWindowDays := Some returnWindowDays |}
      end
  end.

(** [createLogisticsPickupRequest]: the booking with the carrier is best
    effort; only a missing order throws ([None]). *)
Definition createLogisticsPickupRequest (env : Env) (db : Db)
    (returnRequest : Return) (scheduled : option Date)
    : option PickupRequest :=
  match O.findOrderById (orders db) (orderId returnRequest) with
  | None => None
  | Some _ =>
      let borzoOrder := truthy (JS.chain (borzoResponse env) order_id) in
      Some
        {| pickupId :=
             Some match borzoOrder with
                  | Some id => BorzoPickup id
                  | None => LocalPickup (now env)
                  end;
           scheduledDate := Some (JS.orDefault scheduled (now env));
           logisticsPartner := Some "Borzo";
           trackingNumber :=
             Some match truthy (JS.chain (borzoResponse env) tracking_number) with
                  | Some n => Tracking n
                  | None => LocalTracking (now env)
                  end;
           borzoOrderId := borzoOrder;
           borzoTrackingUrl :=
             truthy (JS.chain (borzoResponse env) tracking_url);
           completedDate := None |}
  end.

(** [{ ...returnRequest.pickupRequest, ...pickupRequest }]: the new request
    has every key but [completedDate]. *)
Definition mergePickup (old new : PickupRequest) : PickupRequest :=
  {| pickupId := pickupId new; scheduledDate := scheduledDate new;
     logisticsPartner := logisticsPartner new;
     trackingNumber := trackingNumber new; borzoOrderId := borzoOrderId new;
     borzoTrackingUrl := borzoTrackingUrl new;
     completedDate := completedDate old |}.

(** The update both pickup schedulers make. *)
Definition markPickupScheduled (env : Env) (p : PickupRequest) (r : Return)
    : Return :=
  setTimestamps (stampPickupScheduledAt (now env) (timestamps r))
    (setPickupRequest (mergePickup (pickupRequest r) p)
       (setReturnStatus Pickup_Scheduled r)).

(** [schedulePickup(returnId, authToken)], the helper called after a
    successful validation; [None] when it throws. *)
Definition schedulePickup (env : Env) (returnId : nat) (db : Db) : option Db :=
  match findById (returns db) returnId with
  | None => None
  | Some returnRequest =>
      match createLogisticsPickupRequest env db returnRequest
              (Some (addDays (now env) 1)) with
      | None => None
      | Some pickup => Some (save (markPickupScheduled env pickup returnRequest) db)
      end
  end.

(** [findFulfillmentAdmins()] *)
Definition findFulfillmentAdmins : list string := [].

Definition hasBankAccount (user : option UserData) : bool :=
  match JS.chain user bank_details with
  | Some b =>
      JS.isSome (truthy (account_number b)) &&
      JS.isSome (truthy (ifsc_code b)) &&
      JS.isSome (truthy (bank_account_holder_name b))
  | None => false
  end.

(** [hasBankAccount && (refundMethod === "Bank_Account" ||
      refundMethod === "Wallet" || !payment.payment_id)] *)
Definition useBankPayout (user : option UserData) (refundMethod : string)
    (payment : Payment) : bool :=
  hasBankAccount user &&
  (String.eqb refundMethod "Bank_Account" ||
   String.eqb refundMethod "Wallet" ||
   negb (JS.isSome (truthy (p_payment_id payment)))).

(** [Math.round(refundAmount * 100)], the amount in paise. *)
Definition toPaise (refundAmount : Q) : Z :=
  JS.round (refundAmount * 100)%Q.

(** The three requests of the bank payout; the first that throws ends the
    attempt. *)
Definition requestPayout (env : Env) (refundAmount : Q) (db : Db)
    : option PayoutData * Db :=
  let db1 := logCall CreateContact db in
  match contactResp env with
  | None => (None, db1)
  | Some contactId =>
      let db2 := logCall (CreateFundAccount contactId) db1 in
      match fundResp env with
      | None => (None, db2)
      | Some fundAccountId =>
          let db3 :=
            logCall (CreatePayout fundAccountId (toPaise refundAmount)) db2 in
          (payoutResp env, db3)
      end
  end.

Definition setRefundId (id : nat) (f : Refund) : Refund :=
  {| refundAmount := refundAmount f; processedBy := processedBy f;
     processedAt := processedAt f; refundMethod := refundMethod f;
     refundStatus := refundStatus f; transactionId := transactionId f;
     refundNotes := refundNotes f; refund_id := Some id |}.

(** The ledger entry and the stamp on the return request, after the
    provider accepted the refund. *)
Definition recordRefund (mk : nat -> RefundRecord) (returnRequest : Return)
    (db : Db) : nat * Return * Db :=
  let (id, db1) := insertRefund mk db in
  let returnRequest1 :=
    setRefund (setRefundId id (refund returnRequest)) returnRequest in
  (id, returnRequest1, save returnRequest1 db1).

(** The refund to the source account. *)
Definition sourceRefund (env : Env) (returnRequest : Return)
    (order : O.Order) (payment : Payment) (db : Db)
    : RefundResult * Return * Db :=
  let refundAmount := refundAmount (refund returnRequest) in
  match truthy (p_payment_id payment) with
  | None => (RefundNotProcessed PaymentIdNotFound, returnRequest, db)
  | Some pid =>
      let db1 := logCall (FetchPayment pid) db in
      match paymentDetailsResponse env with
      | None => (RefundNotProcessed GatewayError, returnRequest, db1)
      | Some paymentDetails =>
          let capturedAmount := JS.orDefault (pd_amount paymentDetails) 0 in
          let alreadyRefunded :=
            JS.orDefault (pd_amount_refunded paymentDetails) 0 in
          let requestedRefundAmount := toPaise refundAmount in
          let refundableBalance := capturedAmount - alreadyRefunded in
          if requestedRefundAmount >? refundableBalance then
            (RefundNotProcessed
               (InsufficientBalance refundAmount refundableBalance),
             returnRequest, db1)
          else
            let db2 := logCall (CreateRefund pid requestedRefundAmount) db1 in
            match refundResponse env with
            | None => (RefundNotProcessed GatewayError, returnRequest, db2)
            | Some rf =>
                if String.eqb (rf_status rf) "failed" then
                  (RefundNotProcessed (RefundFailed (rf_error_description rf)),
                   returnRequest, db2)
                else
                  let '(id, returnRequest1, db3) :=
                    recordRefund
                      (fun id =>
                         {| rr_id := id;
                            rr_order_id := O._id order;
                            rr_return_id := _id returnRequest;
                            razorpay_payout_id := None;
                            razorpay_refund_id := Some (rf_id rf);
                            rr_amount := refundAmount;
                            rr_currency := JS.orDefault (truthy (rf_currency rf)) "INR";
                            rr_status := rf_status rf;
                            refund_type := "Refund-Online";
                            rr_reason := "Return refund to source account" |})
                      returnRequest db2 in
                  (RefundSucceeded (rf_id rf) id "Source_Refund",
                   returnRequest1, db3)
            end
      end
  end.

(** [processRefundPayment(returnRequest, refundMethod, authToken)].  The
    return request is the caller's object: the stamp put on it is returned
    with the result. *)
Definition processRefundPayment (env : Env) (returnRequest : Return)
    (method : string) (db : Db) : RefundResult * Return * Db :=
  match O.findOrderById (orders db) (orderId returnRequest) with
  | None => (RefundNotProcessed OrderNotFound, returnRequest, db)
  | Some order =>
      match JS.chain (O.payment_id order)
              (fun id => find (fun p => String.eqb (p_id p) id) (payments db)) with
      | None => (RefundNotProcessed PaymentNotFound, returnRequest, db)
      | Some payment =>
          let refundAmount := refundAmount (refund returnRequest) in
          if useBankPayout (userResponse env) method payment then
            match requestPayout env refundAmount db with
            | (Some payout, db1) =>
                let '(id, returnRequest1, db2) :=
                  recordRefund
                    (fun id =>
                       {| rr_id := id;
                          rr_order_id := O._id order;
                          rr_return_id := _id returnRequest;
                          razorpay_payout_id := Some (po_id payout);
                          razorpay_refund_id := None;
                          rr_amount := refundAmount;
                          rr_currency := JS.orDefault (truthy (po_currency payout)) "INR";
                          rr_status := po_status payout;
                          refund_type := "Refund-COD";
                          rr_reason := "Return refund via bank payout" |})
                    returnRequest db1 in
                (RefundSucceeded (po_id payout) id "Bank_Payout",
                 returnRequest1, db2)
            | (None, db1) => sourceRefund env returnRequest order payment db1
            end
          else sourceRefund env returnRequest order payment db
      end
  end.

End Helpers.

(** *** The exported handlers *)

Module Exports.
Import Helpers.

(** The body and the authenticated user of a create request. *)
Record CreateRequest := {
  c_orderId : option string;
  c_sku : option string;
  c_quantity : option Z;
  c_returnReason : option string;
  c_returnDescription : option string;
  c_returnImages : option (list string);
  c_userId : option string;
  c_customerId : option string
}.

(** [s.return_info = { is_return: true, return_id }] on the items of the
    returned SKU. *)
Definition markReturned (name : string) (id : nat) (s : O.SkuItem)
    : O.SkuItem :=
  if String.eqb (O.sku s) name then
    {| O.sku := O.sku s; O.quantity := O.quantity s;
       O.selling_price := O.selling_price s;
       O.dealerMapped := O.dealerMapped s;
       O.tracking_info := O.tracking_info s;
       O.return_info := Some {| O.is_return := true; O.return_id := id |} |}
  else s.

Definition withSkus (ss : list O.SkuItem) (o : O.Order) : O.Order :=
  {| O._id := O._id o; O.orderId := O.orderId o;
     O.customerDetails := O.customerDetails o; O.skus := ss;
     O.dealerMapping := O.dealerMapping o; O.orderDate := O.orderDate o;
     O.createdAt := O.createdAt o; O.payment_id := O.payment_id o;
     O.slaInfo := O.slaInfo o |}.

(** [exports.createReturnRequest] *)
Definition createReturnRequest (env : Env) (req : CreateRequest) (db : Db)
    : Response * Db :=
  let quantity := JS.orDefault (c_quantity req) 1 in
  let returnImages := JS.orDefault (c_returnImages req) [] in
  let customerId := JS.orElse (truthy (c_userId req)) (c_customerId req) in
  match truthy (c_orderId req), truthy (c_sku req),
        truthy (c_returnReason req), truthy customerId with
  | Some orderId, Some sku, Some returnReason, Some customerId =>
      match findByOrderAndSku (returns db) orderId sku with
      | Some _ =>
          (SendError
             (Plain "Return request already exists for this order and SKU"),
           db)
      | None =>
          match O.findOrderById (orders db) orderId with
          | None => (SendError (Plain "Order not found"), db)
          | Some order =>
              if negb (JS.strictEqOpt
                         (JS.chain (O.customerDetails order) O.userId)
                         (Some customerId))
              then
                (SendError
                   (Plain "Unauthorized: Order does not belong to customer"),
                 db)
              else
                match O.findSku order sku with
                | None => (SendError (Plain "SKU not found in order"), db)
                | Some orderSku =>
                    if quantity >? O.quantity orderSku then
                      (SendError
                         (Plain "Return quantity cannot exceed ordered quantity"),
                       db)
                    else
                      let eligibilityResult :=
                        validateReturnEligibility env order sku in
                      let eligible := e_isEligible eligibilityResult in
                      let (returnRequest, db1) :=
                        insertReturn
                          (fun id =>
                             {| _id := id;
                                orderId := orderId;
                                customerId := customerId;
                                sku := sku;
                                quantity := quantity;
                                returnReason := returnReason;
                                returnDescription := c_returnDescription req;
                                returnImages := returnImages;
                                isEligible := eligible;
                                eligibilityReason := e_reason eligibilityResult;
                                isWithinReturnWindow :=
                                  e_isWithinReturnWindow eligibilityResult;
                                isProductReturnable :=
                                  e_isProductReturnable eligibilityResult;
                                returnWindowDays :=
                                  e_returnWindowDays eligibilityResult;
                                originalOrderDate := O.orderDate order;
                                originalDeliveryDate :=
                                  JS.chain (O.findSku order sku) O.skuDeliveredAt;
                                dealerId :=
                                  JS.chain (JS.first (O.dealerMapped orderSku))
                                    O.dealerId;
                                returnStatus :=
                                  if eligible then Validated else Requested;
                                actionTaken := None;
                                refund :=
                                  {| refundAmount :=
                                       (O.selling_price orderSku
                                        * inject_Z quantity)%Q;
                                     processedBy := None; processedAt := None;
                                     refundMethod := None; refundStatus := None;
                                     transactionId := None; refundNotes := None;
                                     refund_id := None |};
                                pickupRequest := emptyPickupRequest;
                                inspection := emptyInspection;
                                timestamps :=
                                  {| requestedAt := Some (now env);
                                     validatedAt :=
                                       if eligible then Some (now env) else None;
                                     pickupScheduledAt := None;
                                     pickupCompletedAt := None;
                                     inspectionStartedAt := None;
                                     inspectionCompletedAt := None;
                                     refundProcessedAt := None;
                                     completedAt := None |};
                                notes := [] |})
                          db in
                      let order1 :=
                        withSkus
                          (map (markReturned sku (_id returnRequest))
                             (O.skus order))
                          order in
                      let db2 :=
                        withOrders
                          (O.updateOrderById (fun _ => order1) (O._id order)
                             (orders db1))
                          db1 in
                      let db3 :=
                        notify [customerId] "Return Request Created"
                          (_id returnRequest) db2 in
                      if eligible then
                        match schedulePickup env (_id returnRequest) db3 with
                        | Some db4 =>
                            (SendSuccess returnRequest
                               "Return request created successfully",
                             db4)
                        | None =>
                            (SendError (Plain "Failed to create return request"),
                             db3)
                        end
                      else
                        (SendSuccess returnRequest
                           "Return request created successfully",
                         db3)
                end
          end
      end
  | _, _, _, _ =>
      (SendError
         (Plain "Missing required fields: orderId, sku, returnReason, customerId"),
       db)
  end.

(** [exports.validateReturnRequest] *)
Definition validateReturnRequest (env : Env) (returnId : nat) (db : Db)
    : Response * Db :=
  match findById (returns db) returnId with
  | None => (SendError (Plain "Return request not found"), db)
  | Some returnRequest =>
      match O.findOrderById (orders db) (orderId returnRequest) with
      | None => (SendError (Plain "Order not found"), db)
      | Some order =>
          let eligibilityResult :=
            validateReturnEligibility env order (sku returnRequest) in
          let eligible := e_isEligible eligibilityResult in
          let r1 := setEligibility eligibilityResult returnRequest in
          let r2 :=
            setReturnStatus (if eligible then Validated else Requested) r1 in
          let r3 :=
            setTimestamps (stampValidatedAt (Some (now env)) (timestamps r2)) r2 in
          let db1 := save r3 db in
          let db2 :=
            notify [customerId r3] "Return Request Validated" (_id r3) db1 in
          if eligible then
            match schedulePickup env (_id r3) db2 with
            | Some db3 =>
                (SendSuccess r3 "Return request validated successfully", db3)
            | None =>
                (SendError (Plain "Failed to validate return request"), db2)
            end
          else (SendSuccess r3 "Return request validated successfully", db2)
      end
  end.

(** [exports.schedulePickup] *)
Definition schedulePickup (env : Env) (returnId : nat)
    (scheduled : option Date) (db : Db) : Response * Db :=
  match findById (returns db) returnId with
  | None => (SendError (Plain "Return request not found"), db)
  | Some returnRequest =>
      if negb (statusEqb (returnStatus returnRequest) Validated) then
        (SendError
           (Plain "Return request must be validated before scheduling pickup"),
         db)
      else
        match createLogisticsPickupRequest env db returnRequest scheduled with
        | None => (SendError (Plain "Failed to schedule pickup"), db)
        | Some pickup =>
            let r1 := markPickupScheduled env pickup returnRequest in
            let db1 := save r1 db in
            let db2 := notify [customerId r1] "Pickup Scheduled" (_id r1) db1 in
            (SendSuccess r1 "Pickup scheduled successfully", db2)
        end
  end.

Definition setCompletedPickup (d : Date) (n : option string)
    (p : PickupRequest) : PickupRequest :=
  {| pickupId := pickupId p; scheduledDate := scheduledDate p;
     logisticsPartner := logisticsPartner p;
     trackingNumber := option_map Tracking n;
     borzoOrderId := borzoOrderId p; borzoTrackingUrl := borzoTrackingUrl p;
     completedDate := Some d |}.

(** [exports.completePickup] *)
Definition completePickup (env : Env) (returnId : nat)
    (tracking : option string) (db : Db) : Response * Db :=
  match findById (returns db) returnId with
  | None => (SendError (Plain "Return request not found"), db)
  | Some returnRequest =>
      if negb (statusEqb (returnStatus returnRequest) Pickup_Scheduled) then
        (SendError (Plain "Return request must be in Pickup_Scheduled status"),
         db)
      else
        let r1 := setReturnStatus Pickup_Completed returnRequest in
        let r2 :=
          setPickupRequest
            (setCompletedPickup (now env) tracking (pickupRequest r1)) r1 in
        let r3 :=
          setTimestamps (stampPickupCompletedAt (now env) (timestamps r2)) r2 in
        let db1 := save r3 db in
        let db2 :=
          match truthy (dealerId r3) with
          | Some dealer => notify [dealer] "Return Item Received" (_id r3) db1
          | None => db1
          end in
        (SendSuccess r3 "Pickup completed successfully", db2)
  end.

Definition setInspector (staff : option string) (d : Date) (i : Inspection)
    : Inspection :=
  {| inspectedBy := staff; inspectedAt := Some d; skuMatch := skuMatch i;
     condition := condition i; conditionNotes := conditionNotes i;
     inspectionImages := inspectionImages i; isApproved := isApproved i;
     rejectionReason := rejectionReason i |}.

(** [exports.startInspection] *)
Definition startInspection (env : Env) (returnId : nat)
    (staffId : option string) (db : Db) : Response * Db :=
  match findById (returns db) returnId with
  | None => (SendError (Plain "Return request not found"), db)
  | Some returnRequest =>
      if negb (statusEqb (returnStatus returnRequest) Pickup_Completed) then
        (SendError (Plain "Return request must be in Pickup_Completed status"),
         db)
      else
        let r1 := setReturnStatus Under_Inspection returnRequest in
        let r2 :=
          setInspection (setInspector staffId (now env) (inspection r1)) r1 in
        let r3 :=
          setTimestamps (stampInspectionStartedAt (now env) (timestamps r2)) r2 in
        (SendSuccess r3 "Inspection started successfully", save r3 db)
  end.

(** The body of a complete-inspection request. *)
Record InspectionReport := {
  i_skuMatch : option bool;
  i_condition : option string;
  i_conditionNotes : option string;
  i_inspectionImages : option (list string);
  i_isApproved : option bool;
  i_rejectionReason : option string
}.

Definition setInspectionResult (b : InspectionReport) (i : Inspection)
    : Inspection :=
  {| inspectedBy := inspectedBy i; inspectedAt := inspectedAt i;
     skuMatch := i_skuMatch b; condition := i_condition b;
     conditionNotes := i_conditionNotes b;
     inspectionImages := JS.orDefault (i_inspectionImages b) [];
     isApproved := i_isApproved b; rejectionReason := i_rejectionReason b |}.

(** [exports.completeInspection] *)
Definition completeInspection (env : Env) (returnId : nat)
    (body : InspectionReport) (db : Db) : Response * Db :=
  match findById (returns db) returnId with
  | None => (SendError (Plain "Return request not found"), db)
  | Some returnRequest =>
      if negb (statusEqb (returnStatus returnRequest) Under_Inspection) then
        (SendError (Plain "Return request must be in Under_Inspection status"),
         db)
      else
        let approved := JS.orDefault (i_isApproved body) false in
        let r1 :=
          setInspection (setInspectionResult body (inspection returnRequest))
            returnRequest in
        let r2 :=
          setTimestamps
            (stampInspectionCompletedAt (now env) (timestamps r1)) r1 in
        let r3 :=
          if approved then setActionTaken "Refund" (setReturnStatus Approved r2)
          else setActionTaken "Rejected" (setReturnStatus Rejected r2) in
        let db1 := save r3 db in
        let db2 :=
          notify [customerId r3]
            (if approved then "Return Approved" else "Return Rejected")
            (_id r3) db1 in
        let db3 :=
          if approved then
            match findFulfillmentAdmins with
            | [] => db2
            | admins => notify admins "Return Ready for Refund" (_id r3) db2
            end
          else db2 in
        (SendSuccess r3 "Inspection completed successfully", db3)
  end.

(** The body of a process-refund request. *)
Record RefundRequest := {
  adminId : option string;
  rq_refundMethod : option string;
  rq_refundNotes : option string
}.

Definition setProcessedRefund (env : Env) (req : RefundRequest)
    (method : string) (txn : string) (f : Refund) : Refund :=
  {| refundAmount := refundAmount f; processedBy := adminId req;
     processedAt := Some (now env); refundMethod := Some method;
     refundStatus := Some "Completed"; transactionId := Some txn;
     refundNotes := rq_refundNotes req; refund_id := refund_id f |}.

(** [exports.processRefund] *)
Definition processRefund (env : Env) (returnId : nat) (req : RefundRequest)
    (db : Db) : Response * Db :=
  let method := JS.orDefault (rq_refundMethod req) "Original_Payment_Method" in
  match findById (returns db) returnId with
  | None => (SendError (Plain "Return request not found"), db)
  | Some returnRequest =>
      if negb (statusEqb (returnStatus returnRequest) Approved) then
        (SendError
           (Plain "Return request must be approved before processing refund"),
         db)
      else
        match processRefundPayment env returnRequest method db with
        | (RefundNotProcessed message, _, db1) =>
            (SendError (RefundProcessingFailed message), db1)
        | (RefundSucceeded txn _ _, r0, db1) =>
            let r1 := setReturnStatus Refund_Processed r0 in
            let r2 :=
              setRefund (setProcessedRefund env req method txn (refund r1)) r1 in
            let r3 :=
              setTimestamps
                (stampRefundProcessedAt (now env) (timestamps r2)) r2 in
            let db2 := save r3 db1 in
            let db3 := notify [customerId r3] "Refund Processed" (_id r3) db2 in
            (SendSuccess r3 "Refund processed successfully", db3)
        end
  end.

(** [exports.completeReturn] *)
Definition completeReturn (env : Env) (returnId : nat) (db : Db)
    : Response * Db :=
  match findById (returns db) returnId with
  | None => (SendError (Plain "Return request not found"), db)
  | Some returnRequest =>
      if negb (statusEqb (returnStatus returnRequest) Refund_Processed) then
        (SendError
           (Plain "Return request must have refund processed before completion"),
         db)
      else
        let r1 := setReturnStatus Completed returnRequest in
        let r2 := setTimestamps (stampCompletedAt (now env) (timestamps r1)) r1 in
        let db1 := save r2 db in
        let db2 := notify [customerId r2] "Return Completed" (_id r2) db1 in
        (SendSuccess r2 "Return completed successfully", db2)
  end.

(** [exports.addNote] *)
Definition addNote (returnId : nat) (n : Note) (db : Db) : Response * Db :=
  match findById (returns db) returnId with
  | None => (SendError (Plain "Return request not found"), db)
  | Some returnRequest =>
      let r1 := setNotes (notes returnRequest ++ [n]) returnRequest in
      (SendSuccess r1 "Note added successfully", save r1 db)
  end.

End Exports.

End ReturnController.


(** ** Vocabulary of the properties *)

Module SlaSpec.
Import JSDate SlaUtils OrderModel SlaViolationUtils SlaMiddleware.

(** The packed SKUs of an order, as the engine selects them. *)
Definition packedSkus (order : Order) : list SkuItem :=
  filter isPacked (skus order).

(** A packed SKU is individually violated when its own check reports a
    violation. *)
Definition skuViolated (tz : Z) (dealerSlas : list DealerSLA) (now : Date)
    (order : Order) (s : SkuItem) : bool :=
  hasViolation (checkPackedSku tz dealerSlas now order None s).

(** The order date the check uses:
    [order.orderDate || order.createdAt || new Date()]. *)
Definition orderDateOf (order : Order) (now : Date) : Date :=
  JS.orDefault (JS.orElse (orderDate order) (createdAt order)) now.

(** The SKU-level dealer of an item: the dealer id of its first mapped
    dealer, when there is one and it is not empty. *)
Definition skuLevelDealer (skuItem : SkuItem) : option string :=
  match dealerMapped skuItem with
  | [] => None
  | m :: _ =>
      match dealerId m with
      | Some d => if String.eqb d "" then None else Some d
      | None => None
      end
  end.

(** The dealer id of an order-level mapping, when it is not empty. *)
Definition mappingDealer (dm : DealerMapping) : option string :=
  match dm_dealerId dm with
  | Some d => if String.eqb d "" then None else Some d
  | None => None
  end.

(** The order-level dealer for a SKU: the dealer of the first entry of
    [order.dealerMapping] for that SKU, else the dealer of its first
    entry. *)
Definition orderLevelDealer (order : Order) (name : string) : option string :=
  match
    match find (fun dm => JS.strictEqOpt (dm_sku dm) (Some name))
            (dealerMapping order) with
    | Some dm => mappingDealer dm
    | None => None
    end
  with
  | Some d => Some d
  | None =>
      match dealerMapping order with
      | [] => None
      | dm :: _ => mappingDealer dm
      end
  end.

(** The dealer a SKU is checked against: the SKU-level one, and the
    order-level one when the item names none. *)
Definition dealerOf (order : Order) (skuItem : SkuItem) (name : string)
    : option string :=
  match skuLevelDealer skuItem with
  | Some d => Some d
  | None => orderLevelDealer order name
  end.

(** The entries the loop over the packed SKUs pushes for one SKU. *)
Definition entriesOf (c : SkuItem -> SkuCheck) (s : SkuItem)
    : list SkuViolation :=
  match c s with
  | Violation v => [{| sv_sku := sku s; sv_violation := v |}]
  | NoViolation => []
  end.

(** An entry of [skuViolations] belongs to the order and to its SKU. *)
Definition ownEntry (order : Order) (sv : SkuViolation) : Prop :=
  v_order_id (sv_violation sv) = _id order /\
  v_sku (sv_violation sv) = Some (sv_sku sv).

End SlaSpec.

(** ** Sample data *)

Module Samples.
Import JSDate SlaUtils OrderModel SlaViolationUtils SlaMiddleware.

(** Local time five and a half hours ahead of UTC. *)
Definition tz : Z := 19800000.

(** 15 January 2024, 10:00 local time. *)
Definition orderedAt : Date := 1705293000000.

(** Four hours later, 14:00 local time, inside the dispatch window. *)
Definition expectedAt : Date := 1705307400000.

Definition sla : DealerSLA :=
  {| dealer_id := "dealer-1";
     sla_type := Some {| expected_hours := 4 |};
     dispatch_hours := Some {| start := 9; end_ := 18 |};
     is_active := true |}.

Definition packedSku (name : string) (dealer : option string) (at_ : Date)
    : SkuItem :=
  {| sku := name; quantity := 2; selling_price := (1999 # 100)%Q;
     dealerMapped :=
       match dealer with
       | Some d => [{| dealerId := Some d |}]
       | None => []
       end;
     tracking_info :=
       Some {| status := Some "Packed";
               timestamps := Some {| packedAt := Some at_; deliveredAt := None |} |};
     return_info := None |}.

Definition orderWith (items : list SkuItem) : Order :=
  {| _id := "order-1"; orderId := "ORD-1";
     customerDetails := Some {| userId := Some "customer-1" |};
     skus := items;
     dealerMapping := [{| dm_sku := Some "SKU-B"; dm_dealerId := Some "dealer-1" |}];
     orderDate := Some orderedAt; createdAt := None;
     payment_id := Some "pay-doc-1";
     slaInfo := {| actualFulfillmentTime := None; isSLAMet := None;
                   violationMinutes := None; expectedFulfillmentTime := None |} |}.

(** SKU A packed ten minutes late, SKU B packed an hour early. *)
Definition lateA : SkuItem := packedSku "SKU-A" (Some "dealer-1") (expectedAt + 600000).
Definition onTimeB : SkuItem := packedSku "SKU-B" None (expectedAt - 3600000).
Definition lateB : SkuItem := packedSku "SKU-B" None (expectedAt + 1500000).

Definition partialOrder : Order := orderWith [lateA; onTimeB].
Definition lateOrder : Order := orderWith [lateA; lateB].

Definition sweepTime : Date := expectedAt + 7200000.





Definition emptyStore (o : Order) : Store :=
  {| violations := []; orders := [o] |}.

End Samples.

Module ReturnSpec.
Import JSDate ReturnModel ReturnController.

(** The lifecycle operations that have a status precondition. *)
Inductive Operation :=
| SchedulePickup (scheduled : option Date)
| CompletePickup (tracking : option string)
| StartInspection (staffId : option string)
| CompleteInspection (body : Exports.InspectionReport)
| ProcessRefund (req : Exports.RefundRequest)
| CompleteReturn.

Definition run (env : Env) (op : Operation) (returnId : nat) (db : Db)
    : Response * Db :=
  match op with
  | SchedulePickup scheduled => Exports.schedulePickup env returnId scheduled db
  | CompletePickup tracking => Exports.completePickup env returnId tracking db
  | StartInspection staffId => Exports.startInspection env returnId staffId db
  | CompleteInspection body => Exports.completeInspection env returnId body db
  | ProcessRefund req => Exports.processRefund env returnId req db
  | CompleteReturn => Exports.completeReturn env returnId db
  end.

(** The status each of them requires. *)
Definition requiredStatus (op : Operation) : ReturnStatus :=
  match op with
  | SchedulePickup _ => Validated
  | CompletePickup _ => Pickup_Scheduled
  | StartInspection _ => Pickup_Completed
  | CompleteInspection _ => Under_Inspection
  | ProcessRefund _ => Approved
  | CompleteReturn => Refund_Processed
  end.

(** Every request that acts on the return requests. *)
Inductive Request :=
| Transition (op : Operation) (returnId : nat)
| Validate (returnId : nat)
| AddNote (returnId : nat) (n : Note)
| Create (req : Exports.CreateRequest).

Definition handle (env : Env) (rq : Request) (db : Db) : Response * Db :=
  match rq with
  | Transition op returnId => run env op returnId db
  | Validate returnId => Exports.validateReturnRequest env returnId db
  | AddNote returnId n => Exports.addNote returnId n db
  | Create req => Exports.createReturnRequest env req db
  end.

(** The caller of a create request: [req.user?.id || req.body.customerId]. *)
Definition callerOf (req : Exports.CreateRequest) : option string :=
  JS.orElse (truthy (Exports.c_userId req)) (Exports.c_customerId req).

(** The quantity of a create request, one by default. *)
Definition requestedQuantity (req : Exports.CreateRequest) : Z :=
  JS.orDefault (Exports.c_quantity req) 1.

(** A message names a status when it contains the name of the status, up
    to the case of the letters and with a space for an underscore. *)
Definition normaliseChar (c : Ascii.ascii) : Ascii.ascii :=
  let n := Ascii.nat_of_ascii c in
  if (Nat.leb 65 n && Nat.leb n 90)%bool then Ascii.ascii_of_nat (n + 32)
  else if Nat.eqb n 95 then Ascii.ascii_of_nat 32
  else c.

Fixpoint normalise (s : string) : string :=
  match s with
  | EmptyString => EmptyString
  | String c rest => String (normaliseChar c) (normalise rest)
  end.

Fixpoint contains (needle hay : string) : bool :=
  match hay with
  | EmptyString => String.prefix needle EmptyString
  | String _ rest => String.prefix needle hay || contains needle rest
  end.

Definition namesStatus (message : string) (s : ReturnStatus) : bool :=
  contains (normalise (statusName s)) (normalise message).

(** The refund amount stored for a return request. *)
Definition storedRefundAmount (db : Db) (returnId : nat) : option Q :=
  option_map (fun r => refundAmount (refund r)) (findById (returns db) returnId).

(** Every refund amount stored in [before] is stored in [after] for the
    same return request. *)
Definition amountsKept (before after : list Return) : Prop :=
  forall id amount,
    option_map (fun r => refundAmount (refund r)) (findById before id)
    = Some amount ->
    option_map (fun r => refundAmount (refund r)) (findById after id)
    = Some amount.

(** The requests sent to the payment gateway between two states. *)
Definition newCalls (before after : Db) : list ProviderCall :=
  skipn (List.length (providerCalls before)) (providerCalls after).

(** The ledger entries written between two states. *)
Definition newRefunds (before after : Db) : list RefundRecord :=
  skipn (List.length (refunds before)) (refunds after).

(** A request for an amount in paise. *)
Definition callAmount (c : ProviderCall) : option Z :=
  match c with
  | CreatePayout _ amount => Some amount
  | CreateRefund _ amount => Some amount
  | _ => None
  end.

(** The customer has complete bank details. *)
Definition completeBankDetails (user : option UserData) : Prop :=
  exists u b number ifsc holder,
    user = Some u /\ bank_details u = Some b /\
    truthy (account_number b) = Some number /\
    truthy (ifsc_code b) = Some ifsc /\
    truthy (bank_account_holder_name b) = Some holder.

(** One of the three steps of the payout fails. *)
Definition payoutStepFails (env : Env) : Prop :=
  contactResp env = None \/ fundResp env = None \/ payoutResp env = None.

(** What a run of the refund processor may change.  A run that fails
    changes nothing but the log of gateway requests.  A run that succeeds
    appends one ledger entry and saves the return request stamped with the
    id of that entry. *)
Definition refundEffects (rr : Return) (db : Db) (res : RefundResult)
    (r0 : Return) (db1 : Db) : Prop :=
  orders db1 = orders db /\ payments db1 = payments db /\
  notifications db1 = notifications db /\
  match res with
  | RefundNotProcessed _ =>
      r0 = rr /\ returns db1 = returns db /\ refunds db1 = refunds db
  | RefundSucceeded txn rid ty =>
      r0 = setRefund (Helpers.setRefundId rid (refund rr)) rr /\
      returns db1 = saveReturn r0 (returns db) /\
      exists entry,
        refunds db1 = refunds db ++ [entry] /\
        rr_id entry = rid /\
        rr_return_id entry = _id rr /\
        rr_amount entry = refundAmount (refund rr) /\
        ((ty = "Bank_Payout" /\ refund_type entry = "Refund-COD" /\
          razorpay_payout_id entry = Some txn) \/
         (ty = "Source_Refund" /\ refund_type entry = "Refund-Online" /\
          razorpay_refund_id entry = Some txn))
  end.

(** Every request of [calls] that carries an amount carries [amount]. *)
Definition amountsAre (amount : Z) (calls : list ProviderCall) : Prop :=
  Forall (fun c => forall a, callAmount c = Some a -> a = amount) calls.

(** The payment document of an order: [Payment.findById(order.payment_id)]. *)
Definition paymentOf (db : Db) (order : O.Order) : option Payment :=
  JS.chain (O.payment_id order)
    (fun id => find (fun p => String.eqb (p_id p) id) (payments db)).

End ReturnSpec.

Module ReturnSamples.
Import JSDate ReturnModel ReturnController.

Definition deliveredOn : Date := 1705307400000.

Definition deliveredSku : O.SkuItem :=
  {| O.sku := "SKU-A"; O.quantity := 2; O.selling_price := (1999 # 100)%Q;
     O.dealerMapped := [{| O.dealerId := Some "dealer-1" |}];
     O.tracking_info :=
       Some {| O.status := Some "Delivered";
               O.timestamps :=
                 Some {| O.packedAt := None; O.deliveredAt := Some deliveredOn |} |};
     O.return_info := None |}.

Definition order : O.Order :=
  {| O._id := "order-2"; O.orderId := "ORD-2";
     O.customerDetails := Some {| O.userId := Some "customer-1" |};
     O.skus := [deliveredSku];
     O.dealerMapping := [{| O.dm_sku := Some "SKU-A"; O.dm_dealerId := Some "dealer-1" |}];
     O.orderDate := Some (deliveredOn - 3 * msPerDay); O.createdAt := None;
     O.payment_id := Some "pay-doc-1";
     O.slaInfo := {| O.actualFulfillmentTime := None; O.isSLAMet := None;
                     O.violationMinutes := None;
                     O.expectedFulfillmentTime := None |} |}.

Definition payment : Payment :=
  {| p_id := "pay-doc-1"; p_payment_id := Some "pay_123" |}.

(** A return of both units, inspected and approved. *)
Definition approved : Return :=
  {| _id := 0%nat; orderId := "order-2"; customerId := "customer-1";
     sku := "SKU-A"; quantity := 2; returnReason := "Damaged";
     returnDescription := None; returnImages := [];
     isEligible := true; eligibilityReason := "Return request is eligible";
     isWithinReturnWindow := Some true; isProductReturnable := Some true;
     returnWindowDays := Some 7;
     originalOrderDate := Some (deliveredOn - 3 * msPerDay);
     originalDeliveryDate := Some deliveredOn;
     dealerId := Some "dealer-1";
     returnStatus := Approved; actionTaken := Some "Refund";
     refund := {| refundAmount := (3998 # 100)%Q; processedBy := None;
                  processedAt := None; refundMethod := None;
                  refundStatus := None; transactionId := None;
                  refundNotes := None; refund_id := None |};
     pickupRequest := emptyPickupRequest; inspection := emptyInspection;
     timestamps := {| requestedAt := Some (deliveredOn + msPerDay);
                      validatedAt := Some (deliveredOn + msPerDay);
                      pickupScheduledAt := None; pickupCompletedAt := None;
                      inspectionStartedAt := None;
                      inspectionCompletedAt := None;
                      refundProcessedAt := None; completedAt := None |};
     notes := [] |}.

Definition db : Db :=
  {| returns := [approved]; orders := [order]; payments := [payment];
     refunds := []; notifications := []; providerCalls := [];
     nextId := 1%nat |}.

(** The same store before any return was requested. *)
Definition freshDb : Db :=
  {| returns := []; orders := [order]; payments := [payment];
     refunds := []; notifications := []; providerCalls := [];
     nextId := 0%nat |}.

Definition bankUser : UserData :=
  {| bank_details :=
       Some {| account_number := Some "000123456789";
               ifsc_code := Some "hdfc0000001";
               bank_account_holder_name := Some "A Customer" |} |}.

(** Two days after delivery; the payout request fails and the payment has
    less refundable balance than the refund asks for. *)
Definition payoutDown : Env :=
  {| now := deliveredOn + 2 * msPerDay;
     productResponse := Some {| success := true; is_returnable := Some true |};
     borzoResponse := None;
     userResponse := Some bankUser;
     contactResp := Some "cont_1";
     fundResp := Some "fa_1";
     payoutResp := None;
     paymentDetailsResponse :=
       Some {| pd_amount := Some 1000; pd_amount_refunded := None |};
     refundResponse := None |}.

(** The payout request fails and the refund to the source goes through. *)
Definition payoutDownSourceUp : Env :=
  {| now := deliveredOn + 2 * msPerDay;
     productResponse := Some {| success := true; is_returnable := Some true |};
     borzoResponse := None;
     userResponse := Some bankUser;
     contactResp := Some "cont_1";
     fundResp := Some "fa_1";
     payoutResp := None;
     paymentDetailsResponse :=
       Some {| pd_amount := Some 5000; pd_amount_refunded := None |};
     refundResponse :=
       Some {| rf_id := "rfnd_1"; rf_currency := Some "INR";
               rf_status := "processed"; rf_error_description := None |} |}.

(** Ten days after delivery. *)
Definition tenDaysLater : Env :=
  {| now := deliveredOn + 10 * msPerDay;
     productResponse := Some {| success := true; is_returnable := Some true |};
     borzoResponse := None; userResponse := None; contactResp := None;
     fundResp := None; payoutResp := None; paymentDetailsResponse := None;
     refundResponse := None |}.

Definition bankRefund : Exports.RefundRequest :=
  {| Exports.adminId := Some "admin-1";
     Exports.rq_refundMethod := Some "Bank_Account";
     Exports.rq_refundNotes := None |}.

Definition createRequest (qty : Z) : Exports.CreateRequest :=
  {| Exports.c_orderId := Some "order-2"; Exports.c_sku := Some "SKU-A";
     Exports.c_quantity := Some qty; Exports.c_returnReason := Some "Damaged";
     Exports.c_returnDescription := None; Exports.c_returnImages := None;
     Exports.c_userId := Some "customer-1"; Exports.c_customerId := None |}.

End ReturnSamples.


(** ** The sweep over the active orders and the warning query *)

Module SlaSweep.
Import JSDate SlaUtils OrderModel SlaViolationUtils SlaMiddleware.

(** The middleware's own [recordSLAViolation]: the document it builds has
    no [sku], so the record is an order-level one. *)
Definition recordSLAViolation (v : ViolationData)
    (ledger : list SLAViolation) : list SLAViolation :=
  ledger ++
  [{| r_dealer_id := v_dealer_id v;
      r_order_id := v_order_id v;
      r_sku := None;
      r_expected_fulfillment_time := expected_fulfillment_time v;
      r_actual_fulfillment_time := actual_fulfillment_time v;
      r_violation_minutes := violation_minutes v;
      r_notes := notes v;
      resolved := false |}].

(** [{ processedCount, violationCount }] *)
Record SweepCounts := {
  processedCount : nat;
  violationCount : nat
}.

Section Sweep.

Variable tz : Z.

(** One turn of the loop of [checkAllActiveOrders]. *)
Definition sweepStep (dealerSlas : list DealerSLA) (now : Date)
    (acc : SweepCounts * Store) (order : Order) : SweepCounts * Store :=
  let (hasViolation, st) :=
    checkOrderSLAViolation tz dealerSlas now order (snd acc) in
  ({| processedCount := S (processedCount (fst acc));
      violationCount :=
        if hasViolation then S (violationCount (fst acc))
        else violationCount (fst acc) |},
   st).

(** [checkAllActiveOrders()]; [activeOrders] are the documents the query
    [Order.find] returns, read once before the loop. *)
Definition checkAllActiveOrders (dealerSlas : list DealerSLA) (now : Date)
    (activeOrders : list Order) (st : Store) : SweepCounts * Store :=
  fold_left (sweepStep dealerSlas now) activeOrders
    ({| processedCount := 0; violationCount := 0 |}, st).

(** An order document with the fields the warning query reads besides
    those of [Order]: [status] and [timestamps.createdAt]. *)
Record OrderDoc := {
  doc : Order;
  docStatus : option string;
  timestampsCreatedAt : option Date
}.

(** An entry of the result of [getOrdersApproachingSLAViolation]. *)
Record Approaching := {
  a_orderId : string;
  a_order_id : string;
  a_dealerId : string;
  a_expectedFulfillmentTime : Date;
  minutesUntilViolation : Z;
  orderStatus : option string
}.

(** [DealerSLA.findOne({ dealer_id, is_active: true }).populate('sla_type')] *)
Definition findActiveDealerSLA (dealerSlas : list DealerSLA) (id : string)
    : option DealerSLA :=
  find (fun d => String.eqb (dealer_id d) id && is_active d) dealerSlas.

(** The body of the loop over the dealer mappings of one order. *)
Definition approachingOfMapping (dealerSlas : list DealerSLA) (now : Date)
    (warningTime : Date) (o : OrderDoc) (orderDate : Date)
    (dealerMapping : DealerMapping) : list Approaching :=
  match JS.truthy (dm_dealerId dealerMapping) with
  | None => []
  | Some dealerId =>
      match findActiveDealerSLA dealerSlas dealerId with
      | None => []
      | Some dealerSLA =>
          match sla_type dealerSLA with
          | None => []
          | Some _ =>
              match SlaMiddleware.calculateExpectedFulfillmentTime tz
                      orderDate (Some dealerSLA) with
              | None => []
              | Some expectedFulfillmentTime =>
                  if (expectedFulfillmentTime <=? warningTime)
                     && (expectedFulfillmentTime >? now)
                  then
                    [{| a_orderId := orderId (doc o);
                        a_order_id := _id (doc o);
                        a_dealerId := dealerId;
                        a_expectedFulfillmentTime := expectedFulfillmentTime;
                        minutesUntilViolation :=
                          JS.roundDiv (expectedFulfillmentTime - now)
                            msPerMinute;
                        orderStatus := docStatus o |}]
                  else []
              end
          end
      end
  end.

(** [getOrdersApproachingSLAViolation(warningMinutes)]; [activeOrders] are
    the documents the query returns and [warningMinutes] is a whole number
    of minutes. *)
Definition getOrdersApproachingSLAViolation (dealerSlas : list DealerSLA)
    (now : Date) (warningMinutes : Z) (activeOrders : list OrderDoc)
    : list Approaching :=
  let warningTime := now + warningMinutes * 60 * 1000 in
  flat_map
    (fun o =>
       match JS.orElse (orderDate (doc o))
               (JS.orElse (createdAt (doc o)) (timestampsCreatedAt o)) with
       | None => []
       | Some orderDate =>
           flat_map
             (approachingOfMapping dealerSlas now warningTime o orderDate)
             (dealerMapping (doc o))
       end)
    activeOrders.

End Sweep.

End SlaSweep.

(** ** Vocabulary of the sweep's properties *)

Module SweepSpec.
Import JSDate SlaUtils OrderModel SlaViolationUtils SlaMiddleware SlaSpec.

Section Sweep.

Variable tz : Z.
Variable dealerSlas : list DealerSLA.
Variable now : Date.

(** Some packed SKU of the order is violated. *)
Definition anySkuViolated (order : Order) : bool :=
  existsb (skuViolated tz dealerSlas now order) (packedSkus order).

(** What the sweep of one order does to the ledger. *)
Definition ledgerStep (ledger : list SLAViolation) (order : Order)
    : list SLAViolation :=
  recordNewSkuViolations order
    (checkSLAViolationOnPacking tz dealerSlas now order None None) ledger.

(** Every violated SKU of the order has an unresolved record. *)
Definition covered (order : Order) (ledger : list SLAViolation) : Prop :=
  forall sv,
    In sv (skuViolations
             (checkSLAViolationOnPacking tz dealerSlas now order None None)) ->
    unresolvedFor (_id order) (Some (sv_sku sv)) ledger <> [].

End Sweep.

End SweepSpec.

(** ** Addresses of a pickup (controllers/return.js) *)

Module Addresses.

(** The address fields [buildAddressString] reads. *)
Record AddressParts := {
  building_no : option string;
  street : option string;
  area : option string;
  city : option string;
  state : option string;
  pincode : option string;
  country : option string
}.

(** The truthy ones of a list of parts: [parts.filter(Boolean)]. *)
Fixpoint filterBoolean (parts : list (option string)) : list string :=
  match parts with
  | [] => []
  | p :: rest =>
      match JS.chain p JS.truthyString with
      | Some s => s :: filterBoolean rest
      | None => filterBoolean rest
      end
  end.

(** [buildAddressString(parts)] *)
Definition buildAddressString (parts : AddressParts) : string :=
  String.concat ", "
    (filterBoolean
       [building_no parts; street parts; area parts; city parts;
        state parts; pincode parts; country parts]).

(** The object literal both callers build: the fields as they are, the
    country [|| "India"]. *)
Definition withDefaultCountry (parts : AddressParts) : AddressParts :=
  {| building_no := building_no parts;
     street := street parts;
     area := area parts;
     city := city parts;
     state := state parts;
     pincode := pincode parts;
     country :=
       Some (JS.orDefault (JS.chain (country parts) JS.truthyString) "India") |}.

(** [a || b] on strings, the second always present. *)
Definition orString (a : option string) (b : string) : string :=
  JS.orDefault (JS.chain a JS.truthyString) b.

(** [customerAddressString] of [createLogisticsPickupRequest]:
    [pickupAddress?.address || order.customerDetails?.address ||
     buildAddressString({...}) || "Customer Address"]; [details] are the
    address fields of [order.customerDetails] (all missing without it). *)
Definition customerAddressString (pickupAddress customerAddress : option string)
    (details : AddressParts) : string :=
  orString pickupAddress
    (orString customerAddress
       (orString (Some (buildAddressString (withDefaultCountry details)))
          "Customer Address")).

(** The fields of [dealerInfo] the drop point reads. *)
Record DealerInfo := {
  address_full : option string;
  address : AddressParts;
  business_address : option string;
  registered_address : option string
}.

Definition noParts : AddressParts :=
  {| building_no := None; street := None; area := None; city := None;
     state := None; pincode := None; country := None |}.

(** [dealerAddressString] of [createLogisticsPickupRequest]:
    [dealerInfo?.address?.full || buildAddressString({...}) ||
     dealerInfo?.business_address || dealerInfo?.registered_address ||
     "Dealer Address"]. *)
Definition dealerAddressString (dealerInfo : option DealerInfo) : string :=
  orString (JS.chain dealerInfo address_full)
    (orString
       (Some (buildAddressString
                (withDefaultCountry
                   match dealerInfo with
                   | Some d => address d
                   | None => noParts
                   end)))
       (orString (JS.chain dealerInfo business_address)
          (orString (JS.chain dealerInfo registered_address)
             "Dealer Address"))).

End Addresses.

(** ** Vocabulary of the further properties *)

Module MoreSpec.
Import JSDate ReturnModel ReturnController ReturnSpec.

(** The status an operation leaves the return request in. *)
Definition nextStatus (op : Operation) : ReturnStatus :=
  match op with
  | SchedulePickup _ => Pickup_Scheduled
  | CompletePickup _ => Pickup_Completed
  | StartInspection _ => Under_Inspection
  | CompleteInspection body =>
      if JS.orDefault (Exports.i_isApproved body) false then Approved
      else Rejected
  | ProcessRefund _ => Refund_Processed
  | CompleteReturn => Completed
  end.

(** The notifications an operation sends when it succeeds on [r]. *)
Definition notificationsOf (op : Operation) (r : Return)
    : list Notification :=
  let toCustomer t :=
    [{| recipients := [customerId r]; title := t; n_returnId := _id r |}] in
  match op with
  | SchedulePickup _ => toCustomer "Pickup Scheduled"
  | CompletePickup _ =>
      match truthy (dealerId r) with
      | Some dealer =>
          [{| recipients := [dealer]; title := "Return Item Received";
              n_returnId := _id r |}]
      | None => []
      end
  | StartInspection _ => []
  | CompleteInspection body =>
      toCustomer (if JS.orDefault (Exports.i_isApproved body) false
                  then "Return Approved" else "Return Rejected")
  | ProcessRefund _ => toCustomer "Refund Processed"
  | CompleteReturn => toCustomer "Return Completed"
  end.

(** The message of the [catch] of each handler, sent for whatever is thrown
    inside it. *)
Definition failureMessage (op : Operation) : string :=
  match op with
  | SchedulePickup _ => "Failed to schedule pickup"
  | CompletePickup _ => "Failed to complete pickup"
  | StartInspection _ => "Failed to start inspection"
  | CompleteInspection _ => "Failed to complete inspection"
  | ProcessRefund _ => "Failed to process refund"
  | CompleteReturn => "Failed to complete return"
  end.

(** The notifications sent between two states. *)
Definition newNotifications (before after : Db) : list Notification :=
  skipn (List.length (notifications before)) (notifications after).

(** The identity of a return request: what no request changes. *)
Definition sameRequest (a b : Return) : Prop :=
  _id a = _id b /\ orderId a = orderId b /\ sku a = sku b /\
  customerId a = customerId b /\ quantity a = quantity b /\
  returnReason a = returnReason b /\ dealerId a = dealerId b /\
  refundAmount (refund a) = refundAmount (refund b).

(** Every return request of [before] is in [after] with the same identity
    and with its notes, possibly followed by new ones. *)
Definition requestsKept (before after : list Return) : Prop :=
  forall id r,
    findById before id = Some r ->
    exists r',
      findById after id = Some r' /\ sameRequest r r' /\
      exists added, notes r' = notes r ++ added.

(** The return request a request is about; a create request has none. *)
Definition targetOf (rq : Request) : option nat :=
  match rq with
  | Transition _ returnId => Some returnId
  | Validate returnId => Some returnId
  | AddNote returnId _ => Some returnId
  | Create _ => None
  end.

(** The ids of the stored return requests are below the next fresh id. *)
Definition idsBelowNext (db : Db) : Prop :=
  forall r, In r (returns db) -> (_id r < nextId db)%nat.

End MoreSpec.

(** ** Further sample data *)

Module MoreSamples.
Import JSDate ReturnModel ReturnController.

(** Two days after delivery; every request of the bank payout succeeds. *)
Definition payoutUp : Env :=
  {| now := ReturnSamples.deliveredOn + 2 * msPerDay;
     productResponse := Some {| success := true; is_returnable := Some true |};
     borzoResponse := None;
     userResponse := Some ReturnSamples.bankUser;
     contactResp := Some "cont_1";
     fundResp := Some "fa_1";
     payoutResp :=
       Some {| po_id := "pout_1"; po_currency := Some "INR";
               po_status := "processing" |};
     paymentDetailsResponse := None;
     refundResponse := None |}.

(** The sample store with its return request validated and waiting for a
    pickup. *)
Definition validatedDb : Db :=
  withReturns [setReturnStatus Validated ReturnSamples.approved]
    ReturnSamples.db.

End MoreSamples.


(** * Properties *)

(** ** Truthiness *)

Lemma truthy_inv (x : option string) (y : string) :
  JS.truthy x = Some y -> x = Some y /\ y <> "".
Proof.
  destruct x as [s |]; [| discriminate]. cbn. unfold JS.truthyString.
  destruct (String.eqb_spec s ""); [discriminate |].
  intros [= <-]. split; [reflexivity | assumption].
Qed.

Lemma truthy_nonempty (y : string) : y <> "" -> JS.truthy (Some y) = Some y.
Proof.
  intros H. cbn. unfold JS.truthyString. apply String.eqb_neq in H.
  rewrite H. reflexivity.
Qed.

(** ** Dates *)

Section DateFacts.
Import JSDate.

Variable tz : Z.

Lemma getHours_range (t : Date) : 0 <= getHours tz t < 24.
Proof.
  unfold getHours, msPerDay, msPerHour.
  pose proof (Z.mod_pos_bound (localTime tz t) 86400000 ltac:(lia)) as Hm.
  split.
  - apply Z.div_pos; lia.
  - apply Z.div_lt_upper_bound; lia.
Qed.

(** A time value is its local midnight plus its hour plus the rest. *)
Lemma date_decompose (t : Date) :
  dayStart tz t + getHours tz t * msPerHour + withinHour tz t = t.
Proof.
  unfold dayStart, getHours, withinHour, msPerDay, msPerHour.
  set (L := localTime tz t).
  assert (HL : t = L - tz) by (unfold L, localTime; lia).
  pose proof (Z.div_mod L 86400000 ltac:(lia)) as Hd.
  pose proof (Z.div_mod (L mod 86400000) 3600000 ltac:(lia)) as Hh.
  assert (Hmm : (L mod 86400000) mod 3600000 = L mod 3600000).
  { apply Z.mod_mod_divide. exists 24. reflexivity. }
  rewrite Hmm in Hh. lia.
Qed.

(** [t.setHours(t.getHours() + h)] moves [t] by [h] hours. *)
Lemma setHours_getHours_plus (t : Date) (h : Z) :
  setHours tz t (getHours tz t + h) = t + h * msPerHour.
Proof.
  unfold setHours.
  pose proof (date_decompose t). lia.
Qed.

Lemma dayStart_le (t : Date) : dayStart tz t <= t < dayStart tz t + msPerDay.
Proof.
  unfold dayStart, msPerDay.
  set (L := localTime tz t).
  assert (HL : t = L - tz) by (unfold L, localTime; lia).
  pose proof (Z.div_mod L 86400000 ltac:(lia)) as Hd.
  pose proof (Z.mod_pos_bound L 86400000 ltac:(lia)) as Hm.
  lia.
Qed.

(** Local midnight plus [h] hours, [0 <= h < 24], is on the same day at
    hour [h], with minutes, seconds and milliseconds zero. *)
Lemma at_hour_of_day (t : Date) (h : Z) :
  0 <= h < 24 ->
  let u := dayStart tz t + h * msPerHour in
  dayStart tz u = dayStart tz t /\ getHours tz u = h /\ withinHour tz u = 0.
Proof.
  intros Hh u.
  assert (Hu : localTime tz u = h * 3600000 + (localTime tz t / 86400000) * 86400000).
  { unfold u, dayStart, localTime, msPerDay, msPerHour. lia. }
  unfold dayStart, getHours, withinHour.
  rewrite Hu. unfold msPerDay, msPerHour.
  rewrite Z.div_add by lia.
  rewrite Z.mod_add by lia.
  assert (Hsmall : 0 <= h * 3600000 < 86400000) by lia.
  rewrite (Z.div_small _ _ Hsmall), (Z.mod_small _ _ Hsmall).
  rewrite Z.div_mul by lia.
  replace (h * 3600000 + localTime tz t / 86400000 * 86400000)
    with ((h + localTime tz t / 86400000 * 24) * 3600000) by lia.
  rewrite Z.mod_mul by lia.
  repeat split; lia.
Qed.

Lemma dayStart_addDays (t : Date) (n : Z) :
  dayStart tz (addDays t n) = dayStart tz t + n * msPerDay.
Proof.
  unfold dayStart, addDays, localTime, msPerDay.
  replace (t + n * 86400000 + tz) with (t + tz + n * 86400000) by lia.
  rewrite Z.div_add by lia. lia.
Qed.

End DateFacts.

(** ** The SLA calculator *)

Section CalculatorFacts.
Import JSDate SlaUtils.

Variable tz : Z.

Lemma addExpectedHours_eq (t : Date) (ty : SLAType) :
  addExpectedHours tz t ty = t + expected_hours ty * msPerHour.
Proof.
  unfold addExpectedHours.
  destruct (Z.eqb_spec (expected_hours ty) 0) as [E | _].
  - rewrite E. lia.
  - apply setHours_getHours_plus.
Qed.

(** The copy in the middleware is the function of the utilities. *)
Lemma middleware_calculator_agrees (orderDate : Date)
    (dealerSLA : option DealerSLA) :
  SlaMiddleware.calculateExpectedFulfillmentTime tz orderDate dealerSLA
  = calculateExpectedFulfillmentTime tz orderDate dealerSLA.
Proof.
  unfold SlaMiddleware.calculateExpectedFulfillmentTime,
    calculateExpectedFulfillmentTime, adjustForDispatchHours, addExpectedHours.
  destruct dealerSLA as [d |]; [| reflexivity].
  destruct (sla_type d) as [ty |]; [| reflexivity].
  destruct (dispatch_hours d) as [w |]; [| reflexivity].
  cbv zeta.
  destruct (_ <? start w); [reflexivity |].
  destruct (_ >? end_ w); reflexivity.
Qed.

Lemma calculator_none_iff (orderDate : Date) (dealerSLA : option DealerSLA) :
  calculateExpectedFulfillmentTime tz orderDate dealerSLA = None
  <-> JS.chain dealerSLA sla_type = None.
Proof.
  unfold calculateExpectedFulfillmentTime.
  destruct dealerSLA as [d |]; simpl; [| tauto].
  destruct (sla_type d) as [ty |]; [| tauto].
  destruct (dispatch_hours d); split; discriminate.
Qed.

Lemma setHours4_zero (t : Date) (h : Z) :
  setHours4 tz t h 0 0 0 = dayStart tz t + h * msPerHour.
Proof. unfold setHours4. lia. Qed.

Lemma adjust_before (t : Date) (w : DispatchHours) :
  getHours tz t < start w ->
  adjustForDispatchHours tz t w = dayStart tz t + start w * msPerHour.
Proof.
  intros H. unfold adjustForDispatchHours. cbv zeta.
  destruct (Z.ltb_spec (getHours tz t) (start w)); [| lia].
  apply setHours4_zero.
Qed.

Lemma adjust_inside (t : Date) (w : DispatchHours) :
  start w <= getHours tz t <= end_ w ->
  adjustForDispatchHours tz t w = t.
Proof.
  intros H. unfold adjustForDispatchHours. cbv zeta.
  destruct (Z.ltb_spec (getHours tz t) (start w)); [lia |].
  rewrite Z.gtb_ltb.
  destruct (Z.ltb_spec (end_ w) (getHours tz t)); [lia | reflexivity].
Qed.

Lemma adjust_after (t : Date) (w : DispatchHours) :
  start w <= end_ w -> end_ w < getHours tz t ->
  adjustForDispatchHours tz t w
  = dayStart tz t + msPerDay + start w * msPerHour.
Proof.
  intros Hw H. unfold adjustForDispatchHours. cbv zeta.
  destruct (Z.ltb_spec (getHours tz t) (start w)); [lia |].
  rewrite Z.gtb_ltb.
  destruct (Z.ltb_spec (end_ w) (getHours tz t)); [| lia].
  rewrite setHours4_zero, dayStart_addDays. lia.
Qed.

(** Clamping forward lands later on the same day, at the start hour. *)
Lemma clamp_same_day (t : Date) (s : Z) :
  getHours tz t < s -> s < 24 ->
  let u := dayStart tz t + s * msPerHour in
  t < u /\ dayStart tz u = dayStart tz t /\ getHours tz u = s.
Proof.
  intros H Hs u.
  pose proof (getHours_range tz t) as Hr.
  destruct (at_hour_of_day tz t s ltac:(lia)) as (Hd & Hh & _).
  fold u in Hd, Hh.
  repeat split; try assumption.
  pose proof (date_decompose tz t) as Hdec.
  assert (withinHour tz t < msPerHour).
  { unfold withinHour, msPerHour. apply Z.mod_pos_bound. lia. }
  unfold u. unfold msPerHour in *. nia.
Qed.

(** Rolling over lands on the next day, at the start hour. *)
Lemma roll_next_day (t : Date) (s : Z) :
  0 <= s < 24 ->
  let u := dayStart tz t + msPerDay + s * msPerHour in
  t < u /\ dayStart tz u = dayStart tz t + msPerDay /\ getHours tz u = s.
Proof.
  intros Hs u.
  destruct (at_hour_of_day tz (addDays t 1) s Hs) as (Hd & Hh & _).
  rewrite dayStart_addDays in Hd, Hh.
  replace (dayStart tz t + 1 * msPerDay + s * msPerHour) with u in Hd, Hh
    by (unfold u; lia).
  split; [| split].
  - pose proof (dayStart_le tz t). unfold u, msPerHour in *. lia.
  - lia.
  - exact Hh.
Qed.

End CalculatorFacts.

(** C6.  The calculator returns null exactly when no SLA type is
    configured (no dealer SLA, or one without type).  Otherwise it adds
    [expected_hours] to the order date; without a dispatch window that is
    the result, and with a window [start, end) a result whose hour of day is
    before [start] is moved to [start] of the same day, one whose hour of
    day is after [end] to [start] of the next day, and one whose hour of day
    is inside the window (and also one at hour [end]) is left unchanged.
    Both copies of the function, in the utilities and in the middleware,
    compute this. *)
Theorem C6_expected_fulfillment_time (tz : Z) (orderDate : JSDate.Date)
    (dealerSLA : option SlaUtils.DealerSLA) :
  let result := SlaUtils.calculateExpectedFulfillmentTime tz orderDate dealerSLA in
  (result = None <-> JS.chain dealerSLA SlaUtils.sla_type = None) /\
  SlaMiddleware.calculateExpectedFulfillmentTime tz orderDate dealerSLA = result /\
  forall d ty,
    dealerSLA = Some d -> SlaUtils.sla_type d = Some ty ->
    let shifted := orderDate + SlaUtils.expected_hours ty * JSDate.msPerHour in
    let hour := JSDate.getHours tz shifted in
    match SlaUtils.dispatch_hours d with
    | None => result = Some shifted
    | Some w =>
        let sameDay :=
          JSDate.dayStart tz shifted + SlaUtils.start w * JSDate.msPerHour in
        let nextDay :=
          JSDate.dayStart tz shifted + JSDate.msPerDay
          + SlaUtils.start w * JSDate.msPerHour in
        (hour < SlaUtils.start w ->
         result = Some sameDay /\
         (SlaUtils.start w < 24 ->
          shifted < sameDay /\
          JSDate.dayStart tz sameDay = JSDate.dayStart tz shifted /\
          JSDate.getHours tz sameDay = SlaUtils.start w)) /\
        (SlaUtils.start w <= hour <= SlaUtils.end_ w -> result = Some shifted) /\
        (SlaUtils.start w <= SlaUtils.end_ w -> SlaUtils.end_ w < hour ->
         result = Some nextDay /\
         (0 <= SlaUtils.start w ->
          shifted < nextDay /\
          JSDate.dayStart tz nextDay
          = JSDate.dayStart tz shifted + JSDate.msPerDay /\
          JSDate.getHours tz nextDay = SlaUtils.start w))
    end.
Proof.
  intros result.
  split; [apply calculator_none_iff |].
  split; [apply middleware_calculator_agrees |].
  intros d ty -> Hty shifted hour.
  unfold result, SlaUtils.calculateExpectedFulfillmentTime.
  rewrite Hty. cbv zeta. rewrite addExpectedHours_eq. fold shifted.
  destruct (SlaUtils.dispatch_hours d) as [w |]; [| reflexivity].
  pose proof (getHours_range tz shifted) as Hr. fold hour in Hr.
  split; [| split].
  - intros H. rewrite adjust_before by exact H.
    split; [reflexivity |].
    intros Hs. apply clamp_same_day; assumption.
  - intros H. rewrite adjust_inside by exact H. reflexivity.
  - intros Hw H. rewrite adjust_after by assumption.
    split; [reflexivity |].
    intros Hs. apply roll_next_day. unfold hour in *. lia.
Qed.

(** ** The SKU-level check *)

Section SkuCheckFacts.
Import JSDate SlaUtils OrderModel SlaViolationUtils SlaSpec.

Variable tz : Z.
Variable dealerSlas : list DealerSLA.
Variable now : Date.
Variable order : Order.

Lemma roundDiv_minutes_bounds (n : Z) :
  msPerMinute * JS.roundDiv n msPerMinute - 30000 <= n
  < msPerMinute * JS.roundDiv n msPerMinute + 30000.
Proof.
  unfold JS.roundDiv, msPerMinute.
  pose proof (Z.div_mod (2 * n + 60000) (2 * 60000) ltac:(lia)) as Hd.
  pose proof (Z.mod_pos_bound (2 * n + 60000) (2 * 60000) ltac:(lia)) as Hm.
  lia.
Qed.


Lemma resolveDealer_eq (skuItem : SkuItem) (name : string) :
  resolveDealer order skuItem name
  = JS.orElse (skuLevelDealer skuItem) (orderLevelDealer order name).
Proof.
  unfold resolveDealer, skuLevelDealer, orderLevelDealer, mappingDealer,
    JS.truthy, JS.truthyString, JS.chain, JS.first.
  destruct (dealerMapped skuItem) as [| m rest]; cbn [JS.orElse].
  - destruct (find _ (dealerMapping order)) as [dm |].
    + destruct (dm_dealerId dm) as [d |]; [destruct (String.eqb d "") |];
        cbn [JS.orElse]; destruct (dealerMapping order); reflexivity.
    + cbn [JS.orElse]. destruct (dealerMapping order); reflexivity.
  - destruct (dealerId m) as [d |]; [destruct (String.eqb d "") |];
      cbn [JS.orElse]; try reflexivity;
      (destruct (find _ (dealerMapping order)) as [dm |];
       [destruct (dm_dealerId dm) as [d' |]; [destruct (String.eqb d' "") |] |];
       cbn [JS.orElse]; destruct (dealerMapping order); reflexivity).
Qed.

Lemma dealerOf_resolved (skuItem : SkuItem) (name : string) :
  resolveDealer order skuItem name = dealerOf order skuItem name.
Proof.
  rewrite resolveDealer_eq. unfold dealerOf.
  destruct (skuLevelDealer skuItem); reflexivity.
Qed.

Lemma resolved_dealer_nonempty (skuItem : SkuItem) (name dealer : string) :
  resolveDealer order skuItem name = Some dealer -> dealer <> "".
Proof.
  unfold resolveDealer. intros H.
  destruct (JS.truthy (JS.chain (JS.first (dealerMapped skuItem)) dealerId))
    as [d |] eqn:E1; cbn [JS.orElse] in H.
  { injection H as ->. apply truthy_inv in E1. tauto. }
  destruct (JS.truthy
              (JS.chain
                 (find (fun dm => JS.strictEqOpt (dm_sku dm) (Some name))
                    (dealerMapping order)) dm_dealerId))
    as [d |] eqn:E2; cbn [JS.orElse] in H.
  { injection H as ->. apply truthy_inv in E2. tauto. }
  apply truthy_inv in H. tauto.
Qed.

(** A reported violation carries the order, the SKU and a positive number
    of minutes. *)
Lemma checkSKUSLAViolation_violation (name : string) (packed : Date)
    (v : ViolationData) :
  checkSKUSLAViolation tz dealerSlas now order name packed = Violation v ->
  v_order_id v = _id order /\ v_sku v = Some name /\
  actual_fulfillment_time v = packed /\
  violation_minutes v
  = violationMinutesOf packed (expected_fulfillment_time v) /\
  0 < violation_minutes v.
Proof.
  unfold checkSKUSLAViolation.
  destruct (dealerMapping order); [discriminate |].
  destruct (findSku order name) as [skuItem |]; [| discriminate].
  destruct (resolveDealer order skuItem name) as [dealer |]; [| discriminate].
  destruct (findDealerSLA dealerSlas dealer) as [dealerSLA |]; [| discriminate].
  destruct (negb (is_active dealerSLA)); [discriminate |].
  destruct (calculateExpectedFulfillmentTime _ _ _) as [expected |];
    [| discriminate].
  cbv zeta.
  destruct (Z.gtb_spec (violationMinutesOf packed expected) 0);
    [| discriminate].
  intros [= <-]. simpl. repeat split; lia.
Qed.

(** The check once the dealer of the SKU has an active SLA with a type. *)
Lemma checkSKUSLAViolation_reached (name : string) (packed : Date) (skuItem : SkuItem) (dealer : string)
    (dealerSLA : DealerSLA) (expected : Date) :
  dealerMapping order <> [] ->
  findSku order name = Some skuItem ->
  resolveDealer order skuItem name = Some dealer ->
  findDealerSLA dealerSlas dealer = Some dealerSLA ->
  is_active dealerSLA = true ->
  calculateExpectedFulfillmentTime tz (orderDateOf order now) (Some dealerSLA)
  = Some expected ->
  checkSKUSLAViolation tz dealerSlas now order name packed
  = if violationMinutesOf packed expected >? 0 then
      Violation
        {| v_dealer_id := dealer;
           v_order_id := _id order;
           v_sku := Some name;
           expected_fulfillment_time := expected;
           actual_fulfillment_time := packed;
           violation_minutes := violationMinutesOf packed expected;
           notes := SkuNote name expected packed |}
    else NoViolation.
Proof.
  intros Hmap Hsku Hdealer Hsla Hactive Hexp.
  unfold checkSKUSLAViolation.
  destruct (dealerMapping order); [congruence |].
  rewrite Hsku, Hdealer, Hsla, Hactive. cbn [negb].
  unfold orderDateOf in Hexp. rewrite Hexp. reflexivity.
Qed.

Lemma minutes_positive_iff (packed expected : Date) :
  0 < violationMinutesOf packed expected <-> 30000 <= packed - expected.
Proof.
  unfold violationMinutesOf.
  pose proof (roundDiv_minutes_bounds (packed - expected)) as H.
  unfold msPerMinute in *. lia.
Qed.

End SkuCheckFacts.

Lemma checkPackedSku_violation (tz : Z)
    (dealerSlas : list SlaUtils.DealerSLA) (now : JSDate.Date)
    (order : OrderModel.Order) (s : OrderModel.SkuItem)
    (v : SlaViolationUtils.ViolationData) :
  SlaViolationUtils.checkPackedSku tz dealerSlas now order None s
  = SlaViolationUtils.Violation v ->
  SlaViolationUtils.v_order_id v = OrderModel._id order /\
  SlaViolationUtils.v_sku v = Some (OrderModel.sku s).
Proof.
  unfold SlaViolationUtils.checkPackedSku. intros H.
  apply checkSKUSLAViolation_violation in H. tauto.
Qed.


(** ** The aggregation over the packed SKUs *)

Section EngineFacts.
Import JSDate SlaUtils OrderModel SlaViolationUtils SlaMiddleware SlaSpec.

Variable tz : Z.
Variable dealerSlas : list DealerSLA.
Variable now : Date.
Variable order : Order.

Local Abbreviation check := (checkPackedSku tz dealerSlas now order None).
Local Abbreviation violated := (skuViolated tz dealerSlas now order).

Lemma loop_fold (packed : list SkuItem) (st : LoopState) :
  fold_left (loopBody tz dealerSlas now order None) packed st
  = {| l_skuViolations := l_skuViolations st ++ flat_map (entriesOf check) packed;
       l_allSkusViolated := l_allSkusViolated st && forallb violated packed;
       l_hasAnyViolation := l_hasAnyViolation st || existsb violated packed |}.
Proof.
  revert st. induction packed as [| s packed IH]; intros st.
  - simpl. rewrite app_nil_r, andb_true_r, orb_false_r.
    destruct st; reflexivity.
  - cbn [fold_left flat_map forallb existsb]. rewrite IH. clear IH.
    unfold loopBody, entriesOf, skuViolated.
    destruct (checkPackedSku tz dealerSlas now order None s) as [| v];
      cbn [l_skuViolations l_allSkusViolated l_hasAnyViolation hasViolation].
    + rewrite andb_false_r, app_nil_l. reflexivity.
    + rewrite <- app_assoc, orb_true_r. reflexivity.
Qed.

Lemma entries_length (packed : list SkuItem) :
  List.length (flat_map (entriesOf check) packed)
  = List.length (filter violated packed).
Proof.
  induction packed as [| s packed IH]; [reflexivity |].
  cbn [flat_map filter]. rewrite length_app, IH.
  unfold entriesOf, skuViolated.
  destruct (checkPackedSku tz dealerSlas now order None s); reflexivity.
Qed.

Lemma filter_all_length {A : Type} (f : A -> bool) (l : list A) :
  forallb f l = true -> List.length (filter f l) = List.length l.
Proof.
  induction l as [| x l IH]; [reflexivity |].
  simpl. intros H. apply andb_prop in H as [Hx Hl].
  rewrite Hx. simpl. rewrite IH by assumption. reflexivity.
Qed.

Lemma forallb_existsb_nonempty {A : Type} (f : A -> bool) (x : A) (l : list A) :
  forallb f (x :: l) = true -> existsb f (x :: l) = true.
Proof. simpl. intros H. apply andb_prop in H as [-> _]. reflexivity. Qed.

(** The whole-order check on an order with packed SKUs. *)
Lemma packing_check_nonempty :
  packedSkus order <> [] ->
  checkSLAViolationOnPacking tz dealerSlas now order None None
  = let svs := flat_map (entriesOf check) (packedSkus order) in
    if forallb violated (packedSkus order) then
      {| pc_hasViolation := true;
         pc_violation :=
           match maxViolationOf svs with
           | Some mv =>
               let v := sv_violation mv in
               Some {| v_dealer_id := v_dealer_id v;
                       v_order_id := _id order;
                       v_sku := None;
                       expected_fulfillment_time := expected_fulfillment_time v;
                       actual_fulfillment_time := actual_fulfillment_time v;
                       violation_minutes := violation_minutes v;
                       notes := OrderNote (List.length svs) (violation_minutes v) |}
           | None => None
           end;
         skuViolations := svs;
         allSkusViolated := Some true;
         partialMessage := None |}
    else
      {| pc_hasViolation := false;
         pc_violation := None;
         skuViolations := svs;
         allSkusViolated := Some false;
         partialMessage :=
           if (0 <? List.length svs)%nat
           then Some (List.length svs, List.length (packedSkus order))
           else None |}.
Proof.
  unfold checkSLAViolationOnPacking, packedSkus.
  destruct (skus order) as [| s0 rest] eqn:Hskus; [intros H; now elim H |].
  cbn [JS.chain].
  remember (filter isPacked (s0 :: rest)) as packed eqn:Hp.
  destruct packed as [| p ps]; [intros H; now elim H |].
  intros _. remember (p :: ps) as packed eqn:Hpacked.
  cbv zeta. rewrite loop_fold.
  cbn [l_skuViolations l_hasAnyViolation l_allSkusViolated app orb andb].
  rewrite entries_length.
  destruct (forallb violated packed) eqn:Hall.
  - assert (Hex : existsb violated packed = true).
    { subst packed. apply (forallb_existsb_nonempty _ _ _ Hall). }
    rewrite Hex, (filter_all_length _ _ Hall), Nat.eqb_refl. reflexivity.
  - rewrite andb_false_r. reflexivity.
Qed.

(** The entries of the whole-order check are those of its packed SKUs. *)
Lemma packing_check_entries :
  skuViolations (checkSLAViolationOnPacking tz dealerSlas now order None None)
  = flat_map (entriesOf check) (packedSkus order).
Proof.
  destruct (packedSkus order) as [| p ps] eqn:Hp.
  - unfold checkSLAViolationOnPacking. fold (packedSkus order). rewrite Hp.
    destruct (skus order); reflexivity.
  - rewrite packing_check_nonempty by congruence. rewrite Hp. cbv zeta.
    destruct (forallb violated (p :: ps)); reflexivity.
Qed.

(** The order-level outcome is true exactly when there is a packed SKU and
    every packed SKU is violated. *)
Lemma packing_check_hasViolation :
  pc_hasViolation (checkSLAViolationOnPacking tz dealerSlas now order None None)
  = negb (Nat.eqb (List.length (packedSkus order)) 0)
    && forallb violated (packedSkus order).
Proof.
  destruct (packedSkus order) as [| p ps] eqn:Hp.
  - unfold checkSLAViolationOnPacking. fold (packedSkus order). rewrite Hp.
    destruct (skus order); reflexivity.
  - rewrite packing_check_nonempty by congruence. rewrite Hp. cbv zeta.
    destruct (forallb violated (p :: ps)); reflexivity.
Qed.

Lemma entries_positive (packed : list SkuItem) :
  Forall (fun sv => 0 < violation_minutes (sv_violation sv) /\
                    v_order_id (sv_violation sv) = _id order /\
                    v_sku (sv_violation sv) = Some (sv_sku sv))
    (flat_map (entriesOf check) packed).
Proof.
  apply Forall_flat_map. apply Forall_forall. intros s _.
  unfold entriesOf.
  destruct (check s) as [| v] eqn:Hc; constructor; [| constructor].
  cbn [sv_violation sv_sku]. unfold checkPackedSku in Hc.
  apply checkSKUSLAViolation_violation in Hc. tauto.
Qed.

Lemma last_cons_default {A : Type} (a : A) (l : list A) (d d' : A) :
  List.last (a :: l) d = List.last (a :: l) d'.
Proof.
  revert a. induction l as [| b l IH]; intros a; [reflexivity |].
  change (List.last (b :: l) d = List.last (b :: l) d'). apply IH.
Qed.

(** On entries that all have positive minutes the reduction returns the
    last entry: the accumulator always compares as zero. *)
Lemma maxViolationOf_last (svs : list SkuViolation) :
  Forall (fun sv => 0 < violation_minutes (sv_violation sv)) svs ->
  maxViolationOf svs = List.last (map Some svs) None.
Proof.
  unfold maxViolationOf.
  assert (H : forall acc,
    Forall (fun sv => 0 < violation_minutes (sv_violation sv)) svs ->
    fold_left
      (fun max sv =>
         if violation_minutes (sv_violation sv)
              >? JS.orDefault (accViolationMinutes max) 0
         then Some sv else max) svs acc
    = List.last (map Some svs) acc).
  { induction svs as [| sv l IH]; intros acc Hpos; [reflexivity |].
    inversion Hpos as [| ? ? Hsv Hrest]; subst.
    cbn [fold_left map].
    assert (Hacc : JS.orDefault (accViolationMinutes acc) 0 = 0)
      by (destruct acc; reflexivity).
    rewrite Hacc.
    destruct (Z.gtb_spec (violation_minutes (sv_violation sv)) 0); [| lia].
    rewrite IH by assumption.
    destruct l as [| b l']; [reflexivity |].
    cbn [map].
    change (List.last (Some b :: map Some l') (Some sv)
            = List.last (Some b :: map Some l') acc).
    apply last_cons_default. }
  apply H.
Qed.

Lemma last_some_nonempty {A : Type} (l : list A) :
  l <> [] -> exists x, List.last (map Some l) None = Some x /\ In x l.
Proof.
  induction l as [| a l IH]; [congruence |].
  intros _. destruct l as [| b l'].
  - exists a. split; [reflexivity | left; reflexivity].
  - destruct IH as (x & Hx & Hin); [discriminate |].
    exists x. split; [exact Hx | right; exact Hin].
Qed.

(** When the order-level outcome is true the check carries an aggregate
    violation and the flag [allSkusViolated]. *)
Lemma packing_check_violated_fields :
  let c := checkSLAViolationOnPacking tz dealerSlas now order None None in
  pc_hasViolation c = true ->
  allSkusViolated c = Some true /\
  exists v, pc_violation c = Some v /\ v_sku v = None.
Proof.
  intros c. unfold c. rewrite packing_check_hasViolation.
  intros H. apply andb_prop in H as [Hne Hall].
  assert (Hne' : packedSkus order <> []).
  { intros E. rewrite E in Hne. discriminate. }
  rewrite packing_check_nonempty by assumption. cbv zeta. rewrite Hall.
  split; [reflexivity |].
  cbn [pc_violation].
  rewrite maxViolationOf_last
    by (eapply Forall_impl; [| apply entries_positive]; simpl; tauto).
  destruct (last_some_nonempty (flat_map (entriesOf check) (packedSkus order)))
    as (mv & -> & _).
  - intros Hnil. apply (f_equal (@List.length _)) in Hnil.
    rewrite entries_length, (filter_all_length _ _ Hall) in Hnil.
    destruct (packedSkus order); [congruence | discriminate].
  - eexists. split; reflexivity.
Qed.


End EngineFacts.

(** ** The sweep and the ledger *)

Section LedgerFacts.
Import JSDate SlaUtils OrderModel SlaViolationUtils SlaMiddleware SlaSpec.

Variable tz : Z.
Variable dealerSlas : list DealerSLA.
Variable now : Date.
Variable order : Order.

Local Abbreviation check := (checkPackedSku tz dealerSlas now order None).
Local Abbreviation violated := (skuViolated tz dealerSlas now order).
Local Abbreviation slaCheck :=
  (checkSLAViolationOnPacking tz dealerSlas now order None None).
Local Abbreviation ownEntry := (ownEntry order).

Lemma entries_own (packed : list SkuItem) :
  Forall ownEntry (flat_map (entriesOf check) packed).
Proof.
  eapply Forall_impl; [| apply entries_positive].
  unfold ownEntry. simpl. tauto.
Qed.

Lemma isPackedActive_isPacked (s : SkuItem) : isPackedActive s = isPacked s.
Proof.
  unfold isPackedActive, isPacked.
  destruct (trackingStatus s) as [x |]; simpl; [| reflexivity].
  destruct (String.eqb_spec x "Packed") as [-> | _]; simpl; [| reflexivity].
  destruct (JS.isSome (skuPackedAt s)); reflexivity.
Qed.

Lemma filter_isPackedActive (l : list SkuItem) :
  filter isPackedActive l = filter isPacked l.
Proof. apply filter_ext. intros s. apply isPackedActive_isPacked. Qed.

Lemma recordNew_eq (c : PackingCheck) (ledger : list SLAViolation) :
  recordNewSkuViolations order c ledger
  = ledger ++
    map (fun sv => toRecord (sv_violation sv))
      (filter
         (fun sv =>
            negb (existingSkuSetHas
                    (findExistingViolations ledger (_id order)
                       (map sv_sku (skuViolations c)))
                    (sv_sku sv)))
         (skuViolations c)).
Proof.
  unfold recordNewSkuViolations.
  destruct (skuViolations c) as [| sv svs] eqn:Hsvs.
  - simpl. rewrite app_nil_r. reflexivity.
  - cbv zeta.
    destruct (filter _ (sv :: svs)) as [| n ns] eqn:Hnew.
    + simpl. rewrite app_nil_r. reflexivity.
    + unfold recordSKUViolations. rewrite map_map. reflexivity.
Qed.

Lemma unresolvedFor_app (id : string) (slot : option string)
    (l1 l2 : list SLAViolation) :
  unresolvedFor id slot (l1 ++ l2)
  = unresolvedFor id slot l1 ++ unresolvedFor id slot l2.
Proof. apply filter_app. Qed.

(** Whether the set of the SKUs that already have an unresolved record
    has a name that is among the violated ones. *)
Lemma existingSkuSetHas_spec (ledger : list SLAViolation)
    (names : list string) (name : string) :
  In name names ->
  existingSkuSetHas (findExistingViolations ledger (_id order) names) name
  = negb (Nat.eqb (List.length (unresolvedFor (_id order) (Some name) ledger)) 0).
Proof.
  intros Hin.
  assert (Hnames : existsb (String.eqb name) names = true).
  { apply existsb_exists. exists name. split; [exact Hin | apply String.eqb_refl]. }
  induction ledger as [| r ledger IH]; [reflexivity |].
  unfold findExistingViolations, unresolvedFor, existingSkuSetHas in *.
  cbn [filter].
  destruct (String.eqb (r_order_id r) (_id order)); cbn [andb]; [| exact IH].
  destruct (r_sku r) as [x |] eqn:Hx; cbn [JS.strictEqOpt andb]; [| exact IH].
  destruct (String.eqb_spec x name) as [-> | Hne].
  - rewrite Hnames. cbn [andb].
    destruct (resolved r); cbn [negb]; [exact IH |].
    cbn [map existsb List.length Nat.eqb negb]. rewrite Hx.
    cbn [JS.strictEqOpt]. rewrite String.eqb_refl. reflexivity.
  - destruct (existsb (String.eqb x) names), (resolved r);
      cbn [andb negb]; try exact IH.
    cbn [map existsb]. rewrite Hx. cbn [JS.strictEqOpt].
    apply String.eqb_neq in Hne. rewrite Hne. exact IH.
Qed.

Lemma toRecord_sku_slot (sv : SkuViolation) (name : string) :
  ownEntry sv -> name <> "" ->
  String.eqb (r_order_id (toRecord (sv_violation sv))) (_id order)
  && JS.strictEqOpt (r_sku (toRecord (sv_violation sv))) (Some name)
  && negb (resolved (toRecord (sv_violation sv)))
  = String.eqb (sv_sku sv) name.
Proof.
  intros [Hid Hsku] Hname. unfold toRecord. cbn.
  rewrite Hid, Hsku, String.eqb_refl. cbn. unfold JS.truthyString.
  destruct (String.eqb_spec (sv_sku sv) "") as [E | _]; cbn.
  - rewrite E. symmetry. apply String.eqb_neq. congruence.
  - rewrite andb_true_r. reflexivity.
Qed.


(** The new records of a SKU slot: none when the slot already has an
    unresolved record, else one per entry of that SKU. *)
Lemma new_records_of_sku (has : string -> bool) (svs : list SkuViolation)
    (name : string) :
  Forall ownEntry svs -> name <> "" ->
  List.length
    (unresolvedFor (_id order) (Some name)
       (map (fun sv => toRecord (sv_violation sv))
          (filter (fun sv => negb (has (sv_sku sv))) svs)))
  = if has name then 0%nat
    else List.length (filter (fun sv => String.eqb (sv_sku sv) name) svs).
Proof.
  intros Hown Hname.
  induction svs as [| sv svs IH]; [destruct (has name); reflexivity |].
  inversion Hown as [| ? ? Hsv Hrest]; subst.
  specialize (IH Hrest).
  cbn [filter].
  destruct (String.eqb_spec (sv_sku sv) name) as [E | Hne].
  - rewrite E. destruct (has name) eqn:Hhas; cbn [negb]; [exact IH |].
    cbn [map]. unfold unresolvedFor in *. cbn [filter].
    rewrite (toRecord_sku_slot sv name Hsv Hname), E, String.eqb_refl.
    cbn [List.length]. rewrite IH. reflexivity.
  - destruct (has (sv_sku sv)); cbn [negb]; [exact IH |].
    cbn [map]. unfold unresolvedFor in *. cbn [filter].
    rewrite (toRecord_sku_slot sv name Hsv Hname).
    apply String.eqb_neq in Hne. rewrite Hne. exact IH.
Qed.


Lemma entries_names (packed : list SkuItem) (sv : SkuViolation) :
  In sv (flat_map (entriesOf check) packed) ->
  exists s, In s packed /\ sv_sku sv = sku s /\ violated s = true.
Proof.
  intros H. apply in_flat_map in H as (s & Hs & Hsv).
  exists s. unfold entriesOf, skuViolated in *.
  destruct (checkPackedSku tz dealerSlas now order None s); [contradiction |].
  destruct Hsv as [<- | []]. repeat split; assumption.
Qed.



(** The ledger after the sweep of the order. *)
Lemma sweep_violations (st : Store) :
  violations (snd (checkOrderSLAViolation tz dealerSlas now order st))
  = recordNewSkuViolations order slaCheck (violations st).
Proof.
  unfold checkOrderSLAViolation.
  destruct (skus order) as [| s0 rest] eqn:Hskus.
  - unfold recordNewSkuViolations, checkSLAViolationOnPacking.
    rewrite Hskus. reflexivity.
  - destruct (filter isPackedActive (s0 :: rest)) as [| p ps] eqn:Hp.
    + rewrite filter_isPackedActive in Hp.
      unfold recordNewSkuViolations, checkSLAViolationOnPacking.
      rewrite Hskus. cbn [JS.chain]. rewrite Hp. reflexivity.
    + cbv zeta.
      destruct (pc_hasViolation slaCheck); [| reflexivity].
      destruct (pc_violation slaCheck); [| reflexivity].
      destruct (allSkusViolated slaCheck) as [[|] |]; try reflexivity.
      destruct (findExistingOrderViolation _ _); reflexivity.
Qed.

(** Without an order-level outcome the order store is left alone. *)
Lemma sweep_orders_unpatched (st : Store) :
  pc_hasViolation slaCheck = false ->
  orders (snd (checkOrderSLAViolation tz dealerSlas now order st)) = orders st.
Proof.
  intros Hno. unfold checkOrderSLAViolation.
  destruct (skus order); [reflexivity |].
  destruct (filter isPackedActive _); [reflexivity |].
  cbv zeta. rewrite Hno. reflexivity.
Qed.

(** Without an order-level outcome the sweep returns whether some SKU
    is violated. *)
Lemma sweep_result_without_order_violation (st : Store) :
  packedSkus order <> [] ->
  pc_hasViolation slaCheck = false ->
  fst (checkOrderSLAViolation tz dealerSlas now order st)
  = (0 <? List.length (skuViolations slaCheck))%nat.
Proof.
  intros Hne Hno. unfold checkOrderSLAViolation.
  unfold packedSkus in Hne. rewrite <- filter_isPackedActive in Hne.
  destruct (skus order); [now elim Hne |].
  destruct (filter isPackedActive _); [now elim Hne |].
  cbv zeta. rewrite Hno. reflexivity.
Qed.



End LedgerFacts.




Lemma C6_expected_fulfillment_time_witness :
  SlaUtils.calculateExpectedFulfillmentTime Samples.tz
    (Samples.orderedAt - 25200000) (Some Samples.sla)
  = Some (JSDate.dayStart Samples.tz (Samples.orderedAt - 10800000)
          + 9 * JSDate.msPerHour).
Proof.
  pose proof (C6_expected_fulfillment_time Samples.tz
                (Samples.orderedAt - 25200000) (Some Samples.sla))
    as (_ & _ & H).
  specialize (H Samples.sla {| SlaUtils.expected_hours := 4 |} eq_refl eq_refl).
  destruct H as ((H & _) & _).
  - vm_compute. reflexivity.
  - exact H.
Defined.




(** C1, on the code.  For an order whose two packed SKUs are both late the
    order-level outcome is true, the sweep returns true, inserts the two
    SKU-level records and patches the SLA summary of the order, but the
    ledger holds no order-level record (sku = null) afterwards.  A second
    sweep inserts nothing, and, finding no order-level record, reports and
    patches the order again. *)
Theorem C1_sweep_leaves_no_order_level_record :
  let sweep :=
    SlaMiddleware.checkOrderSLAViolation Samples.tz [Samples.sla]
      Samples.sweepTime Samples.lateOrder in
  let st1 := snd (sweep (Samples.emptyStore Samples.lateOrder)) in
  let st2 := snd (sweep st1) in
  SlaViolationUtils.pc_hasViolation
    (SlaViolationUtils.checkSLAViolationOnPacking Samples.tz [Samples.sla]
       Samples.sweepTime Samples.lateOrder None None) = true /\
  fst (sweep (Samples.emptyStore Samples.lateOrder)) = true /\
  map SlaViolationUtils.r_sku (SlaMiddleware.violations st1)
  = [Some "SKU-A"; Some "SKU-B"] /\
  map (fun o => OrderModel.isSLAMet (OrderModel.slaInfo o))
    (SlaMiddleware.orders st1) = [Some false] /\
  SlaMiddleware.unresolvedFor "order-1" None (SlaMiddleware.violations st1) = [] /\
  SlaMiddleware.findExistingOrderViolation (SlaMiddleware.violations st1) "order-1"
  = None /\
  SlaMiddleware.violations st2 = SlaMiddleware.violations st1 /\
  fst (sweep st1) = true.
Proof. vm_compute. repeat split. Qed.

(** ** The return collection *)

Section ReturnStoreFacts.
Import ReturnModel.

Lemma statusEqb_eq (a b : ReturnStatus) : statusEqb a b = true <-> a = b.
Proof. destruct a, b; simpl; split; intros H; congruence. Qed.

Lemma statusEqb_neq (a b : ReturnStatus) : a <> b -> statusEqb a b = false.
Proof.
  intros H. destruct (statusEqb a b) eqn:E; [| reflexivity].
  apply statusEqb_eq in E. contradiction.
Qed.

Lemma findById_id (rs : list Return) (id : nat) (r : Return) :
  findById rs id = Some r -> _id r = id.
Proof.
  intros H. apply find_some in H as [_ H]. apply Nat.eqb_eq. exact H.
Qed.

(** Saving a document that is in the collection replaces what [findById]
    returns for its id, and nothing else. *)
Lemma findById_saveReturn (rs : list Return) (r x : Return) (id : nat) :
  findById rs (_id r) = Some x ->
  findById (saveReturn r rs) id
  = if Nat.eqb (_id r) id then Some r else findById rs id.
Proof.
  unfold findById. induction rs as [| y rs IH]; [discriminate |].
  cbn [find saveReturn].
  destruct (Nat.eqb_spec (_id y) (_id r)) as [E | Hne].
  - intros _. cbn [find]. rewrite E.
    destruct (Nat.eqb (_id r) id); reflexivity.
  - intros H. cbn [find]. rewrite (IH H).
    destruct (Nat.eqb_spec (_id y) id) as [E1 | _]; [| reflexivity].
    destruct (Nat.eqb_spec (_id r) id) as [E2 | _]; [congruence | reflexivity].
Qed.

Lemma findById_app (rs : list Return) (x : Return) (id : nat) :
  findById (rs ++ [x]) id
  = match findById rs id with
    | Some r => Some r
    | None => if Nat.eqb (_id x) id then Some x else None
    end.
Proof.
  unfold findById. induction rs as [| y rs IH]; [reflexivity |].
  cbn [app find]. destruct (Nat.eqb (_id y) id); [reflexivity | exact IH].
Qed.

Lemma skipn_length_app {A : Type} (l k : list A) :
  skipn (List.length l) (l ++ k) = k.
Proof. induction l as [| a l IH]; [reflexivity | exact IH]. Qed.

End ReturnStoreFacts.

(** ** The refund processor *)

Section RefundFacts.
Import JSDate ReturnModel ReturnController ReturnController.Helpers ReturnSpec.

Lemma recordRefund_effects (mk : nat -> RefundRecord) (rr : Return) (db : Db)
    (id : nat) (r1 : Return) (db1 : Db) :
  recordRefund mk rr db = (id, r1, db1) ->
  id = nextId db /\
  r1 = setRefund (setRefundId id (refund rr)) rr /\
  returns db1 = saveReturn r1 (returns db) /\
  refunds db1 = refunds db ++ [mk id] /\
  providerCalls db1 = providerCalls db /\
  orders db1 = orders db /\ payments db1 = payments db /\
  notifications db1 = notifications db.
Proof.
  unfold recordRefund, insertRefund. intros [= <- <- <-].
  cbn. repeat split.
Qed.

Lemma sourceRefund_effects (env : Env) (rr : Return) (order : O.Order)
    (payment : Payment) (db : Db) (res : RefundResult) (r0 : Return)
    (db1 : Db) :
  sourceRefund env rr order payment db = (res, r0, db1) ->
  refundEffects rr db res r0 db1 /\
  (forall txn rid ty, res = RefundSucceeded txn rid ty -> ty = "Source_Refund") /\
  exists calls,
    providerCalls db1 = providerCalls db ++ calls /\
    amountsAre (toPaise (refundAmount (refund rr))) calls /\
    ~ In CreateContact calls.
Proof.
  unfold sourceRefund. cbv zeta.
  destruct (truthy (p_payment_id payment)) as [pid |].
  2:{ intros [= <- <- <-]. split; [repeat split |]. split; [discriminate |].
      exists []. rewrite app_nil_r. repeat split; [constructor | intros []]. }
  destruct (paymentDetailsResponse env) as [pd |].
  2:{ intros [= <- <- <-]. split; [repeat split |]. split; [discriminate |].
      exists [FetchPayment pid]. repeat split.
      - constructor; [discriminate | constructor].
      - intros [H | []]; discriminate. }
  destruct (_ >? _).
  { intros [= <- <- <-]. split; [repeat split |]. split; [discriminate |].
    exists [FetchPayment pid]. repeat split.
    - constructor; [discriminate | constructor].
    - intros [H | []]; discriminate. }
  assert (Hcalls :
    providerCalls
      (logCall (CreateRefund pid (toPaise (refundAmount (refund rr))))
         (logCall (FetchPayment pid) db))
    = providerCalls db
      ++ [FetchPayment pid; CreateRefund pid (toPaise (refundAmount (refund rr)))]).
  { cbn. rewrite <- app_assoc. reflexivity. }
  assert (Hamounts :
    amountsAre (toPaise (refundAmount (refund rr)))
      [FetchPayment pid; CreateRefund pid (toPaise (refundAmount (refund rr)))]).
  { constructor; [discriminate |]. constructor; [| constructor].
    intros a [= <-]. reflexivity. }
  assert (Hnot :
    ~ In CreateContact
        [FetchPayment pid; CreateRefund pid (toPaise (refundAmount (refund rr)))]).
  { intros [H | [H | []]]; discriminate. }
  destruct (refundResponse env) as [rf |].
  2:{ intros [= <- <- <-]. split; [repeat split |]. split; [discriminate |].
      eexists. split; [exact Hcalls | split; assumption]. }
  destruct (String.eqb (rf_status rf) "failed").
  { intros [= <- <- <-]. split; [repeat split |]. split; [discriminate |].
    eexists. split; [exact Hcalls | split; assumption]. }
  destruct (recordRefund _ rr _) as [[id r1] db3] eqn:Hrec.
  apply recordRefund_effects in Hrec
    as (Hid & Hr1 & Hret & Href & Hpc & Hord & Hpay & Hnot').
  intros [= <- <- <-].
  split.
  - unfold refundEffects. rewrite Hord, Hpay, Hnot'. cbn.
    repeat split; try assumption.
    eexists. split; [exact Href |]. cbn. repeat split.
    right. repeat split.
  - split; [intros ? ? ? [= _ _ <-]; reflexivity |].
    eexists. rewrite Hpc. split; [exact Hcalls | split; assumption].
Qed.


Lemma requestPayout_effects (env : Env) (amount : Q) (db : Db) :
  let db1 := snd (requestPayout env amount db) in
  returns db1 = returns db /\ refunds db1 = refunds db /\
  orders db1 = orders db /\ payments db1 = payments db /\
  notifications db1 = notifications db /\ nextId db1 = nextId db /\
  (fst (requestPayout env amount db) = None <-> payoutStepFails env) /\
  exists calls,
    providerCalls db1 = providerCalls db ++ CreateContact :: calls /\
    amountsAre (toPaise amount) (CreateContact :: calls).
Proof.
  unfold requestPayout, payoutStepFails. cbv zeta.
  destruct (contactResp env) as [contact |]; cbn.
  2:{ repeat split; try tauto.
      exists []. split; [reflexivity |]. constructor; [discriminate | constructor]. }
  destruct (fundResp env) as [fund |]; cbn.
  2:{ repeat split; try tauto.
      exists [CreateFundAccount contact]. rewrite <- app_assoc.
      split; [reflexivity |]. repeat (constructor; [discriminate |]). constructor. }
  repeat split.
  - intros H. right. right. exact H.
  - intros [H | [H | H]]; [discriminate | discriminate | exact H].
  - exists [CreateFundAccount contact; CreatePayout fund (toPaise amount)].
    rewrite <- !app_assoc. split; [reflexivity |].
    constructor; [discriminate |]. constructor; [discriminate |].
    constructor; [| constructor]. intros a [= <-]. reflexivity.
Qed.

(** The processor on an order with a payment document. *)
Lemma processRefundPayment_paths (env : Env) (rr : Return) (method : string)
    (db : Db) (order : O.Order) (payment : Payment) :
  O.findOrderById (orders db) (orderId rr) = Some order ->
  paymentOf db order = Some payment ->
  processRefundPayment env rr method db
  = if useBankPayout (userResponse env) method payment then
      match requestPayout env (refundAmount (refund rr)) db with
      | (Some payout, db1) =>
          let '(id, returnRequest1, db2) :=
            recordRefund
              (fun id =>
                 {| rr_id := id;
                    rr_order_id := O._id order;
                    rr_return_id := _id rr;
                    razorpay_payout_id := Some (po_id payout);
                    razorpay_refund_id := None;
                    rr_amount := refundAmount (refund rr);
                    rr_currency := JS.orDefault (truthy (po_currency payout)) "INR";
                    rr_status := po_status payout;
                    refund_type := "Refund-COD";
                    rr_reason := "Return refund via bank payout" |})
              rr db1 in
          (RefundSucceeded (po_id payout) id "Bank_Payout", returnRequest1, db2)
      | (None, db1) => sourceRefund env rr order payment db1
      end
    else sourceRefund env rr order payment db.
Proof.
  intros Horder Hpayment. unfold processRefundPayment.
  rewrite Horder. unfold paymentOf in Hpayment. rewrite Hpayment. reflexivity.
Qed.

Lemma amountsAre_app (amount : Z) (l k : list ProviderCall) :
  amountsAre amount l -> amountsAre amount k -> amountsAre amount (l ++ k).
Proof. unfold amountsAre. intros. apply Forall_app. split; assumption. Qed.

(** What a run changes, and the amounts it asks the gateway for. *)
Lemma processRefundPayment_effects (env : Env) (rr : Return) (method : string)
    (db : Db) (res : RefundResult) (r0 : Return) (db1 : Db) :
  processRefundPayment env rr method db = (res, r0, db1) ->
  refundEffects rr db res r0 db1 /\
  exists calls,
    providerCalls db1 = providerCalls db ++ calls /\
    amountsAre (toPaise (refundAmount (refund rr))) calls.
Proof.
  destruct (O.findOrderById (orders db) (orderId rr)) as [order |] eqn:Horder.
  2:{ unfold processRefundPayment. rewrite Horder. intros [= <- <- <-].
      split; [repeat split |]. exists []. rewrite app_nil_r.
      split; [reflexivity | constructor]. }
  destruct (paymentOf db order) as [payment |] eqn:Hpayment.
  2:{ unfold processRefundPayment. rewrite Horder.
      unfold paymentOf in Hpayment. rewrite Hpayment. intros [= <- <- <-].
      split; [repeat split |]. exists []. rewrite app_nil_r.
      split; [reflexivity | constructor]. }
  rewrite (processRefundPayment_paths env rr method db order payment Horder Hpayment).
  destruct (useBankPayout (userResponse env) method payment).
  2:{ intros H. apply sourceRefund_effects in H as (Heff & _ & calls & Hc & Ha & _).
      split; [exact Heff |]. exists calls. split; assumption. }
  pose proof (requestPayout_effects env (refundAmount (refund rr)) db)
    as (Hret & Href & Hord & Hpay & Hnot & Hnext & _ & pcalls & Hpc & Hpa).
  destruct (requestPayout env (refundAmount (refund rr)) db) as [[payout |] dbp].
  - cbn [snd] in *.
    destruct (recordRefund _ rr dbp) as [[id r1] db2] eqn:Hrec.
    apply recordRefund_effects in Hrec
      as (Hid & Hr1 & Hret2 & Href2 & Hpc2 & Hord2 & Hpay2 & Hnot2).
    intros [= <- <- <-]. split.
    + unfold refundEffects. rewrite Hord2, Hpay2, Hnot2, Hord, Hpay, Hnot.
      repeat split; try assumption.
      * rewrite Hret2, Hret. reflexivity.
      * eexists. rewrite Href2, Href. split; [reflexivity |]. cbn.
        repeat split. left. repeat split.
    + eexists. rewrite Hpc2. split; [exact Hpc | exact Hpa].
  - cbn [snd] in *. intros H.
    apply sourceRefund_effects in H as (Heff & _ & calls & Hc & Ha & _).
    split.
    + unfold refundEffects in *. rewrite <- Hord, <- Hpay, <- Hnot.
      destruct Heff as (-> & -> & -> & Heff). repeat split.
      destruct res; rewrite <- Hret, <- Href; exact Heff.
    + exists ((CreateContact :: pcalls) ++ calls). rewrite Hc, Hpc.
      rewrite <- app_assoc. split; [reflexivity |].
      apply amountsAre_app; assumption.
Qed.

Lemma hasBankAccount_iff (user : option UserData) :
  hasBankAccount user = true <-> completeBankDetails user.
Proof.
  unfold hasBankAccount, completeBankDetails.
  destruct user as [u |]; cbn.
  2:{ split; [discriminate |]. intros (u & b & ? & ? & ? & H & _). discriminate. }
  destruct (bank_details u) as [b |] eqn:Hb.
  2:{ split; [discriminate |].
      intros (u' & b & ? & ? & ? & [= <-] & H & _). congruence. }
  split.
  - intros H. apply andb_prop in H as [H H3]. apply andb_prop in H as [H1 H2].
    destruct (truthy (account_number b)) as [n |] eqn:Hn; [| discriminate].
    destruct (truthy (ifsc_code b)) as [i |] eqn:Hi; [| discriminate].
    destruct (truthy (bank_account_holder_name b)) as [h |] eqn:Hh;
      [| discriminate].
    exists u, b, n, i, h. repeat split; assumption.
  - intros (u' & b' & n & i & h & [= <-] & Hb' & Hn & Hi & Hh).
    rewrite Hb in Hb'. injection Hb' as <-.
    rewrite Hn, Hi, Hh. reflexivity.
Qed.

Lemma useBankPayout_iff (user : option UserData) (method : string)
    (payment : Payment) :
  useBankPayout user method payment = true
  <-> completeBankDetails user /\
      (method = "Bank_Account" \/ method = "Wallet" \/
       truthy (p_payment_id payment) = None).
Proof.
  unfold useBankPayout. rewrite andb_true_iff, !orb_true_iff, hasBankAccount_iff.
  rewrite !String.eqb_eq.
  destruct (truthy (p_payment_id payment)); cbn; split;
    intros (H1 & H2); (split; [exact H1 |]); intuition congruence.
Qed.

End RefundFacts.

(** C4, as the code has it.  On an order with a payment document the
    processor takes the bank-payout path exactly when the customer has
    complete bank details and the requested method is Bank_Account or Wallet
    or the payment has no provider payment id; otherwise it takes the
    source-refund path.  When a step of the payout fails the run continues
    as the source refund.  Such a run writes at most one ledger entry, never
    two: exactly one, of the source-refund kind and reported as
    Source_Refund, when the source refund succeeds, and none when it
    fails. *)
Theorem C4_refund_strategy (env : ReturnController.Env)
    (rr : ReturnModel.Return) (method : string) (db : ReturnModel.Db)
    (order : OrderModel.Order) (payment : ReturnModel.Payment) :
  OrderModel.findOrderById (ReturnModel.orders db) (ReturnModel.orderId rr)
  = Some order ->
  ReturnSpec.paymentOf db order = Some payment ->
  let run := ReturnController.Helpers.processRefundPayment env rr method db in
  let res := fst (fst run) in
  let db1 := snd run in
  let amount := ReturnModel.refundAmount (ReturnModel.refund rr) in
  let bank :=
    ReturnController.Helpers.useBankPayout
      (ReturnController.userResponse env) method payment in
  (bank = true <->
   ReturnSpec.completeBankDetails (ReturnController.userResponse env) /\
   (method = "Bank_Account" \/ method = "Wallet" \/
    ReturnController.truthy (ReturnModel.p_payment_id payment) = None)) /\
  (hd_error (ReturnSpec.newCalls db db1) = Some ReturnModel.CreateContact
   <-> bank = true) /\
  (bank = false ->
   run = ReturnController.Helpers.sourceRefund env rr order payment db) /\
  (bank = true -> ReturnSpec.payoutStepFails env ->
   run = ReturnController.Helpers.sourceRefund env rr order payment
           (snd (ReturnController.Helpers.requestPayout env amount db)) /\
   (List.length (ReturnSpec.newRefunds db db1) <= 1)%nat /\
   (ReturnController.succeeded res = true ->
    exists entry txn rid,
      ReturnSpec.newRefunds db db1 = [entry] /\
      ReturnModel.refund_type entry = "Refund-Online" /\
      ReturnModel.razorpay_refund_id entry = Some txn /\
      res = ReturnController.RefundSucceeded txn rid "Source_Refund") /\
   (ReturnController.succeeded res = false -> ReturnSpec.newRefunds db db1 = [])).
Proof.
  intros Horder Hpayment run res db1 amount bank.
  pose proof (processRefundPayment_paths env rr method db order payment
                Horder Hpayment) as Hpaths.
  fold run bank amount in Hpaths.
  pose proof (requestPayout_effects env amount db)
    as (Hret & Href & _ & _ & _ & _ & Hfail & pcalls & Hpc & _).
  split; [apply useBankPayout_iff |].
  split; [| split].
  - unfold ReturnSpec.newCalls, db1. rewrite Hpaths.
    destruct bank.
    + split; [reflexivity | intros _].
      destruct (ReturnController.Helpers.requestPayout env amount db)
        as [[payout |] dbp]; cbn [snd] in *.
      * destruct (ReturnController.Helpers.recordRefund _ rr dbp)
          as [[id r1] db2] eqn:Hrec.
        apply recordRefund_effects in Hrec as (_ & _ & _ & _ & Hpc2 & _).
        cbn [snd]. rewrite Hpc2, Hpc, skipn_length_app. reflexivity.
      * destruct (ReturnController.Helpers.sourceRefund env rr order payment dbp)
          as [[res' r'] db'] eqn:Hsrc.
        apply sourceRefund_effects in Hsrc as (_ & _ & calls & Hc & _).
        cbn [snd]. rewrite Hc, Hpc, <- app_assoc, skipn_length_app.
        reflexivity.
    + split; [| discriminate]. intros Hhd. exfalso.
      destruct (ReturnController.Helpers.sourceRefund env rr order payment db)
        as [[res' r'] db'] eqn:Hsrc.
      apply sourceRefund_effects in Hsrc as (_ & _ & calls & Hc & _ & Hnot).
      cbn [snd] in Hhd. rewrite Hc, skipn_length_app in Hhd.
      destruct calls as [| c calls]; [discriminate |].
      injection Hhd as ->. apply Hnot. left. reflexivity.
  - intros Hbank. rewrite Hpaths, Hbank. reflexivity.
  - intros Hbank Hfails.
    assert (Hrun :
      run = ReturnController.Helpers.sourceRefund env rr order payment
              (snd (ReturnController.Helpers.requestPayout env amount db))).
    { rewrite Hpaths, Hbank. apply Hfail in Hfails.
      destruct (ReturnController.Helpers.requestPayout env amount db)
        as [[payout |] dbp]; [discriminate | reflexivity]. }
    split; [exact Hrun |].
    unfold ReturnSpec.newRefunds, res, db1. rewrite Hrun.
    destruct (ReturnController.Helpers.sourceRefund env rr order payment
                (snd (ReturnController.Helpers.requestPayout env amount db)))
      as [[res' r'] db'] eqn:Hsrc.
    apply sourceRefund_effects in Hsrc as (Heff & Hty & _).
    cbn [fst snd]. destruct Heff as (_ & _ & _ & Heff).
    destruct res' as [txn rid ty | message].
    + destruct Heff as (_ & _ & entry & Hentry & _ & _ & _ & Hkind).
      rewrite Hentry, Href, skipn_length_app.
      specialize (Hty txn rid ty eq_refl). subst ty.
      split; [cbn; lia |]. split; [| discriminate].
      intros _. exists entry, txn, rid.
      destruct Hkind as [(Hbad & _) | (_ & Hkind & Hid)]; [discriminate |].
      repeat split; assumption.
    + destruct Heff as (_ & _ & Hsame).
      rewrite Hsame, Href, skipn_all.
      split; [cbn; lia |]. split; [discriminate | reflexivity].
Qed.

Lemma C4_refund_strategy_witness :
  hd_error
    (ReturnSpec.newCalls ReturnSamples.db
       (snd (ReturnController.Helpers.processRefundPayment
               ReturnSamples.payoutDownSourceUp ReturnSamples.approved
               "Bank_Account" ReturnSamples.db)))
  = Some ReturnModel.CreateContact.
Proof.
  apply (proj1 (proj2 (C4_refund_strategy ReturnSamples.payoutDownSourceUp
                         ReturnSamples.approved "Bank_Account" ReturnSamples.db
                         ReturnSamples.order ReturnSamples.payment
                         eq_refl eq_refl))).
  reflexivity.
Defined.

(** A run that falls back after a failed payout and then finds too little
    refundable balance writes no ledger entry at all. *)
Lemma C4_fallback_without_entry :
  let run :=
    ReturnController.Helpers.processRefundPayment ReturnSamples.payoutDown
      ReturnSamples.approved "Bank_Account" ReturnSamples.db in
  ReturnController.Helpers.useBankPayout
    (ReturnController.userResponse ReturnSamples.payoutDown) "Bank_Account"
    ReturnSamples.payment = true /\
  ReturnController.payoutResp ReturnSamples.payoutDown = None /\
  ReturnSpec.newCalls ReturnSamples.db (snd run)
  = [ReturnModel.CreateContact; ReturnModel.CreateFundAccount "cont_1";
     ReturnModel.CreatePayout "fa_1" 3998; ReturnModel.FetchPayment "pay_123"] /\
  fst (fst run)
  = ReturnController.RefundNotProcessed
      (ReturnController.InsufficientBalance (3998 # 100)%Q 1000) /\
  ReturnSpec.newRefunds ReturnSamples.db (snd run) = [] /\
  ~ (exists entry, ReturnSpec.newRefunds ReturnSamples.db (snd run) = [entry]).
Proof.
  vm_compute. repeat split. intros (entry & H). discriminate.
Qed.

(** C5.  On the source-refund path a requested amount in paise above the
    captured amount less the amount already refunded fails with the
    insufficient-balance error, before any refund is requested, and a
    provider refund with status "failed" fails as well.  Whenever the
    processor does not succeed it returns a failure with a message, the
    ledger and the return requests are as they were, and the process-refund
    operation answers with that failure and leaves the return request, in
    status Approved, untouched. *)
Theorem C5_refund_failures :
  (forall env rr order payment db pid details,
     ReturnController.truthy (ReturnModel.p_payment_id payment) = Some pid ->
     ReturnController.paymentDetailsResponse env = Some details ->
     let amount := ReturnModel.refundAmount (ReturnModel.refund rr) in
     let balance :=
       JS.orDefault (ReturnController.pd_amount details) 0
       - JS.orDefault (ReturnController.pd_amount_refunded details) 0 in
     (ReturnController.Helpers.toPaise amount > balance ->
      ReturnController.Helpers.sourceRefund env rr order payment db
      = (ReturnController.RefundNotProcessed
           (ReturnController.InsufficientBalance amount balance),
         rr, ReturnModel.logCall (ReturnModel.FetchPayment pid) db)) /\
     (ReturnController.Helpers.toPaise amount <= balance ->
      forall rf,
        ReturnController.refundResponse env = Some rf ->
        ReturnController.rf_status rf = "failed" ->
        ReturnController.Helpers.sourceRefund env rr order payment db
        = (ReturnController.RefundNotProcessed
             (ReturnController.RefundFailed
                (ReturnController.rf_error_description rf)),
           rr,
           ReturnModel.logCall
             (ReturnModel.CreateRefund pid
                (ReturnController.Helpers.toPaise amount))
             (ReturnModel.logCall (ReturnModel.FetchPayment pid) db)))) /\
  (forall env rr method db,
     let run := ReturnController.Helpers.processRefundPayment env rr method db in
     ReturnController.succeeded (fst (fst run)) = false ->
     (exists message,
        fst (fst run) = ReturnController.RefundNotProcessed message) /\
     ReturnModel.refunds (snd run) = ReturnModel.refunds db /\
     ReturnModel.returns (snd run) = ReturnModel.returns db /\
     snd (fst run) = rr) /\
  (forall env returnId req db rr,
     ReturnModel.findById (ReturnModel.returns db) returnId = Some rr ->
     ReturnModel.returnStatus rr = ReturnModel.Approved ->
     let method :=
       JS.orDefault (ReturnController.Exports.rq_refundMethod req)
         "Original_Payment_Method" in
     let run := ReturnController.Helpers.processRefundPayment env rr method db in
     ReturnController.succeeded (fst (fst run)) = false ->
     let answer := ReturnController.Exports.processRefund env returnId req db in
     (exists message,
        fst (fst run) = ReturnController.RefundNotProcessed message /\
        fst answer
        = ReturnController.SendError
            (ReturnController.RefundProcessingFailed message)) /\
     ReturnModel.refunds (snd answer) = ReturnModel.refunds db /\
     ReturnModel.returns (snd answer) = ReturnModel.returns db /\
     ReturnModel.findById (ReturnModel.returns (snd answer)) returnId = Some rr).
Proof.
  split; [| split].
  - intros env rr order payment db pid details Hpid Hdetails amount balance.
    unfold ReturnController.Helpers.sourceRefund. cbv zeta.
    rewrite Hpid, Hdetails. fold amount balance.
    split.
    + intros Hgt.
      destruct (Z.gtb_spec (ReturnController.Helpers.toPaise amount) balance);
        [reflexivity | lia].
    + intros Hle rf Hrf Hfailed.
      destruct (Z.gtb_spec (ReturnController.Helpers.toPaise amount) balance);
        [lia |].
      rewrite Hrf, Hfailed. reflexivity.
  - intros env rr method db run Hfail.
    destruct run as [[res r0] db1] eqn:Hrun. unfold run in Hrun.
    apply processRefundPayment_effects in Hrun as ((_ & _ & _ & Heff) & _).
    cbn [fst snd] in *.
    destruct res as [| message]; [discriminate |].
    destruct Heff as (-> & Hret & Href).
    split; [eexists; reflexivity |]. repeat split; assumption.
  - intros env returnId req db rr Hfind Hstatus method run Hfail answer.
    destruct run as [[res r0] db1] eqn:Hrun. unfold run in Hrun.
    pose proof Hrun as Heff.
    apply processRefundPayment_effects in Heff as ((_ & _ & _ & Heff) & _).
    cbn [fst snd] in *.
    destruct res as [| message]; [discriminate |].
    destruct Heff as (-> & Hret & Href).
    assert (Hanswer :
      answer = (ReturnController.SendError
                  (ReturnController.RefundProcessingFailed message), db1)).
    { unfold answer, ReturnController.Exports.processRefund.
      rewrite Hfind, Hstatus. cbn [ReturnModel.statusEqb negb].
      fold method. rewrite Hrun. reflexivity. }
    rewrite Hanswer. cbn [fst snd].
    split; [eexists; split; reflexivity |].
    rewrite Hret. repeat split; assumption.
Qed.

Lemma C5_refund_failures_witness :
  ReturnController.Helpers.sourceRefund ReturnSamples.payoutDown
    ReturnSamples.approved ReturnSamples.order ReturnSamples.payment
    ReturnSamples.db
  = (ReturnController.RefundNotProcessed
       (ReturnController.InsufficientBalance (3998 # 100)%Q 1000),
     ReturnSamples.approved,
     ReturnModel.logCall (ReturnModel.FetchPayment "pay_123") ReturnSamples.db).
Proof.
  apply (proj1 (proj1 C5_refund_failures ReturnSamples.payoutDown
                  ReturnSamples.approved ReturnSamples.order
                  ReturnSamples.payment ReturnSamples.db "pay_123"
                  {| ReturnController.pd_amount := Some 1000;
                     ReturnController.pd_amount_refunded := None |}
                  eq_refl eq_refl)).
  reflexivity.
Defined.

(** ** The lifecycle operations *)

Section LifecycleFacts.
Import JSDate ReturnModel ReturnController ReturnController.Helpers ReturnSpec.

Lemma truthy_some (x : option string) (y : string) :
  truthy x = Some y -> x = Some y.
Proof.
  destruct x as [s |]; cbn; [| discriminate].
  unfold JS.truthyString. destruct (String.eqb s ""); [discriminate |].
  intros H. exact H.
Qed.

(** An operation invoked in another status than the one it requires is
    refused with a message naming that status, and changes nothing. *)
Lemma precondition_failure (env : Env) (op : Operation) (returnId : nat)
    (db : Db) (rr : Return) :
  findById (returns db) returnId = Some rr ->
  returnStatus rr <> requiredStatus op ->
  exists text,
    run env op returnId db = (SendError (Plain text), db) /\
    namesStatus text (requiredStatus op) = true.
Proof.
  intros Hfind Hstatus.
  destruct op; cbn [run requiredStatus] in *;
    [unfold Exports.schedulePickup | unfold Exports.completePickup
    | unfold Exports.startInspection | unfold Exports.completeInspection
    | unfold Exports.processRefund | unfold Exports.completeReturn];
    cbv zeta; rewrite Hfind, (statusEqb_neq _ _ Hstatus); cbn [negb];
    eexists; (split; [reflexivity | vm_compute; reflexivity]).
Qed.

(** After a successful refund the request is in status Refund_Processed. *)
Lemma processRefund_success (env : Env) (returnId : nat)
    (req : Exports.RefundRequest) (db : Db) (rr : Return) (message : string)
    (db1 : Db) :
  Exports.processRefund env returnId req db = (SendSuccess rr message, db1) ->
  findById (returns db1) returnId = Some rr /\
  returnStatus rr = Refund_Processed.
Proof.
  unfold Exports.processRefund. cbv zeta.
  destruct (findById (returns db) returnId) as [found |] eqn:Hfind;
    [| discriminate].
  destruct (negb (statusEqb (returnStatus found) Approved)); [discriminate |].
  destruct (processRefundPayment env found _ db) as [[res r0] dbp] eqn:Hrun.
  apply processRefundPayment_effects in Hrun as ((_ & _ & _ & Heff) & _).
  destruct res as [txn rid ty | failure]; [| discriminate].
  destruct Heff as (Hr0 & Hret & _).
  intros [= <- _ <-].
  split; [| reflexivity].
  pose proof (findById_id _ _ _ Hfind) as Hid.
  assert (Hid0 : _id r0 = returnId) by (rewrite Hr0; exact Hid).
  assert (Hfind0 : findById (returns dbp) returnId = Some r0).
  { rewrite Hret.
    rewrite (findById_saveReturn (returns db) r0 found returnId)
      by (rewrite Hid0; exact Hfind).
    rewrite Hid0, Nat.eqb_refl. reflexivity. }
  cbn [notify save withReturns returns].
  match goal with
  | |- findById (saveReturn ?r3 _) _ = _ =>
      rewrite (findById_saveReturn (returns dbp) r3 r0 returnId)
        by (cbn; rewrite Hid0; exact Hfind0);
      cbn
  end.
  rewrite Hid0, Nat.eqb_refl. reflexivity.
Qed.

End LifecycleFacts.

(** C3.  Each of the six operations with a status precondition, invoked
    on a return request whose status is not the required one, answers with
    an error whose message names the required status, and leaves the whole
    state, the return request included, as it was.  After a process-refund
    call that succeeded, every further process-refund call on the same
    request is refused in that way. *)
Theorem C3_status_preconditions :
  (forall env op returnId db rr,
     ReturnModel.findById (ReturnModel.returns db) returnId = Some rr ->
     ReturnModel.returnStatus rr <> ReturnSpec.requiredStatus op ->
     exists text,
       ReturnSpec.run env op returnId db
       = (ReturnController.SendError (ReturnController.Plain text), db) /\
       ReturnSpec.namesStatus text (ReturnSpec.requiredStatus op) = true) /\
  (forall env returnId req db rr message db1,
     ReturnController.Exports.processRefund env returnId req db
     = (ReturnController.SendSuccess rr message, db1) ->
     forall env' req',
       ReturnController.Exports.processRefund env' returnId req' db1
       = (ReturnController.SendError
            (ReturnController.Plain
               "Return request must be approved before processing refund"),
          db1)).
Proof.
  split.
  - apply precondition_failure.
  - intros env returnId req db rr message db1 H env' req'.
    apply processRefund_success in H as (Hfind & Hstatus).
    unfold ReturnController.Exports.processRefund. cbv zeta.
    rewrite Hfind, Hstatus. reflexivity.
Qed.

Lemma C3_status_preconditions_witness :
  exists text,
    ReturnSpec.run ReturnSamples.payoutDown ReturnSpec.CompleteReturn 0
      ReturnSamples.db
    = (ReturnController.SendError (ReturnController.Plain text),
       ReturnSamples.db) /\
    ReturnSpec.namesStatus text ReturnModel.Refund_Processed = true.
Proof.
  apply (proj1 C3_status_preconditions ReturnSamples.payoutDown
           ReturnSpec.CompleteReturn 0%nat ReturnSamples.db
           ReturnSamples.approved eq_refl).
  discriminate.
Defined.

(** C8.  A SKU without delivery timestamp is ineligible.  Otherwise the
    request is eligible exactly when now is at most seven days after the
    delivery and the product is returnable, where a product call that fails
    or is answered without success counts as not returnable; outside the
    window the reason is the expiry of the window, also when the product is
    not returnable either.  Ten days after the delivery of a returnable
    product the answer is ineligible, "Return window has expired". *)
Theorem C8_return_eligibility (env : ReturnController.Env)
    (order : OrderModel.Order) (name : string) :
  let result :=
    ReturnController.Helpers.validateReturnEligibility env order name in
  let returnable :=
    ReturnController.Helpers.productReturnable
      (ReturnController.productResponse env) in
  (ReturnController.productResponse env = None -> returnable = false) /\
  (forall p, ReturnController.productResponse env = Some p ->
             ReturnController.success p = false -> returnable = false) /\
  (forall p, ReturnController.productResponse env = Some p ->
             ReturnController.success p = true ->
             returnable
             = JS.orDefault (ReturnController.is_returnable p) false) /\
  forall item,
    OrderModel.findSku order name = Some item ->
    match OrderModel.skuDeliveredAt item with
    | None =>
        ReturnModel.e_isEligible result = false /\
        ReturnModel.e_reason result = "Delivery date not found"
    | Some delivered =>
        let within :=
          ReturnController.now env <=? delivered + 7 * JSDate.msPerDay in
        ReturnModel.e_isEligible result = within && returnable /\
        ReturnModel.e_isWithinReturnWindow result = Some within /\
        ReturnModel.e_isProductReturnable result = Some returnable /\
        (within = false ->
         ReturnModel.e_reason result = "Return window has expired") /\
        (within = true -> returnable = false ->
         ReturnModel.e_reason result = "Product is not returnable") /\
        (ReturnController.now env = delivered + 10 * JSDate.msPerDay ->
         returnable = true ->
         ReturnModel.e_isEligible result = false /\
         ReturnModel.e_reason result = "Return window has expired")
    end.
Proof.
  intros result returnable.
  split; [intros H; unfold returnable; rewrite H; reflexivity |].
  split; [intros p H Hs; unfold returnable; rewrite H; cbn; rewrite Hs;
          reflexivity |].
  split; [intros p H Hs; unfold returnable; rewrite H; cbn; rewrite Hs;
          reflexivity |].
  intros item Hitem.
  unfold result, ReturnController.Helpers.validateReturnEligibility.
  rewrite Hitem.
  destruct (OrderModel.skuDeliveredAt item) as [delivered |];
    [| split; reflexivity].
  cbv zeta. fold returnable. unfold JSDate.addDays.
  set (within := ReturnController.now env <=? delivered + 7 * JSDate.msPerDay).
  cbn [ReturnModel.e_isEligible ReturnModel.e_reason
       ReturnModel.e_isWithinReturnWindow ReturnModel.e_isProductReturnable].
  split; [reflexivity |]. split; [reflexivity |]. split; [reflexivity |].
  split; [intros H; rewrite H; reflexivity |].
  split; [intros H1 H2; rewrite H1, H2; reflexivity |].
  intros Hnow _.
  assert (Hout : within = false).
  { unfold within. apply Z.leb_gt. unfold JSDate.msPerDay in *. lia. }
  rewrite Hout. split; reflexivity.
Qed.

Lemma C8_return_eligibility_witness :
  ReturnModel.e_isEligible
    (ReturnController.Helpers.validateReturnEligibility
       ReturnSamples.tenDaysLater ReturnSamples.order "SKU-A") = false /\
  ReturnModel.e_reason
    (ReturnController.Helpers.validateReturnEligibility
       ReturnSamples.tenDaysLater ReturnSamples.order "SKU-A")
  = "Return window has expired".
Proof.
  pose proof (C8_return_eligibility ReturnSamples.tenDaysLater
                ReturnSamples.order "SKU-A") as (_ & _ & _ & H).
  specialize (H ReturnSamples.deliveredSku eq_refl).
  cbn [OrderModel.skuDeliveredAt] in H.
  destruct H as (_ & _ & _ & _ & _ & H).
  apply H; reflexivity.
Defined.

(** ** Creation *)

Section CreateFacts.
Import JSDate ReturnModel ReturnController ReturnController.Helpers ReturnSpec.

Lemma strictEqOpt_true (a b : option string) :
  JS.strictEqOpt a b = true -> a = b.
Proof.
  destruct a as [x |], b as [y |]; cbn; try discriminate; [| reflexivity].
  intros H. apply String.eqb_eq in H. congruence.
Qed.

(** A create request that is answered with success passed every check,
    and its document was appended to the collection before the pickup was
    scheduled. *)
Lemma createReturnRequest_success (env : Env) (req : Exports.CreateRequest)
    (db : Db) (rr : Return) (message : string) (db1 : Db) :
  Exports.createReturnRequest env req db = (SendSuccess rr message, db1) ->
  exists order item db3,
    O.findOrderById (orders db) (orderId rr) = Some order /\
    O.findSku order (sku rr) = Some item /\
    quantity rr = requestedQuantity req /\
    quantity rr <= O.quantity item /\
    _id rr = nextId db /\
    refundAmount (refund rr)
    = (O.selling_price item * inject_Z (quantity rr))%Q /\
    (db1 = db3 \/ schedulePickup env (_id rr) db3 = Some db1) /\
    returns db3 = returns db ++ [rr].
Proof.
  unfold Exports.createReturnRequest. cbv zeta.
  destruct (truthy (Exports.c_orderId req)) as [o |]; [| discriminate].
  destruct (truthy (Exports.c_sku req)) as [s |]; [| discriminate].
  destruct (truthy (Exports.c_returnReason req)) as [reason |]; [| discriminate].
  destruct (truthy _) as [caller |]; [| discriminate].
  destruct (findByOrderAndSku (returns db) o s); [discriminate |].
  destruct (O.findOrderById (orders db) o) as [order |] eqn:Horder;
    [| discriminate].
  destruct (negb _); [discriminate |].
  destruct (O.findSku order s) as [item |] eqn:Hitem; [| discriminate].
  destruct (Z.gtb_spec (JS.orDefault (Exports.c_quantity req) 1) (O.quantity item))
    as [| Hq]; [discriminate |].
  unfold insertReturn. cbv beta iota zeta.
  destruct (e_isEligible (validateReturnEligibility env order s)).
  - match goal with
    | |- context [schedulePickup env ?i ?d] =>
        destruct (schedulePickup env i d) as [db4 |] eqn:Hpick
    end; [| discriminate].
    intros [= <- _ <-].
    eexists order, item, _. cbn [orderId sku quantity _id refund refundAmount].
    split; [exact Horder |]. split; [exact Hitem |]. split; [reflexivity |].
    split; [unfold requestedQuantity; lia |]. split; [reflexivity |].
    split; [reflexivity |].
    split; [right; exact Hpick |]. reflexivity.
  - intros [= <- _ <-].
    eexists order, item, _. cbn [orderId sku quantity _id refund refundAmount].
    split; [exact Horder |]. split; [exact Hitem |]. split; [reflexivity |].
    split; [unfold requestedQuantity; lia |]. split; [reflexivity |].
    split; [reflexivity |].
    split; [left; reflexivity |]. reflexivity.
Qed.

(** Whatever a create request is answered, the collection of return
    requests is either as it was or has one more document, on which at most
    the pickup scheduler has acted. *)
Lemma createReturnRequest_store (env : Env) (req : Exports.CreateRequest)
    (db : Db) :
  let db1 := snd (Exports.createReturnRequest env req db) in
  db1 = db \/
  exists rr db3,
    returns db3 = returns db ++ [rr] /\
    (db1 = db3 \/ schedulePickup env (_id rr) db3 = Some db1).
Proof.
  unfold Exports.createReturnRequest. cbv zeta.
  destruct (truthy (Exports.c_orderId req)) as [o |]; [| left; reflexivity].
  destruct (truthy (Exports.c_sku req)) as [s |]; [| left; reflexivity].
  destruct (truthy (Exports.c_returnReason req)) as [reason |];
    [| left; reflexivity].
  destruct (truthy _) as [caller |]; [| left; reflexivity].
  destruct (findByOrderAndSku (returns db) o s); [left; reflexivity |].
  destruct (O.findOrderById (orders db) o) as [order |]; [| left; reflexivity].
  destruct (negb _); [left; reflexivity |].
  destruct (O.findSku order s) as [item |]; [| left; reflexivity].
  destruct (_ >? _); [left; reflexivity |].
  unfold insertReturn. cbv beta iota zeta. right.
  destruct (e_isEligible (validateReturnEligibility env order s)).
  - match goal with
    | |- context [schedulePickup env ?i ?d] =>
        destruct (schedulePickup env i d) as [db4 |] eqn:Hpick
    end.
    + eexists _, _. split; [| right; exact Hpick]. reflexivity.
    + eexists _, _. split; [| left; reflexivity]. reflexivity.
  - eexists _, _. split; [| left; reflexivity]. reflexivity.
Qed.

End CreateFacts.

(** C9.  A create request for an order and a SKU is answered with an
    error, and the whole state is as it was (so no return request is
    created), whenever a return request exists for that order and SKU, the
    order is not found, the caller is not the customer of the order, the
    SKU is not in the order, or the requested quantity exceeds the ordered
    quantity of the SKU. *)
Theorem C9_create_rejections (env : ReturnController.Env)
    (req : ReturnController.Exports.CreateRequest) (db : ReturnModel.Db)
    (o s : string) :
  ReturnController.Exports.c_orderId req = Some o ->
  ReturnController.Exports.c_sku req = Some s ->
  (exists r,
     In r (ReturnModel.returns db) /\
     ReturnModel.orderId r = o /\ ReturnModel.sku r = s) \/
  OrderModel.findOrderById (ReturnModel.orders db) o = None \/
  (exists order,
     OrderModel.findOrderById (ReturnModel.orders db) o = Some order /\
     (JS.chain (OrderModel.customerDetails order) OrderModel.userId
      <> ReturnSpec.callerOf req \/
      OrderModel.findSku order s = None \/
      exists item,
        OrderModel.findSku order s = Some item /\
        ReturnSpec.requestedQuantity req > OrderModel.quantity item)) ->
  exists text,
    ReturnController.Exports.createReturnRequest env req db
    = (ReturnController.SendError (ReturnController.Plain text), db).
Proof.
  intros Ho Hs Hreject.
  unfold ReturnController.Exports.createReturnRequest. cbv zeta.
  fold (ReturnSpec.callerOf req). fold (ReturnSpec.requestedQuantity req).
  destruct (ReturnController.truthy (ReturnController.Exports.c_orderId req))
    as [o' |] eqn:Ho'; [| eexists; reflexivity].
  destruct (ReturnController.truthy (ReturnController.Exports.c_sku req))
    as [s' |] eqn:Hs'; [| eexists; reflexivity].
  destruct (ReturnController.truthy (ReturnController.Exports.c_returnReason req));
    [| eexists; reflexivity].
  destruct (ReturnController.truthy (ReturnSpec.callerOf req))
    as [caller |] eqn:Hcaller; [| eexists; reflexivity].
  apply truthy_some in Ho', Hs', Hcaller.
  assert (o' = o) by congruence. assert (s' = s) by congruence. subst o' s'.
  destruct (ReturnModel.findByOrderAndSku (ReturnModel.returns db) o s)
    eqn:Hdup; [eexists; reflexivity |].
  destruct (OrderModel.findOrderById (ReturnModel.orders db) o)
    as [order |] eqn:Horder; [| eexists; reflexivity].
  destruct (negb _) eqn:Hown; [eexists; reflexivity |].
  destruct (OrderModel.findSku order s) as [item |] eqn:Hitem;
    [| eexists; reflexivity].
  destruct (Z.gtb_spec (ReturnSpec.requestedQuantity req) (OrderModel.quantity item))
    as [| Hq]; [eexists; reflexivity |].
  exfalso.
  destruct Hreject as [(r & Hin & Hro & Hrs) | [Hmissing | (order' & Horder' & Hrest)]].
  - pose proof (find_none _ _ Hdup r Hin) as Hnone. cbn in Hnone.
    rewrite Hro, Hrs, !String.eqb_refl in Hnone. discriminate.
  - discriminate.
  - injection Horder' as <-.
    destruct Hrest as [Hother | [Hnone | (item' & Hitem' & Hmany)]].
    + apply negb_false_iff in Hown. apply strictEqOpt_true in Hown.
      apply Hother. congruence.
    + congruence.
    + rewrite Hitem in Hitem'. injection Hitem' as <-. lia.
Qed.

Lemma C9_create_rejections_witness :
  exists text,
    ReturnController.Exports.createReturnRequest ReturnSamples.payoutDown
      (ReturnSamples.createRequest 3) ReturnSamples.freshDb
    = (ReturnController.SendError (ReturnController.Plain text),
       ReturnSamples.freshDb).
Proof.
  apply (C9_create_rejections ReturnSamples.payoutDown
           (ReturnSamples.createRequest 3) ReturnSamples.freshDb
           "order-2" "SKU-A" eq_refl eq_refl).
  right. right. exists ReturnSamples.order. split; [reflexivity |].
  right. right. exists ReturnSamples.deliveredSku. split; reflexivity.
Defined.

(** ** The refund amount *)

Section AmountFacts.
Import JSDate ReturnModel ReturnController ReturnController.Helpers ReturnSpec.

Lemma amountsKept_refl (rs : list Return) : amountsKept rs rs.
Proof. intros id amount H. exact H. Qed.

Lemma amountsKept_trans (a b c : list Return) :
  amountsKept a b -> amountsKept b c -> amountsKept a c.
Proof. intros Hab Hbc id amount H. apply Hbc, Hab, H. Qed.

Lemma amountsKept_save (rs : list Return) (r x : Return) :
  findById rs (_id r) = Some x ->
  refundAmount (refund r) = refundAmount (refund x) ->
  amountsKept rs (saveReturn r rs).
Proof.
  intros Hfind Hamount id amount H.
  rewrite (findById_saveReturn rs r x id Hfind).
  destruct (Nat.eqb_spec (_id r) id) as [E | _]; [| exact H].
  subst id. rewrite Hfind in H. cbn in *. congruence.
Qed.

Lemma amountsKept_append (rs : list Return) (x : Return) :
  amountsKept rs (rs ++ [x]).
Proof.
  intros id amount H. rewrite findById_app.
  destruct (findById rs id); [exact H | discriminate].
Qed.

Lemma schedulePickup_keeps (env : Env) (returnId : nat) (db db1 : Db) :
  schedulePickup env returnId db = Some db1 ->
  amountsKept (returns db) (returns db1).
Proof.
  unfold schedulePickup.
  destruct (findById (returns db) returnId) as [found |] eqn:Hfind;
    [| discriminate].
  destruct (createLogisticsPickupRequest env db found _) as [pickup |];
    [| discriminate].
  intros [= <-]. cbn [save withReturns returns].
  apply amountsKept_save with (x := found); [| reflexivity].
  cbn. rewrite (findById_id _ _ _ Hfind). exact Hfind.
Qed.

Lemma processRefund_keeps (env : Env) (returnId : nat)
    (req : Exports.RefundRequest) (db : Db) :
  amountsKept (returns db)
    (returns (snd (Exports.processRefund env returnId req db))).
Proof.
  unfold Exports.processRefund. cbv zeta.
  destruct (findById (returns db) returnId) as [found |] eqn:Hfind;
    [| apply amountsKept_refl].
  destruct (negb _); [apply amountsKept_refl |].
  destruct (processRefundPayment env found _ db) as [[res r0] dbp] eqn:Hrun.
  apply processRefundPayment_effects in Hrun as ((_ & _ & _ & Heff) & _).
  pose proof (findById_id _ _ _ Hfind) as Hid.
  destruct res as [txn rid ty | failure].
  - destruct Heff as (Hr0 & Hret & _).
    assert (Hid0 : _id r0 = returnId) by (rewrite Hr0; exact Hid).
    assert (Hkeep0 : amountsKept (returns db) (returns dbp)).
    { rewrite Hret. apply amountsKept_save with (x := found).
      - rewrite Hid0. exact Hfind.
      - rewrite Hr0. reflexivity. }
    assert (Hfind0 : findById (returns dbp) returnId = Some r0).
    { rewrite Hret.
      rewrite (findById_saveReturn (returns db) r0 found returnId)
        by (rewrite Hid0; exact Hfind).
      rewrite Hid0, Nat.eqb_refl. reflexivity. }
    cbn [snd notify save withReturns returns].
    eapply amountsKept_trans; [exact Hkeep0 |].
    apply amountsKept_save with (x := r0); [| reflexivity].
    cbn. rewrite Hid0. exact Hfind0.
  - destruct Heff as (_ & Hret & _). cbn [snd]. rewrite Hret.
    apply amountsKept_refl.
Qed.

Lemma validateReturnRequest_keeps (env : Env) (returnId : nat) (db : Db) :
  amountsKept (returns db)
    (returns (snd (Exports.validateReturnRequest env returnId db))).
Proof.
  unfold Exports.validateReturnRequest. cbv zeta.
  destruct (findById (returns db) returnId) as [found |] eqn:Hfind;
    [| apply amountsKept_refl].
  destruct (O.findOrderById (orders db) (orderId found)) as [order |];
    [| apply amountsKept_refl].
  pose proof (findById_id _ _ _ Hfind) as Hid.
  match goal with
  | |- context [save ?r db] =>
      assert (Hsave : amountsKept (returns db) (returns (save r db)))
  end.
  { cbn [save withReturns returns].
    apply amountsKept_save with (x := found); [| reflexivity].
    cbn. rewrite Hid. exact Hfind. }
  destruct (e_isEligible _).
  - match goal with
    | |- context [schedulePickup env ?i ?d] =>
        destruct (schedulePickup env i d) as [db3 |] eqn:Hpick
    end.
    + cbn [snd]. eapply amountsKept_trans; [exact Hsave |].
      apply schedulePickup_keeps in Hpick. exact Hpick.
    + exact Hsave.
  - exact Hsave.
Qed.

Lemma run_keeps (env : Env) (op : Operation) (returnId : nat) (db : Db) :
  amountsKept (returns db) (returns (snd (run env op returnId db))).
Proof.
  destruct op; cbn [run]; try apply processRefund_keeps;
    [unfold Exports.schedulePickup | unfold Exports.completePickup
    | unfold Exports.startInspection | unfold Exports.completeInspection
    | unfold Exports.completeReturn];
    cbv zeta;
    (destruct (findById (returns db) returnId) as [found |] eqn:Hfind;
       [| apply amountsKept_refl]);
    (destruct (negb _); [apply amountsKept_refl |]);
    pose proof (findById_id _ _ _ Hfind) as Hid.
  - destruct (createLogisticsPickupRequest env db found scheduled);
      [| apply amountsKept_refl].
    cbn [snd notify save withReturns returns].
    apply amountsKept_save with (x := found); [| reflexivity].
    cbn. rewrite Hid. exact Hfind.
  - destruct (truthy (dealerId found)) eqn:Hdealer;
      cbn [snd notify save withReturns returns dealerId setTimestamps
           setPickupRequest setReturnStatus];
      rewrite ?Hdealer; cbn [snd notify save withReturns returns];
      (apply amountsKept_save with (x := found); [| reflexivity]);
      cbn; rewrite Hid; exact Hfind.
  - cbn [snd save withReturns returns].
    apply amountsKept_save with (x := found); [| reflexivity].
    cbn. rewrite Hid. exact Hfind.
  - destruct (JS.orDefault (Exports.i_isApproved body) false);
      cbn [snd notify save withReturns returns findFulfillmentAdmins];
      (apply amountsKept_save with (x := found); [| reflexivity]);
      cbn; rewrite Hid; exact Hfind.
  - cbn [snd notify save withReturns returns].
    apply amountsKept_save with (x := found); [| reflexivity].
    cbn. rewrite Hid. exact Hfind.
Qed.

Lemma handle_keeps (env : Env) (rq : Request) (db : Db) :
  amountsKept (returns db) (returns (snd (handle env rq db))).
Proof.
  destruct rq as [op returnId | returnId | returnId n | req]; cbn [handle].
  - apply run_keeps.
  - apply validateReturnRequest_keeps.
  - unfold Exports.addNote.
    destruct (findById (returns db) returnId) as [found |] eqn:Hfind;
      [| apply amountsKept_refl].
    cbn [snd save withReturns returns].
    apply amountsKept_save with (x := found); [| reflexivity].
    cbn. rewrite (findById_id _ _ _ Hfind). exact Hfind.
  - destruct (createReturnRequest_store env req db)
      as [-> | (rr & db3 & Happ & [-> | Hpick])].
    + apply amountsKept_refl.
    + rewrite Happ. apply amountsKept_append.
    + eapply amountsKept_trans; [| apply (schedulePickup_keeps _ _ _ _ Hpick)].
      rewrite Happ. apply amountsKept_append.
Qed.

End AmountFacts.

Section RefundCallFacts.
Import JSDate ReturnModel ReturnController ReturnController.Helpers ReturnSpec.

(** The requests of a payout whose first two steps succeed. *)
Lemma requestPayout_calls (env : Env) (amount : Q) (db : Db)
    (contact fund : string) :
  contactResp env = Some contact -> fundResp env = Some fund ->
  requestPayout env amount db
  = (payoutResp env,
     logCall (CreatePayout fund (toPaise amount))
       (logCall (CreateFundAccount contact) (logCall CreateContact db))) /\
  newCalls db (snd (requestPayout env amount db))
  = [CreateContact; CreateFundAccount contact;
     CreatePayout fund (toPaise amount)].
Proof.
  intros Hcontact Hfund. unfold requestPayout. rewrite Hcontact, Hfund.
  split; [reflexivity |].
  unfold newCalls. cbn [snd logCall providerCalls].
  rewrite <- !app_assoc. apply skipn_length_app.
Qed.

(** A payout that answers went through its three steps. *)
Lemma requestPayout_answered (env : Env) (amount : Q) (db : Db)
    (payout : PayoutData) (db1 : Db) :
  requestPayout env amount db = (Some payout, db1) ->
  exists contact fund,
    contactResp env = Some contact /\ fundResp env = Some fund /\
    providerCalls db1
    = providerCalls db ++
      [CreateContact; CreateFundAccount contact;
       CreatePayout fund (toPaise amount)].
Proof.
  unfold requestPayout.
  destruct (contactResp env) as [contact |]; [| discriminate].
  destruct (fundResp env) as [fund |]; [| discriminate].
  intros [= _ <-]. exists contact, fund.
  split; [reflexivity |]. split; [reflexivity |].
  cbn [logCall providerCalls]. rewrite <- !app_assoc. reflexivity.
Qed.

(** The requests of a source refund that succeeds. *)
Lemma sourceRefund_succeeded (env : Env) (rr : Return) (order : O.Order)
    (payment : Payment) (db : Db) (txn : string) (rid : nat) (ty : string)
    (r0 : Return) (db1 : Db) :
  sourceRefund env rr order payment db = (RefundSucceeded txn rid ty, r0, db1) ->
  ty = "Source_Refund" /\
  exists pid,
    providerCalls db1
    = providerCalls db ++
      [FetchPayment pid;
       CreateRefund pid (toPaise (refundAmount (refund rr)))].
Proof.
  unfold sourceRefund. cbv zeta.
  destruct (truthy (p_payment_id payment)) as [pid |]; [| discriminate].
  destruct (paymentDetailsResponse env) as [details |]; [| discriminate].
  destruct (_ >? _); [discriminate |].
  destruct (refundResponse env) as [rf |]; [| discriminate].
  destruct (String.eqb (rf_status rf) "failed"); [discriminate |].
  match goal with
  | |- context [recordRefund ?mk rr ?d] =>
      destruct (recordRefund mk rr d) as [[id r1] db3] eqn:Hrec
  end.
  apply recordRefund_effects in Hrec as (_ & _ & _ & _ & Hpc & _).
  intros [= _ _ <- _ <-]. split; [reflexivity |].
  exists pid. rewrite Hpc. cbn [logCall providerCalls].
  rewrite <- app_assoc. reflexivity.
Qed.

(** A source refund with a provider payment id and enough refundable
    balance asks the gateway for the refund. *)
Lemma sourceRefund_requested (env : Env) (rr : Return) (order : O.Order)
    (payment : Payment) (db : Db) (pid : string) (details : PaymentDetails) :
  truthy (p_payment_id payment) = Some pid ->
  paymentDetailsResponse env = Some details ->
  toPaise (refundAmount (refund rr))
  <= JS.orDefault (pd_amount details) 0
     - JS.orDefault (pd_amount_refunded details) 0 ->
  providerCalls (snd (sourceRefund env rr order payment db))
  = providerCalls db ++
    [FetchPayment pid; CreateRefund pid (toPaise (refundAmount (refund rr)))].
Proof.
  intros Hpid Hdetails Hbalance. unfold sourceRefund. cbv zeta.
  rewrite Hpid, Hdetails.
  match goal with
  | |- context [?a >? ?b] => destruct (Z.gtb_spec a b) as [Hgt | _]
  end; [lia |].
  assert (Hcalls : forall d,
    providerCalls d
    = providerCalls
        (logCall (CreateRefund pid (toPaise (refundAmount (refund rr))))
           (logCall (FetchPayment pid) db)) ->
    providerCalls d
    = providerCalls db ++
      [FetchPayment pid;
       CreateRefund pid (toPaise (refundAmount (refund rr)))]).
  { intros d ->. cbn [logCall providerCalls]. rewrite <- app_assoc.
    reflexivity. }
  destruct (refundResponse env) as [rf |]; [| apply Hcalls; reflexivity].
  destruct (String.eqb (rf_status rf) "failed");
    [apply Hcalls; reflexivity |].
  match goal with
  | |- context [recordRefund ?mk rr ?d] =>
      destruct (recordRefund mk rr d) as [[id r1] db3] eqn:Hrec
  end.
  apply recordRefund_effects in Hrec as (_ & _ & _ & _ & Hpc & _).
  cbn [snd]. apply Hcalls. exact Hpc.
Qed.

(** A run of the processor that succeeds ended with the request that moves
    the money: the payout, or the refund of the payment. *)
Lemma processRefundPayment_succeeded (env : Env) (rr : Return)
    (method : string) (db : Db) (txn : string) (rid : nat) (ty : string)
    (r0 : Return) (db1 : Db) :
  processRefundPayment env rr method db = (RefundSucceeded txn rid ty, r0, db1) ->
  exists earlier,
    (exists fund,
       newCalls db db1
       = earlier ++ [CreatePayout fund (toPaise (refundAmount (refund rr)))] /\
       ty = "Bank_Payout") \/
    (exists pid,
       newCalls db db1
       = earlier ++ [CreateRefund pid (toPaise (refundAmount (refund rr)))] /\
       ty = "Source_Refund").
Proof.
  destruct (O.findOrderById (orders db) (orderId rr)) as [order |] eqn:Horder.
  2:{ unfold processRefundPayment. rewrite Horder. discriminate. }
  destruct (paymentOf db order) as [payment |] eqn:Hpayment.
  2:{ unfold processRefundPayment. rewrite Horder.
      unfold paymentOf in Hpayment. rewrite Hpayment. discriminate. }
  rewrite (processRefundPayment_paths env rr method db order payment
             Horder Hpayment).
  unfold newCalls.
  destruct (useBankPayout (userResponse env) method payment).
  - destruct (requestPayout env (refundAmount (refund rr)) db)
      as [[payout |] dbp] eqn:Hpayout.
    + apply requestPayout_answered in Hpayout
        as (contact & fund & _ & _ & Hcalls).
      destruct (recordRefund _ rr dbp) as [[id r1] db2] eqn:Hrec.
      apply recordRefund_effects in Hrec as (_ & _ & _ & _ & Hpc & _).
      intros [= _ _ <- _ <-].
      exists [CreateContact; CreateFundAccount contact]. left. exists fund.
      split; [| reflexivity].
      rewrite Hpc, Hcalls. apply skipn_length_app.
    + pose proof (requestPayout_effects env (refundAmount (refund rr)) db)
        as (_ & _ & _ & _ & _ & _ & _ & pcalls & Hpc & _).
      rewrite Hpayout in Hpc. cbn [snd] in Hpc.
      intros Hrun. apply sourceRefund_succeeded in Hrun as (-> & pid & Hcalls).
      exists ((CreateContact :: pcalls) ++ [FetchPayment pid]).
      right. exists pid. split; [| reflexivity].
      rewrite Hcalls, Hpc, <- !app_assoc. rewrite skipn_length_app.
      cbn [app]. rewrite <- ?app_assoc. reflexivity.
  - intros Hrun. apply sourceRefund_succeeded in Hrun as (-> & pid & Hcalls).
    exists [FetchPayment pid]. right. exists pid. split; [| reflexivity].
    rewrite Hcalls. apply skipn_length_app.
Qed.

(** On the bank path the payout is requested once a contact and a fund
    account exist. *)
Lemma processRefundPayment_payout_requested (env : Env) (rr : Return)
    (method : string) (db : Db) (order : O.Order) (payment : Payment)
    (contact fund : string) :
  O.findOrderById (orders db) (orderId rr) = Some order ->
  paymentOf db order = Some payment ->
  useBankPayout (userResponse env) method payment = true ->
  contactResp env = Some contact -> fundResp env = Some fund ->
  In (CreatePayout fund (toPaise (refundAmount (refund rr))))
    (newCalls db (snd (processRefundPayment env rr method db))).
Proof.
  intros Horder Hpayment Hbank Hcontact Hfund.
  pose proof (processRefundPayment_effects env rr method db) as Heff.
  rewrite (processRefundPayment_paths env rr method db order payment
             Horder Hpayment) in *.
  rewrite Hbank in *.
  destruct (requestPayout_calls env (refundAmount (refund rr)) db contact fund
              Hcontact Hfund) as [Hrun Hcalls].
  rewrite Hrun in *. clear Heff.
  assert (Hlog :
    providerCalls
      (logCall (CreatePayout fund (toPaise (refundAmount (refund rr))))
         (logCall (CreateFundAccount contact) (logCall CreateContact db)))
    = providerCalls db ++
      [CreateContact; CreateFundAccount contact;
       CreatePayout fund (toPaise (refundAmount (refund rr)))]).
  { cbn [logCall providerCalls]. rewrite <- !app_assoc. reflexivity. }
  unfold newCalls.
  destruct (payoutResp env) as [payout |].
  - destruct (recordRefund _ rr _) as [[id r1] db2] eqn:Hrec.
    apply recordRefund_effects in Hrec as (_ & _ & _ & _ & Hpc & _).
    cbn [snd]. rewrite Hpc, Hlog, skipn_length_app.
    right. right. left. reflexivity.
  - match goal with
    | |- context [sourceRefund env rr order payment ?d] =>
        destruct (sourceRefund env rr order payment d) as [[res r0] db1] eqn:Hsrc
    end.
    apply sourceRefund_effects in Hsrc as (_ & _ & calls & Hc & _).
    cbn [snd]. rewrite Hc, Hlog, <- app_assoc, skipn_length_app.
    right. right. left. reflexivity.
Qed.

(** On the source path, taken at once or after a payout step failed, the
    refund is requested once the payment has a provider id and enough
    refundable balance. *)
Lemma processRefundPayment_refund_requested (env : Env) (rr : Return)
    (method : string) (db : Db) (order : O.Order) (payment : Payment)
    (pid : string) (details : PaymentDetails) :
  O.findOrderById (orders db) (orderId rr) = Some order ->
  paymentOf db order = Some payment ->
  useBankPayout (userResponse env) method payment = false \/
  payoutStepFails env ->
  truthy (p_payment_id payment) = Some pid ->
  paymentDetailsResponse env = Some details ->
  toPaise (refundAmount (refund rr))
  <= JS.orDefault (pd_amount details) 0
     - JS.orDefault (pd_amount_refunded details) 0 ->
  In (CreateRefund pid (toPaise (refundAmount (refund rr))))
    (newCalls db (snd (processRefundPayment env rr method db))).
Proof.
  intros Horder Hpayment Hpath Hpid Hdetails Hbalance.
  rewrite (processRefundPayment_paths env rr method db order payment
             Horder Hpayment).
  unfold newCalls.
  assert (Hsource : forall d,
    (exists calls, providerCalls d = providerCalls db ++ calls) ->
    In (CreateRefund pid (toPaise (refundAmount (refund rr))))
      (skipn (List.length (providerCalls db))
         (providerCalls (snd (sourceRefund env rr order payment d))))).
  { intros d (calls & Hd).
    rewrite (sourceRefund_requested env rr order payment d pid details
               Hpid Hdetails Hbalance).
    rewrite Hd, <- app_assoc, skipn_length_app.
    apply in_or_app. right. right. left. reflexivity. }
  destruct (useBankPayout (userResponse env) method payment) eqn:Hbank.
  - destruct Hpath as [Hno | Hfails]; [discriminate |].
    pose proof (requestPayout_effects env (refundAmount (refund rr)) db)
      as (_ & _ & _ & _ & _ & _ & Hnone & pcalls & Hpc & _).
    apply Hnone in Hfails.
    destruct (requestPayout env (refundAmount (refund rr)) db)
      as [[payout |] dbp]; [discriminate |].
    cbn [snd] in Hpc. apply Hsource. eexists. exact Hpc.
  - apply Hsource. exists []. symmetry. apply app_nil_r.
Qed.

End RefundCallFacts.

(** C10.  The refund amount of a return request is set at creation to
    the selling price of the order SKU times the returned quantity, and is
    stored so.  No later request (a transition, a validation, a note, the
    creation of another return request) changes the amount stored for a
    return request.  Of the refund processor: every request for an amount
    that a run sends to the payment gateway is for
    [Math.round(refundAmount * 100)] paise; a run that succeeds ended with
    such a request, the payout on the bank path and the refund of the
    payment on the source path; on the bank path the payout is requested as
    soon as the contact and the fund account exist; and on the source path,
    taken at once or after a failed payout step, the refund is requested as
    soon as the payment has a provider id and enough refundable balance. *)
Theorem C10_refund_amount :
  (forall env req db rr message db1,
     ReturnController.Exports.createReturnRequest env req db
     = (ReturnController.SendSuccess rr message, db1) ->
     (exists order item,
        OrderModel.findOrderById (ReturnModel.orders db) (ReturnModel.orderId rr)
        = Some order /\
        OrderModel.findSku order (ReturnModel.sku rr) = Some item /\
        ReturnModel.refundAmount (ReturnModel.refund rr)
        = (OrderModel.selling_price item * inject_Z (ReturnModel.quantity rr))%Q) /\
     (ReturnModel.findById (ReturnModel.returns db) (ReturnModel.nextId db) = None ->
      ReturnSpec.storedRefundAmount db1 (ReturnModel._id rr)
      = Some (ReturnModel.refundAmount (ReturnModel.refund rr)))) /\
  (forall env rq db returnId amount,
     ReturnSpec.storedRefundAmount db returnId = Some amount ->
     ReturnSpec.storedRefundAmount (snd (ReturnSpec.handle env rq db)) returnId
     = Some amount) /\
  (forall env rr method db,
     ReturnSpec.amountsAre
       (JS.round (ReturnModel.refundAmount (ReturnModel.refund rr) * 100)%Q)
       (ReturnSpec.newCalls db
          (snd (ReturnController.Helpers.processRefundPayment env rr method db)))) /\
  (forall env rr method db txn rid ty r0 db1,
     ReturnController.Helpers.processRefundPayment env rr method db
     = (ReturnController.RefundSucceeded txn rid ty, r0, db1) ->
     let paise :=
       JS.round (ReturnModel.refundAmount (ReturnModel.refund rr) * 100)%Q in
     exists earlier,
       (exists fund,
          ReturnSpec.newCalls db db1
          = earlier ++ [ReturnModel.CreatePayout fund paise] /\
          ty = "Bank_Payout") \/
       (exists pid,
          ReturnSpec.newCalls db db1
          = earlier ++ [ReturnModel.CreateRefund pid paise] /\
          ty = "Source_Refund")) /\
  (forall env rr method db order payment contact fund,
     OrderModel.findOrderById (ReturnModel.orders db) (ReturnModel.orderId rr)
     = Some order ->
     ReturnSpec.paymentOf db order = Some payment ->
     ReturnController.Helpers.useBankPayout
       (ReturnController.userResponse env) method payment = true ->
     ReturnController.contactResp env = Some contact ->
     ReturnController.fundResp env = Some fund ->
     In (ReturnModel.CreatePayout fund
           (JS.round (ReturnModel.refundAmount (ReturnModel.refund rr) * 100)%Q))
        (ReturnSpec.newCalls db
           (snd (ReturnController.Helpers.processRefundPayment env rr method db)))) /\
  (forall env rr method db order payment pid details,
     OrderModel.findOrderById (ReturnModel.orders db) (ReturnModel.orderId rr)
     = Some order ->
     ReturnSpec.paymentOf db order = Some payment ->
     ReturnController.Helpers.useBankPayout
       (ReturnController.userResponse env) method payment = false \/
     ReturnSpec.payoutStepFails env ->
     ReturnController.truthy (ReturnModel.p_payment_id payment) = Some pid ->
     ReturnController.paymentDetailsResponse env = Some details ->
     JS.round (ReturnModel.refundAmount (ReturnModel.refund rr) * 100)%Q
     <= JS.orDefault (ReturnController.pd_amount details) 0
        - JS.orDefault (ReturnController.pd_amount_refunded details) 0 ->
     In (ReturnModel.CreateRefund pid
           (JS.round (ReturnModel.refundAmount (ReturnModel.refund rr) * 100)%Q))
        (ReturnSpec.newCalls db
           (snd (ReturnController.Helpers.processRefundPayment env rr method db)))).
Proof.
  split; [| split; [| split; [| split; [| split]]]].
  - intros env req db rr message db1 H.
    apply createReturnRequest_success in H
      as (order & item & db3 & Horder & Hitem & _ & _ & Hid & Hamount & Hdb1 & Happ).
    split; [exists order, item; repeat split; assumption |].
    intros Hfresh.
    assert (Hstored3 :
      option_map (fun r => ReturnModel.refundAmount (ReturnModel.refund r))
        (ReturnModel.findById (ReturnModel.returns db3) (ReturnModel._id rr))
      = Some (ReturnModel.refundAmount (ReturnModel.refund rr))).
    { rewrite Happ, findById_app, Hid, Hfresh, <- Hid, Nat.eqb_refl.
      reflexivity. }
    unfold ReturnSpec.storedRefundAmount.
    destruct Hdb1 as [-> | Hpick]; [exact Hstored3 |].
    apply (schedulePickup_keeps _ _ _ _ Hpick). exact Hstored3.
  - intros env rq db returnId amount H.
    apply (handle_keeps env rq db). exact H.
  - intros env rr method db.
    destruct (ReturnController.Helpers.processRefundPayment env rr method db)
      as [[res r0] db1] eqn:Hrun.
    apply processRefundPayment_effects in Hrun as (_ & calls & Hcalls & Hamounts).
    unfold ReturnSpec.newCalls. cbn [snd].
    rewrite Hcalls, skipn_length_app. exact Hamounts.
  - intros env rr method db txn rid ty r0 db1 Hrun paise.
    exact (processRefundPayment_succeeded env rr method db txn rid ty r0 db1
             Hrun).
  - intros env rr method db order payment contact fund.
    apply processRefundPayment_payout_requested.
  - intros env rr method db order payment pid details.
    apply processRefundPayment_refund_requested.
Qed.

Lemma C10_refund_amount_witness :
  (exists rr message db1,
     ReturnController.Exports.createReturnRequest ReturnSamples.payoutDown
       (ReturnSamples.createRequest 2) ReturnSamples.freshDb
     = (ReturnController.SendSuccess rr message, db1) /\
     ReturnModel.refundAmount (ReturnModel.refund rr) = ((1999 # 100) * 2)%Q /\
     ReturnSpec.storedRefundAmount db1 (ReturnModel._id rr)
     = Some ((1999 # 100) * 2)%Q) /\
  ReturnSpec.storedRefundAmount
    (snd (ReturnSpec.handle ReturnSamples.payoutDownSourceUp
            (ReturnSpec.Transition
               (ReturnSpec.ProcessRefund ReturnSamples.bankRefund) 0)
            ReturnSamples.db)) 0
  = Some (3998 # 100)%Q /\
  (exists earlier,
     ReturnSpec.newCalls ReturnSamples.db
       (snd (ReturnController.Helpers.processRefundPayment
               ReturnSamples.payoutDownSourceUp ReturnSamples.approved
               "Bank_Account" ReturnSamples.db))
     = earlier ++ [ReturnModel.CreateRefund "pay_123" 3998]) /\
  In (ReturnModel.CreatePayout "fa_1" 3998)
     (ReturnSpec.newCalls ReturnSamples.db
        (snd (ReturnController.Helpers.processRefundPayment
                ReturnSamples.payoutDownSourceUp ReturnSamples.approved
                "Bank_Account" ReturnSamples.db))) /\
  In (ReturnModel.CreateRefund "pay_123" 3998)
     (ReturnSpec.newCalls ReturnSamples.db
        (snd (ReturnController.Helpers.processRefundPayment
                ReturnSamples.payoutDownSourceUp ReturnSamples.approved
                "Original_Payment_Method" ReturnSamples.db))).
Proof.
  destruct C10_refund_amount
    as (Hcreate & Hkept & _ & Hsucceeded & Hpayout & Hrefund).
  split; [| split; [| split; [| split]]].
  - destruct (Hcreate ReturnSamples.payoutDown (ReturnSamples.createRequest 2)
                ReturnSamples.freshDb _ _ _ eq_refl)
      as ((order & item & Horder & Hitem & Hamount) & Hstored).
    eexists _, _, _. split; [reflexivity |].
    split; [reflexivity |].
    exact (Hstored eq_refl).
  - apply (Hkept ReturnSamples.payoutDownSourceUp
             (ReturnSpec.Transition
                (ReturnSpec.ProcessRefund ReturnSamples.bankRefund) 0%nat)
             ReturnSamples.db 0%nat (3998 # 100)%Q).
    reflexivity.
  - destruct (Hsucceeded ReturnSamples.payoutDownSourceUp
                ReturnSamples.approved "Bank_Account" ReturnSamples.db
                _ _ _ _ _ eq_refl)
      as (earlier & [(fund & _ & Hty) | (pid & Hcalls & _)]);
      [discriminate Hty |].
    exists earlier.
    assert (Hpid : pid = "pay_123").
    { apply (f_equal (@rev _)) in Hcalls. rewrite rev_app_distr in Hcalls.
      vm_compute in Hcalls. injection Hcalls as Hpid _. symmetry. exact Hpid. }
    subst pid. exact Hcalls.
  - apply (Hpayout ReturnSamples.payoutDownSourceUp ReturnSamples.approved
             "Bank_Account" ReturnSamples.db ReturnSamples.order
             ReturnSamples.payment "cont_1" "fa_1");
      reflexivity.
  - apply (Hrefund ReturnSamples.payoutDownSourceUp ReturnSamples.approved
             "Original_Payment_Method" ReturnSamples.db ReturnSamples.order
             ReturnSamples.payment "pay_123"
             {| ReturnController.pd_amount := Some 5000;
                ReturnController.pd_amount_refunded := None |});
      try reflexivity.
    + left. reflexivity.
    + vm_compute. discriminate.
Defined.

(** * Further properties *)

(** ** The SLA calculator, continued *)

Section CalculatorMore.
Import JSDate SlaUtils.

Variable tz : Z.

Lemma adjust_cases (t : Date) (w : DispatchHours) :
  0 <= start w <= end_ w -> start w < 24 ->
  let u := adjustForDispatchHours tz t w in
  t <= u /\ start w <= getHours tz u <= end_ w /\
  (u = t \/ withinHour tz u = 0).
Proof.
  intros Hw Hs u.
  pose proof (getHours_range tz t) as Hr.
  destruct (Z.lt_ge_cases (getHours tz t) (start w)) as [Hlt | Hge].
  - unfold u. rewrite adjust_before by exact Hlt.
    destruct (clamp_same_day tz t (start w) Hlt Hs) as (Hlater & _ & Hhour).
    destruct (at_hour_of_day tz t (start w) ltac:(lia)) as (_ & _ & Hzero).
    cbv zeta in Hlater, Hhour, Hzero. rewrite Hhour.
    split; [lia | split; [lia | right; exact Hzero]].
  - destruct (Z.lt_ge_cases (end_ w) (getHours tz t)) as [Hafter | Hin].
    + unfold u. rewrite adjust_after by lia.
      destruct (roll_next_day tz t (start w) ltac:(lia)) as (Hlater & _ & Hhour).
      destruct (at_hour_of_day tz (addDays t 1) (start w) ltac:(lia))
        as (_ & _ & Hzero).
      cbv zeta in Hlater, Hhour, Hzero.
      rewrite dayStart_addDays in Hzero.
      replace (dayStart tz t + 1 * msPerDay + start w * msPerHour)
        with (dayStart tz t + msPerDay + start w * msPerHour) in Hzero by lia.
      rewrite Hhour. split; [lia | split; [lia | right; exact Hzero]].
    + unfold u. rewrite adjust_inside by lia.
      split; [lia | split; [lia | left; reflexivity]].
Qed.

End CalculatorMore.

(** X1.  With a dispatch window [start, end], [0 <= start <= end], [start <
    24], the expected fulfillment time is never before the order date plus the
    expected hours, its hour of day lies between [start] and [end], and
    adjusting it for the dispatch hours once more changes nothing. *)
Theorem expected_time_within_dispatch_hours (tz : Z) (orderDate : JSDate.Date)
    (d : SlaUtils.DealerSLA) (ty : SlaUtils.SLAType)
    (w : SlaUtils.DispatchHours) :
  SlaUtils.sla_type d = Some ty ->
  SlaUtils.dispatch_hours d = Some w ->
  0 <= SlaUtils.start w <= SlaUtils.end_ w -> SlaUtils.start w < 24 ->
  exists expected,
    SlaUtils.calculateExpectedFulfillmentTime tz orderDate (Some d)
    = Some expected /\
    orderDate + SlaUtils.expected_hours ty * JSDate.msPerHour <= expected /\
    SlaUtils.start w <= JSDate.getHours tz expected <= SlaUtils.end_ w /\
    SlaUtils.adjustForDispatchHours tz expected w = expected.
Proof.
  intros Hty Hw Hrange Hstart.
  unfold SlaUtils.calculateExpectedFulfillmentTime. rewrite Hty, Hw. cbv zeta.
  rewrite addExpectedHours_eq.
  eexists. split; [reflexivity |].
  destruct (adjust_cases tz
              (orderDate + SlaUtils.expected_hours ty * JSDate.msPerHour)
              w Hrange Hstart) as (Hle & Hhour & _).
  cbv zeta in Hle, Hhour.
  split; [exact Hle |]. split; [exact Hhour |].
  apply adjust_inside. exact Hhour.
Qed.

Lemma expected_time_within_dispatch_hours_witness :
  exists expected,
    SlaUtils.calculateExpectedFulfillmentTime Samples.tz Samples.orderedAt
      (Some Samples.sla) = Some expected /\
    9 <= JSDate.getHours Samples.tz expected <= 18.
Proof.
  destruct (expected_time_within_dispatch_hours Samples.tz Samples.orderedAt
              Samples.sla {| SlaUtils.expected_hours := 4 |}
              {| SlaUtils.start := 9; SlaUtils.end_ := 18 |}
              eq_refl eq_refl ltac:(cbn; lia) ltac:(cbn; lia))
    as (expected & Hcalc & _ & Hhour & _).
  exists expected. split; [exact Hcalc | exact Hhour].
Defined.

(** ** The SKU-level check, continued *)

(** X2.  A SKU is reported as violated exactly when the order has dealer
    mappings, the SKU is in the order, a dealer is found for it (the SKU-level
    one, else the order-level one; an empty id counts as none), the first SLA
    document of that dealer is active and has a type, and the SKU was packed
    thirty seconds or more after the expected time (the minutes are rounded
    to the nearest). *)
Theorem sku_violation_characterised (tz : Z)
    (dealerSlas : list SlaUtils.DealerSLA) (now : JSDate.Date)
    (order : OrderModel.Order) (name : string) (packed : JSDate.Date) :
  SlaViolationUtils.hasViolation
    (SlaViolationUtils.checkSKUSLAViolation tz dealerSlas now order name packed)
  = true
  <-> exists skuItem dealer dealerSLA expected,
        OrderModel.dealerMapping order <> [] /\
        OrderModel.findSku order name = Some skuItem /\
        SlaSpec.dealerOf order skuItem name = Some dealer /\
        dealer <> "" /\
        SlaViolationUtils.findDealerSLA dealerSlas dealer = Some dealerSLA /\
        SlaUtils.is_active dealerSLA = true /\
        SlaUtils.calculateExpectedFulfillmentTime tz
          (SlaSpec.orderDateOf order now) (Some dealerSLA) = Some expected /\
        30000 <= packed - expected.
Proof.
  split.
  - unfold SlaViolationUtils.checkSKUSLAViolation.
    destruct (OrderModel.dealerMapping order) as [| dm dms] eqn:Hmap;
      [discriminate |].
    destruct (OrderModel.findSku order name) as [skuItem |] eqn:Hsku;
      [| discriminate].
    destruct (SlaViolationUtils.resolveDealer order skuItem name)
      as [dealer |] eqn:Hdealer; [| discriminate].
    destruct (SlaViolationUtils.findDealerSLA dealerSlas dealer)
      as [dealerSLA |] eqn:Hsla; [| discriminate].
    destruct (SlaUtils.is_active dealerSLA) eqn:Hactive; [| discriminate].
    cbn [negb].
    destruct (SlaUtils.calculateExpectedFulfillmentTime _ _ _)
      as [expected |] eqn:Hexp; [| discriminate].
    cbv zeta.
    destruct (Z.gtb_spec (SlaViolationUtils.violationMinutesOf packed expected) 0)
      as [Hpos | _]; [| discriminate].
    intros _. exists skuItem, dealer, dealerSLA, expected.
    split; [discriminate |]. split; [reflexivity |].
    split; [rewrite <- (dealerOf_resolved order skuItem name); exact Hdealer |].
    split; [apply (resolved_dealer_nonempty order skuItem name); exact Hdealer |].
    split; [exact Hsla |]. split; [exact Hactive |].
    split; [exact Hexp |].
    apply minutes_positive_iff. lia.
  - intros (skuItem & dealer & dealerSLA & expected
            & Hmap & Hsku & Hdealer & _ & Hsla & Hactive & Hexp & Hlate).
    rewrite <- (dealerOf_resolved order skuItem name) in Hdealer.
    rewrite (checkSKUSLAViolation_reached tz dealerSlas now order name packed
               skuItem dealer dealerSLA expected) by assumption.
    apply minutes_positive_iff in Hlate.
    destruct (Z.gtb_spec (SlaViolationUtils.violationMinutesOf packed expected) 0);
      [reflexivity | lia].
Qed.

(** X3.  Edges of the SKU check.  An order without order-level dealer mapping
    is never violated, whatever the SKU-level mapping says; neither is a SKU
    that is not in the order; neither is a SKU for which no dealer is found,
    the ids being missing or empty; neither is a SKU whose dealer's first SLA
    document is inactive, also when an active one follows; neither is a SKU
    packed less than thirty seconds late. *)
Theorem sku_violation_edges (tz : Z) (dealerSlas : list SlaUtils.DealerSLA)
    (now : JSDate.Date) (order : OrderModel.Order) (name : string)
    (packed : JSDate.Date) :
  let result :=
    SlaViolationUtils.checkSKUSLAViolation tz dealerSlas now order name packed in
  (OrderModel.dealerMapping order = [] ->
   result = SlaViolationUtils.NoViolation) /\
  (OrderModel.findSku order name = None ->
   result = SlaViolationUtils.NoViolation) /\
  (forall skuItem,
     OrderModel.findSku order name = Some skuItem ->
     SlaSpec.dealerOf order skuItem name = None ->
     result = SlaViolationUtils.NoViolation) /\
  (forall skuItem dealer dealerSLA,
     OrderModel.findSku order name = Some skuItem ->
     SlaSpec.dealerOf order skuItem name = Some dealer ->
     SlaViolationUtils.findDealerSLA dealerSlas dealer = Some dealerSLA ->
     SlaUtils.is_active dealerSLA = false ->
     result = SlaViolationUtils.NoViolation) /\
  (forall skuItem dealer dealerSLA expected,
     OrderModel.findSku order name = Some skuItem ->
     SlaSpec.dealerOf order skuItem name = Some dealer ->
     SlaViolationUtils.findDealerSLA dealerSlas dealer = Some dealerSLA ->
     SlaUtils.calculateExpectedFulfillmentTime tz
       (SlaSpec.orderDateOf order now) (Some dealerSLA) = Some expected ->
     packed - expected < 30000 ->
     result = SlaViolationUtils.NoViolation).
Proof.
  intros result. unfold result, SlaViolationUtils.checkSKUSLAViolation.
  split; [intros ->; reflexivity |].
  split; [intros ->; destruct (OrderModel.dealerMapping order); reflexivity |].
  split; [| split].
  - intros skuItem -> Hnone.
    rewrite <- (dealerOf_resolved order skuItem name) in Hnone.
    rewrite Hnone. destruct (OrderModel.dealerMapping order); reflexivity.
  - intros skuItem dealer dealerSLA -> Hdealer Hsla Hactive.
    rewrite <- (dealerOf_resolved order skuItem name) in Hdealer.
    rewrite Hdealer, Hsla, Hactive.
    destruct (OrderModel.dealerMapping order); reflexivity.
  - intros skuItem dealer dealerSLA expected -> Hdealer Hsla Hexp Hearly.
    rewrite <- (dealerOf_resolved order skuItem name) in Hdealer.
    rewrite Hdealer, Hsla.
    unfold SlaSpec.orderDateOf in Hexp. rewrite Hexp. cbv zeta.
    destruct (OrderModel.dealerMapping order); [reflexivity |].
    destruct (negb (SlaUtils.is_active dealerSLA)); [reflexivity |].
    destruct (Z.gtb_spec (SlaViolationUtils.violationMinutesOf packed expected) 0)
      as [Hpos | _]; [| reflexivity].
    apply minutes_positive_iff in Hpos. lia.
Qed.

Lemma sku_violation_edges_witness :
  SlaViolationUtils.checkSKUSLAViolation Samples.tz [Samples.sla]
    Samples.sweepTime Samples.partialOrder "SKU-A"
    (Samples.expectedAt + 29999)
  = SlaViolationUtils.NoViolation.
Proof.
  apply (proj2 (proj2 (proj2 (proj2
           (sku_violation_edges Samples.tz [Samples.sla] Samples.sweepTime
              Samples.partialOrder "SKU-A" (Samples.expectedAt + 29999)))))
           Samples.lateA "dealer-1" Samples.sla Samples.expectedAt
           eq_refl eq_refl eq_refl eq_refl).
  vm_compute. reflexivity.
Defined.

(** ** The whole-order check, continued *)

Section PackingCheckMore.
Import JSDate SlaUtils OrderModel SlaViolationUtils SlaMiddleware SlaSpec.

Variable tz : Z.
Variable dealerSlas : list DealerSLA.

Lemma fold_left_ext_in {A B : Type} (f g : A -> B -> A) (l : list B) :
  (forall a x, In x l -> f a x = g a x) ->
  forall a, fold_left f l a = fold_left g l a.
Proof.
  induction l as [| x l IH]; intros H a; [reflexivity |].
  cbn [fold_left]. rewrite (H a x) by (left; reflexivity).
  apply IH. intros a' y Hy. apply H. right. exact Hy.
Qed.

Lemma isPacked_timestamp (s : SkuItem) :
  isPacked s = true -> exists t, skuPackedAt s = Some t.
Proof.
  unfold isPacked. intros H. apply andb_prop in H as [_ H].
  destruct (skuPackedAt s) as [t |]; [exists t; reflexivity | discriminate].
Qed.

(** A dated order is checked without reading the clock. *)
Lemma checkSKUSLAViolation_dated (now now' : Date) (order : Order)
    (name : string) (packed : Date) :
  JS.orElse (orderDate order) (createdAt order) <> None ->
  checkSKUSLAViolation tz dealerSlas now order name packed
  = checkSKUSLAViolation tz dealerSlas now' order name packed.
Proof.
  intros Hdated. unfold checkSKUSLAViolation.
  destruct (JS.orElse (orderDate order) (createdAt order)); [| congruence].
  reflexivity.
Qed.

Lemma loop_ignores_packedAt (now : Date) (order : Order)
    (packedArg : option Date) (st : LoopState) :
  fold_left (loopBody tz dealerSlas now order packedArg)
    (filter isPacked (skus order)) st
  = fold_left (loopBody tz dealerSlas now order None)
      (filter isPacked (skus order)) st.
Proof.
  apply fold_left_ext_in. intros a s Hs.
  apply filter_In in Hs as [_ Hs].
  apply isPacked_timestamp in Hs as [t Ht].
  unfold loopBody, checkPackedSku. rewrite Ht. reflexivity.
Qed.

Lemma loop_ignores_clock (now now' : Date) (order : Order) (st : LoopState) :
  JS.orElse (orderDate order) (createdAt order) <> None ->
  fold_left (loopBody tz dealerSlas now order None)
    (filter isPacked (skus order)) st
  = fold_left (loopBody tz dealerSlas now' order None)
      (filter isPacked (skus order)) st.
Proof.
  intros Hdated. apply fold_left_ext_in. intros a s Hs.
  apply filter_In in Hs as [_ Hs].
  apply isPacked_timestamp in Hs as [t Ht].
  unfold loopBody, checkPackedSku. rewrite Ht. cbn [JS.orElse JS.orDefault].
  rewrite (checkSKUSLAViolation_dated now now' order (sku s) t Hdated).
  reflexivity.
Qed.

Lemma entries_names_of_violated (c : SkuItem -> SkuCheck)
    (packed : list SkuItem) :
  map sv_sku (flat_map (entriesOf c) packed)
  = map sku (filter (fun s => hasViolation (c s)) packed).
Proof.
  induction packed as [| s packed IH]; [reflexivity |].
  cbn [flat_map filter]. rewrite map_app, IH. unfold entriesOf.
  destruct (c s); reflexivity.
Qed.

End PackingCheckMore.

(** X4.  The order-level outcome of the whole-order check is true exactly when
    the order has a packed SKU and every packed SKU is violated; the flag
    [allSkusViolated] says the same; and the SKU-level entries are those of
    the violated packed SKUs, in the order of the items. *)
Theorem order_level_outcome_iff (tz : Z) (dealerSlas : list SlaUtils.DealerSLA)
    (now : JSDate.Date) (order : OrderModel.Order) :
  let c :=
    SlaViolationUtils.checkSLAViolationOnPacking tz dealerSlas now order
      None None in
  (SlaViolationUtils.pc_hasViolation c = true
   <-> SlaSpec.packedSkus order <> [] /\
       forall s, In s (SlaSpec.packedSkus order) ->
                 SlaSpec.skuViolated tz dealerSlas now order s = true) /\
  (SlaViolationUtils.pc_hasViolation c = true
   <-> SlaViolationUtils.allSkusViolated c = Some true) /\
  map SlaViolationUtils.sv_sku (SlaViolationUtils.skuViolations c)
  = map OrderModel.sku
      (filter (SlaSpec.skuViolated tz dealerSlas now order)
         (SlaSpec.packedSkus order)).
Proof.
  intros c. unfold c.
  split; [| split].
  - rewrite packing_check_hasViolation, andb_true_iff, forallb_forall,
      negb_true_iff, Nat.eqb_neq.
    split; intros [Hne Hall]; (split; [| exact Hall]).
    + intros E. rewrite E in Hne. apply Hne. reflexivity.
    + destruct (SlaSpec.packedSkus order); [congruence | discriminate].
  - destruct (SlaSpec.packedSkus order) as [| p ps] eqn:Hp.
    + unfold SlaViolationUtils.checkSLAViolationOnPacking.
      fold (SlaSpec.packedSkus order). rewrite Hp.
      destruct (OrderModel.skus order); cbn; split; discriminate.
    + rewrite packing_check_nonempty by congruence. rewrite Hp. cbv zeta.
      destruct (forallb _ (p :: ps)); cbn; split; congruence.
  - rewrite packing_check_entries. apply entries_names_of_violated.
Qed.

(** X5.  The whole-order check never uses its [packedAt] argument, and on an
    order that has an order date or a creation date it does not depend on the
    time of the check either. *)
Theorem whole_order_check_ignores_packedAt_and_clock (tz : Z)
    (dealerSlas : list SlaUtils.DealerSLA) (now : JSDate.Date)
    (order : OrderModel.Order) (packedArg : option JSDate.Date) :
  SlaViolationUtils.checkSLAViolationOnPacking tz dealerSlas now order
    packedArg None
  = SlaViolationUtils.checkSLAViolationOnPacking tz dealerSlas now order
      None None /\
  (JS.orElse (OrderModel.orderDate order) (OrderModel.createdAt order) <> None ->
   forall now',
     SlaViolationUtils.checkSLAViolationOnPacking tz dealerSlas now order
       packedArg None
     = SlaViolationUtils.checkSLAViolationOnPacking tz dealerSlas now' order
         None None).
Proof.
  assert (Hfirst :
    SlaViolationUtils.checkSLAViolationOnPacking tz dealerSlas now order
      packedArg None
    = SlaViolationUtils.checkSLAViolationOnPacking tz dealerSlas now order
        None None).
  { unfold SlaViolationUtils.checkSLAViolationOnPacking.
    destruct (OrderModel.skus order) as [| s0 rest] eqn:Hskus; [reflexivity |].
    cbn [JS.chain]. rewrite <- Hskus.
    destruct (filter SlaViolationUtils.isPacked (OrderModel.skus order))
      as [| p ps] eqn:Hp; [reflexivity |].
    cbv zeta. rewrite <- Hp, loop_ignores_packedAt. reflexivity. }
  split; [exact Hfirst |].
  intros Hdated now'. rewrite Hfirst.
  unfold SlaViolationUtils.checkSLAViolationOnPacking.
  destruct (OrderModel.skus order) as [| s0 rest] eqn:Hskus; [reflexivity |].
  cbn [JS.chain]. rewrite <- Hskus.
  destruct (filter SlaViolationUtils.isPacked (OrderModel.skus order))
    as [| p ps] eqn:Hp; [reflexivity |].
  cbv zeta. rewrite <- Hp, (loop_ignores_clock tz dealerSlas now now') by exact Hdated.
  reflexivity.
Qed.

(** X6.  The check of a single SKU. For a SKU of the order with a packing
    timestamp the result is that of the SKU's own check at that timestamp,
    whatever [packedAt] argument is given, with one entry when it is violated;
    a SKU that is not in the order gives the empty result. *)
Theorem single_sku_check (tz : Z) (dealerSlas : list SlaUtils.DealerSLA)
    (now : JSDate.Date) (order : OrderModel.Order)
    (packedArg : option JSDate.Date) (name : string) :
  name <> "" ->
  let c :=
    SlaViolationUtils.checkSLAViolationOnPacking tz dealerSlas now order
      packedArg (Some name) in
  (OrderModel.findSku order name = None ->
   c = SlaViolationUtils.emptyPackingCheck) /\
  (forall item t,
     OrderModel.findSku order name = Some item ->
     OrderModel.skuPackedAt item = Some t ->
     let own :=
       SlaViolationUtils.checkSKUSLAViolation tz dealerSlas now order name t in
     SlaViolationUtils.pc_hasViolation c = SlaViolationUtils.hasViolation own /\
     SlaViolationUtils.pc_violation c = SlaViolationUtils.violation own /\
     SlaViolationUtils.allSkusViolated c
     = Some (SlaViolationUtils.hasViolation own) /\
     SlaViolationUtils.skuViolations c
     = SlaSpec.entriesOf
         (SlaViolationUtils.checkPackedSku tz dealerSlas now order None) item).
Proof.
  intros Hname c. unfold c, SlaViolationUtils.checkSLAViolationOnPacking.
  cbn [JS.chain]. unfold JS.truthyString.
  apply String.eqb_neq in Hname. rewrite Hname.
  split.
  - intros ->. destruct (OrderModel.skus order); reflexivity.
  - intros item t Hitem Ht. rewrite Hitem.
    assert (Hsku : OrderModel.sku item = name).
    { unfold OrderModel.findSku in Hitem. apply find_some in Hitem as [_ H].
      apply String.eqb_eq. exact H. }
    destruct (OrderModel.skus order) as [| s0 rest] eqn:Hskus.
    { unfold OrderModel.findSku in Hitem. rewrite Hskus in Hitem. discriminate. }
    rewrite Ht. cbn [JS.orElse JS.orDefault].
    cbn [SlaViolationUtils.pc_hasViolation SlaViolationUtils.pc_violation
         SlaViolationUtils.allSkusViolated SlaViolationUtils.skuViolations].
    split; [reflexivity |]. split; [reflexivity |]. split; [reflexivity |].
    unfold SlaSpec.entriesOf, SlaViolationUtils.checkPackedSku.
    rewrite Ht, Hsku. cbn [JS.orElse JS.orDefault].
    destruct (SlaViolationUtils.checkSKUSLAViolation tz dealerSlas now order
                name t); reflexivity.
Qed.

Lemma single_sku_check_witness :
  SlaViolationUtils.pc_hasViolation
    (SlaViolationUtils.checkSLAViolationOnPacking Samples.tz [Samples.sla]
       Samples.sweepTime Samples.partialOrder (Some 0) (Some "SKU-A"))
  = true.
Proof.
  assert (Hname : "SKU-A" <> "") by discriminate.
  rewrite (proj1 (proj2 (single_sku_check Samples.tz [Samples.sla]
                          Samples.sweepTime Samples.partialOrder (Some 0)
                          "SKU-A" Hname)
                   Samples.lateA (Samples.expectedAt + 600000)
                   eq_refl eq_refl)).
  reflexivity.
Defined.

(** X7.  The aggregate violation of a fully violated order carries the dealer,
    the times and the minutes of the last packed SKU (the reduction over the
    entries compares every entry with zero), and its note counts the packed
    SKUs. *)
Theorem aggregate_violation_is_last_sku (tz : Z)
    (dealerSlas : list SlaUtils.DealerSLA) (now : JSDate.Date)
    (order : OrderModel.Order) (earlier : list OrderModel.SkuItem)
    (final : OrderModel.SkuItem) :
  SlaSpec.packedSkus order = earlier ++ [final] ->
  (forall s, In s (SlaSpec.packedSkus order) ->
             SlaSpec.skuViolated tz dealerSlas now order s = true) ->
  exists v,
    SlaViolationUtils.checkPackedSku tz dealerSlas now order None final
    = SlaViolationUtils.Violation v /\
    SlaViolationUtils.pc_violation
      (SlaViolationUtils.checkSLAViolationOnPacking tz dealerSlas now order
         None None)
    = Some
        {| SlaViolationUtils.v_dealer_id := SlaViolationUtils.v_dealer_id v;
           SlaViolationUtils.v_order_id := OrderModel._id order;
           SlaViolationUtils.v_sku := None;
           SlaViolationUtils.expected_fulfillment_time :=
             SlaViolationUtils.expected_fulfillment_time v;
           SlaViolationUtils.actual_fulfillment_time :=
             SlaViolationUtils.actual_fulfillment_time v;
           SlaViolationUtils.violation_minutes :=
             SlaViolationUtils.violation_minutes v;
           SlaViolationUtils.notes :=
             SlaViolationUtils.OrderNote
               (List.length (SlaSpec.packedSkus order))
               (SlaViolationUtils.violation_minutes v) |}.
Proof.
  intros Hpacked Hall.
  assert (Hfinal : SlaSpec.skuViolated tz dealerSlas now order final = true).
  { apply Hall. rewrite Hpacked. apply in_or_app. right. left. reflexivity. }
  unfold SlaSpec.skuViolated in Hfinal.
  destruct (SlaViolationUtils.checkPackedSku tz dealerSlas now order None final)
    as [| v] eqn:Hcheck; [discriminate |].
  exists v. split; [reflexivity |].
  assert (Hforall :
    forallb (SlaSpec.skuViolated tz dealerSlas now order)
      (SlaSpec.packedSkus order) = true).
  { apply forallb_forall. exact Hall. }
  rewrite packing_check_nonempty
    by (rewrite Hpacked; intros E; apply app_eq_nil in E as [_ E]; discriminate).
  cbv zeta. rewrite Hforall.
  cbn [SlaViolationUtils.pc_violation].
  rewrite maxViolationOf_last
    by (eapply Forall_impl; [| apply entries_positive]; simpl; tauto).
  rewrite entries_length, (filter_all_length _ _ Hforall).
  rewrite Hpacked at 1. rewrite flat_map_app, map_app. cbn [flat_map].
  unfold SlaSpec.entriesOf at 2. rewrite Hcheck. cbn [app map].
  rewrite last_last. reflexivity.
Qed.

Lemma aggregate_violation_is_last_sku_witness :
  exists v,
    SlaViolationUtils.pc_violation
      (SlaViolationUtils.checkSLAViolationOnPacking Samples.tz [Samples.sla]
         Samples.sweepTime Samples.lateOrder None None) = Some v /\
    SlaViolationUtils.violation_minutes v = 25.
Proof.
  assert (Hall : forall s,
    In s (SlaSpec.packedSkus Samples.lateOrder) ->
    SlaSpec.skuViolated Samples.tz [Samples.sla] Samples.sweepTime
      Samples.lateOrder s = true).
  { intros s [<- | [<- | []]]; reflexivity. }
  destruct (aggregate_violation_is_last_sku Samples.tz [Samples.sla]
              Samples.sweepTime Samples.lateOrder [Samples.lateA]
              Samples.lateB eq_refl Hall) as (v & Hv & Hagg).
  eexists. split; [exact Hagg |].
  cbn [SlaViolationUtils.violation_minutes].
  assert (Hcheck :
    SlaViolationUtils.checkPackedSku Samples.tz [Samples.sla]
      Samples.sweepTime Samples.lateOrder None Samples.lateB
    = SlaViolationUtils.Violation
        {| SlaViolationUtils.v_dealer_id := "dealer-1";
           SlaViolationUtils.v_order_id := "order-1";
           SlaViolationUtils.v_sku := Some "SKU-B";
           SlaViolationUtils.expected_fulfillment_time := Samples.expectedAt;
           SlaViolationUtils.actual_fulfillment_time :=
             Samples.expectedAt + 1500000;
           SlaViolationUtils.violation_minutes := 25;
           SlaViolationUtils.notes :=
             SlaViolationUtils.SkuNote "SKU-B" Samples.expectedAt
               (Samples.expectedAt + 1500000) |})
    by reflexivity.
  rewrite Hcheck in Hv. injection Hv as <-. reflexivity.
Defined.

(** ** The sweep, continued *)

Section SweepMore.
Import JSDate SlaUtils OrderModel SlaViolationUtils SlaMiddleware SlaSpec.

Variable tz : Z.
Variable dealerSlas : list DealerSLA.
Variable now : Date.

Local Abbreviation checkOf order :=
  (checkSLAViolationOnPacking tz dealerSlas now order None None).

Lemma findOrderById_update (f : Order -> Order) (id id' : string)
    (orders : list Order) :
  (forall o, _id (f o) = _id o) ->
  findOrderById (updateOrderById f id orders) id'
  = if String.eqb id' id then option_map f (findOrderById orders id)
    else findOrderById orders id'.
Proof.
  intros Hid. unfold findOrderById.
  induction orders as [| o orders IH].
  - cbn. destruct (String.eqb id' id); reflexivity.
  - cbn [updateOrderById find].
    destruct (String.eqb_spec (_id o) id) as [E | Hne].
    + cbn [find]. rewrite Hid, E.
      destruct (String.eqb_spec id' id) as [-> | Hne'].
      * rewrite String.eqb_refl. reflexivity.
      * apply not_eq_sym in Hne'. apply String.eqb_neq in Hne'.
        rewrite Hne'. reflexivity.
    + cbn [find]. rewrite IH.
      destruct (String.eqb_spec (_id o) id') as [E' | _]; [| reflexivity].
      destruct (String.eqb_spec id' id) as [E'' | _]; [congruence | reflexivity].
Qed.

Lemma updateOrderById_idempotent (f : Order -> Order) (id : string)
    (orders : list Order) :
  (forall o, _id (f o) = _id o) -> (forall o, f (f o) = f o) ->
  updateOrderById f id (updateOrderById f id orders)
  = updateOrderById f id orders.
Proof.
  intros Hid Hf. induction orders as [| o orders IH]; [reflexivity |].
  cbn [updateOrderById].
  destruct (String.eqb_spec (_id o) id) as [E | Hne].
  - cbn [updateOrderById]. rewrite Hid, E, String.eqb_refl, Hf. reflexivity.
  - cbn [updateOrderById]. apply String.eqb_neq in Hne. rewrite Hne, IH.
    reflexivity.
Qed.

Lemma updateOrderById_missing (f : Order -> Order) (id : string)
    (orders : list Order) :
  findOrderById orders id = None -> updateOrderById f id orders = orders.
Proof.
  unfold findOrderById. induction orders as [| o orders IH]; [reflexivity |].
  cbn [find updateOrderById].
  destruct (String.eqb (_id o) id); [discriminate |].
  intros H. rewrite (IH H). reflexivity.
Qed.

(** The sweep returns whether some packed SKU is violated, whatever the
    ledger holds. *)
Lemma sweep_result (order : Order) (st : Store) :
  fst (checkOrderSLAViolation tz dealerSlas now order st)
  = existsb (skuViolated tz dealerSlas now order) (packedSkus order).
Proof.
  destruct (packedSkus order) as [| p ps] eqn:Hp.
  - unfold checkOrderSLAViolation.
    destruct (skus order) as [| s0 rest] eqn:Hskus; [reflexivity |].
    rewrite filter_isPackedActive. rewrite <- Hskus.
    fold (packedSkus order). rewrite Hp. reflexivity.
  - assert (Hany :
      (0 <? List.length (skuViolations (checkOf order)))%nat
      = existsb (skuViolated tz dealerSlas now order) (p :: ps)).
    { rewrite packing_check_entries, entries_length, Hp.
      generalize (p :: ps). intros l.
      induction l as [| x l IH]; [reflexivity |].
      cbn [filter existsb]. destruct (skuViolated tz dealerSlas now order x);
        [reflexivity | exact IH]. }
    destruct (pc_hasViolation (checkOf order)) eqn:Hhas.
    + assert (Hall : existsb (skuViolated tz dealerSlas now order) (p :: ps) = true).
      { rewrite packing_check_hasViolation, Hp in Hhas.
        apply andb_prop in Hhas as [_ Hall].
        apply (forallb_existsb_nonempty _ _ _ Hall). }
      rewrite Hall.
      unfold checkOrderSLAViolation.
      destruct (skus order) as [| s0 rest] eqn:Hskus.
      { unfold packedSkus in Hp. rewrite Hskus in Hp. discriminate. }
      rewrite filter_isPackedActive, <- Hskus. fold (packedSkus order).
      rewrite Hp. cbv zeta. rewrite Hhas, Hany, Hall.
      destruct (pc_violation (checkOf order)); [| reflexivity].
      destruct (allSkusViolated (checkOf order)) as [[|] |]; try reflexivity.
      destruct (findExistingOrderViolation _ _); reflexivity.
    + rewrite <- Hany.
      apply sweep_result_without_order_violation; [congruence | exact Hhas].
Qed.

(** The orders after the sweep: patched for the order, or untouched. *)
Lemma sweep_orders (order : Order) (st : Store) :
  orders (snd (checkOrderSLAViolation tz dealerSlas now order st)) = orders st \/
  exists v,
    pc_violation (checkOf order) = Some v /\
    pc_hasViolation (checkOf order) = true /\
    findExistingOrderViolation
      (recordNewSkuViolations order (checkOf order) (violations st))
      (_id order) = None /\
    orders (snd (checkOrderSLAViolation tz dealerSlas now order st))
    = updateOrderWithSLAViolation (_id order) v (orders st).
Proof.
  unfold checkOrderSLAViolation.
  destruct (skus order); [left; reflexivity |].
  destruct (filter isPackedActive _); [left; reflexivity |].
  cbv zeta.
  destruct (pc_hasViolation (checkOf order)) eqn:Hhas; [| left; reflexivity].
  destruct (pc_violation (checkOf order)) as [v |]; [| left; reflexivity].
  destruct (allSkusViolated (checkOf order)) as [[|] |];
    try (left; reflexivity).
  destruct (findExistingOrderViolation _ _) eqn:Hfind; [left; reflexivity |].
  right. exists v. repeat split.
Qed.

Lemma sweep_orders_eq (order : Order) (st : Store) :
  orders (snd (checkOrderSLAViolation tz dealerSlas now order st))
  = match pc_hasViolation (checkOf order), pc_violation (checkOf order),
          allSkusViolated (checkOf order) with
    | true, Some v, Some true =>
        match findExistingOrderViolation
                (recordNewSkuViolations order (checkOf order) (violations st))
                (_id order) with
        | None => updateOrderWithSLAViolation (_id order) v (orders st)
        | Some _ => orders st
        end
    | _, _, _ => orders st
    end.
Proof.
  destruct (pc_hasViolation (checkOf order)) eqn:Hhas.
  - pose proof Hhas as Hne.
    rewrite packing_check_hasViolation in Hne.
    apply andb_prop in Hne as [Hne _].
    unfold checkOrderSLAViolation.
    destruct (skus order) as [| s0 rest] eqn:Hskus.
    { unfold packedSkus in Hne. rewrite Hskus in Hne. discriminate. }
    rewrite filter_isPackedActive, <- Hskus. fold (packedSkus order).
    destruct (packedSkus order) as [| p ps]; [discriminate |].
    cbv zeta. rewrite Hhas.
    destruct (pc_violation (checkOf order)); [| reflexivity].
    destruct (allSkusViolated (checkOf order)) as [[|] |]; try reflexivity.
    destruct (findExistingOrderViolation _ _); reflexivity.
  - apply sweep_orders_unpatched. exact Hhas.
Qed.

(** The records a sweep inserts, when the names of the packed SKUs are
    not empty, give every violated SKU an unresolved record. *)
Lemma recordNew_covers (order : Order) (ledger : list SLAViolation)
    (sv : SkuViolation) :
  (forall s, In s (packedSkus order) -> sku s <> "") ->
  In sv (skuViolations (checkOf order)) ->
  unresolvedFor (_id order) (Some (sv_sku sv))
    (recordNewSkuViolations order (checkOf order) ledger) <> [].
Proof.
  intros Hnames Hsv.
  rewrite packing_check_entries in Hsv.
  pose proof Hsv as Hin.
  apply entries_names in Hin as (s & Hs & Hname & _).
  assert (Hne : sv_sku sv <> "") by (rewrite Hname; apply Hnames; exact Hs).
  intros Hnil. apply (f_equal (@List.length _)) in Hnil.
  rewrite recordNew_eq, unresolvedFor_app, length_app in Hnil.
  rewrite packing_check_entries in Hnil.
  rewrite (new_records_of_sku order
             (existingSkuSetHas
                (findExistingViolations ledger (_id order)
                   (map sv_sku
                      (flat_map
                         (entriesOf (checkPackedSku tz dealerSlas now order None))
                         (packedSkus order)))))
             _ (sv_sku sv) (entries_own tz dealerSlas now order _) Hne) in Hnil.
  rewrite existingSkuSetHas_spec in Hnil by (apply in_map; exact Hsv).
  destruct (List.length (unresolvedFor (_id order) (Some (sv_sku sv)) ledger))
    eqn:Hcount; cbn in Hnil; [| discriminate].
  assert (Hone :
    In sv (filter (fun x => String.eqb (sv_sku x) (sv_sku sv))
             (flat_map (entriesOf (checkPackedSku tz dealerSlas now order None))
                (packedSkus order)))).
  { apply filter_In. split; [exact Hsv | apply String.eqb_refl]. }
  destruct (filter _ _); [contradiction | discriminate].
Qed.

(** When every violated SKU has an unresolved record the sweep inserts
    nothing. *)
Lemma recordNew_nothing (order : Order) (ledger : list SLAViolation) :
  (forall sv, In sv (skuViolations (checkOf order)) ->
     unresolvedFor (_id order) (Some (sv_sku sv)) ledger <> []) ->
  recordNewSkuViolations order (checkOf order) ledger = ledger.
Proof.
  intros Hcovered. rewrite recordNew_eq.
  replace (filter _ (skuViolations (checkOf order))) with (@nil SkuViolation);
    [apply app_nil_r |].
  symmetry.
  assert (Hgen : forall l,
    (forall sv, In sv l -> In sv (skuViolations (checkOf order))) ->
    filter
      (fun sv =>
         negb (existingSkuSetHas
                 (findExistingViolations ledger (_id order)
                    (map sv_sku (skuViolations (checkOf order))))
                 (sv_sku sv))) l = []).
  { induction l as [| sv l IH]; intros Hsub; [reflexivity |].
    cbn [filter].
    rewrite existingSkuSetHas_spec
      by (apply in_map, Hsub; left; reflexivity).
    specialize (Hcovered sv (Hsub sv (or_introl eq_refl))).
    destruct (unresolvedFor (_id order) (Some (sv_sku sv)) ledger);
      [contradiction |].
    cbn. apply IH. intros x Hx. apply Hsub. right. exact Hx. }
  apply Hgen. intros sv H. exact H.
Qed.

Lemma unresolvedFor_grows (id : string) (slot : option string)
    (l1 l2 : list SLAViolation) :
  unresolvedFor id slot l1 <> [] -> unresolvedFor id slot (l1 ++ l2) <> [].
Proof.
  rewrite unresolvedFor_app. destruct (unresolvedFor id slot l1);
    [contradiction | discriminate].
Qed.

Lemma slaPatch_id (v : ViolationData) (o : Order) : _id (slaPatch v o) = _id o.
Proof. reflexivity. Qed.

Lemma slaPatch_idempotent (v : ViolationData) (o : Order) :
  slaPatch v (slaPatch v o) = slaPatch v o.
Proof. reflexivity. Qed.

Lemma store_eq (a b : Store) :
  violations a = violations b -> orders a = orders b -> a = b.
Proof. destruct a, b. cbn. intros -> ->. reflexivity. Qed.

Lemma no_entries_without_violated_sku (order : Order) :
  (forall s, In s (packedSkus order) ->
     skuViolated tz dealerSlas now order s = false) ->
  skuViolations (checkOf order) = [].
Proof.
  intros Hnone. apply length_zero_iff_nil.
  rewrite packing_check_entries, entries_length.
  induction (packedSkus order) as [| s l IH]; [reflexivity |].
  cbn [filter]. rewrite (Hnone s (or_introl eq_refl)).
  apply IH. intros x Hx. apply Hnone. right. exact Hx.
Qed.

Local Abbreviation ledgerStep := (SweepSpec.ledgerStep tz dealerSlas now).
Local Abbreviation covered := (SweepSpec.covered tz dealerSlas now).

Lemma covered_step (o o' : Order) (ledger : list SLAViolation) :
  covered o ledger -> covered o (ledgerStep ledger o').
Proof.
  intros H sv Hsv. unfold SweepSpec.ledgerStep. rewrite recordNew_eq.
  apply unresolvedFor_grows, H, Hsv.
Qed.

Lemma covered_fold (o : Order) (os : list Order) (ledger : list SLAViolation) :
  covered o ledger -> covered o (fold_left ledgerStep os ledger).
Proof.
  revert ledger. induction os as [| o' os IH]; intros ledger H; [exact H |].
  cbn [fold_left]. apply IH, covered_step, H.
Qed.

Lemma fold_covers (os : list Order) (ledger : list SLAViolation) :
  (forall o s, In o os -> In s (packedSkus o) -> sku s <> "") ->
  forall o, In o os -> covered o (fold_left ledgerStep os ledger).
Proof.
  revert ledger. induction os as [| o' os IH]; intros ledger Hnames o Hin;
    [contradiction |].
  cbn [fold_left]. destruct Hin as [<- | Hin].
  - apply covered_fold. intros sv Hsv. unfold SweepSpec.ledgerStep.
    apply recordNew_covers; [| exact Hsv].
    intros s Hs. apply (Hnames o' s); [left; reflexivity | exact Hs].
  - apply IH; [| exact Hin].
    intros x s Hx Hs. apply (Hnames x s); [right; exact Hx | exact Hs].
Qed.

Lemma fold_covered (os : list Order) (ledger : list SLAViolation) :
  (forall o, In o os -> covered o ledger) ->
  fold_left ledgerStep os ledger = ledger.
Proof.
  induction os as [| o os IH]; intros H; [reflexivity |].
  cbn [fold_left].
  replace (SweepSpec.ledgerStep tz dealerSlas now ledger o) with ledger
    by (symmetry; apply recordNew_nothing, H; left; reflexivity).
  apply IH. intros x Hx. apply H. right. exact Hx.
Qed.

Lemma fold_appends (os : list Order) (ledger : list SLAViolation) :
  exists new,
    fold_left ledgerStep os ledger = ledger ++ new /\
    Forall (fun r => resolved r = false /\ In (r_order_id r) (map _id os)) new.
Proof.
  revert ledger. induction os as [| o os IH]; intros ledger.
  - exists []. split; [symmetry; apply app_nil_r | constructor].
  - cbn [fold_left]. destruct (IH (ledgerStep ledger o)) as (new & -> & Hnew).
    unfold SweepSpec.ledgerStep. rewrite recordNew_eq, <- app_assoc.
    eexists. split; [reflexivity |].
    apply Forall_app. split.
    + apply Forall_forall. intros r Hr.
      apply in_map_iff in Hr as (sv & <- & Hsv).
      apply filter_In in Hsv as [Hsv _].
      rewrite packing_check_entries in Hsv.
      pose proof (entries_positive tz dealerSlas now o (packedSkus o)) as Hpos.
      rewrite Forall_forall in Hpos. destruct (Hpos sv Hsv) as (_ & Hid & _).
      split; [reflexivity |]. cbn [map]. left. cbn. symmetry. exact Hid.
    + eapply Forall_impl; [| exact Hnew].
      intros r [Hres Hin]. split; [exact Hres | right; exact Hin].
Qed.

Lemma sweepStep_fold (os : list Order) (acc : SlaSweep.SweepCounts * Store) :
  let r := fold_left (SlaSweep.sweepStep tz dealerSlas now) os acc in
  violations (snd r) = fold_left ledgerStep os (violations (snd acc)) /\
  SlaSweep.processedCount (fst r)
  = (SlaSweep.processedCount (fst acc) + List.length os)%nat /\
  SlaSweep.violationCount (fst r)
  = (SlaSweep.violationCount (fst acc)
     + List.length
         (filter
            (SweepSpec.anySkuViolated tz dealerSlas now) os))%nat.
Proof.
  cbv zeta. revert acc. induction os as [| o os IH]; intros acc.
  - cbn. repeat split; lia.
  - cbn [fold_left]. destruct (IH (SlaSweep.sweepStep tz dealerSlas now acc o))
      as (Hv & Hp & Hc).
    rewrite Hv, Hp, Hc. clear IH Hv Hp Hc.
    unfold SlaSweep.sweepStep.
    pose proof (sweep_violations tz dealerSlas now o (snd acc)) as Hled.
    pose proof (sweep_result o (snd acc)) as Hres.
    destruct (checkOrderSLAViolation tz dealerSlas now o (snd acc))
      as [has st'].
    cbn [fst snd] in *. cbn [SlaSweep.processedCount SlaSweep.violationCount].
    rewrite Hled. split; [reflexivity |]. split.
    + cbn [List.length]. lia.
    + cbn [filter]. change (SweepSpec.anySkuViolated tz dealerSlas now o)
        with (existsb (skuViolated tz dealerSlas now o) (packedSkus o)).
      rewrite <- Hres. destruct has; cbn [List.length]; lia.
Qed.

End SweepMore.

Section SweepTheorems.
Import JSDate SlaUtils OrderModel SlaViolationUtils SlaMiddleware SlaSpec.

Variable tz : Z.
Variable dealerSlas : list DealerSLA.
Variable now : Date.

Local Abbreviation checkOf order :=
  (checkSLAViolationOnPacking tz dealerSlas now order None None).
Local Abbreviation sweep := (checkOrderSLAViolation tz dealerSlas now).

(** X8.  The sweep of one order answers whether some packed SKU of it is
    violated, whatever the ledger and the order store hold: an order with one
    late SKU among several counts as a violation for the caller. *)
Theorem sweep_answer_is_any_sku_violation (order : Order) (st : Store) :
  fst (sweep order st) = SweepSpec.anySkuViolated tz dealerSlas now order.
Proof. apply sweep_result. Qed.

(** X9.  The sweep of one order only appends to the ledger: the records that
    were there stay as they are, each new one is unresolved, belongs to the
    order, carries a positive number of minutes and the name of a violated
    packed SKU; in the order store no other order changes and none is added or
    removed. *)
Theorem sweep_only_appends (order : Order) (st : Store) :
  let st' := snd (sweep order st) in
  (exists new,
     violations st' = violations st ++ new /\
     Forall
       (fun r =>
          resolved r = false /\ r_order_id r = _id order /\
          0 < r_violation_minutes r /\
          exists s, In s (packedSkus order) /\
                    skuViolated tz dealerSlas now order s = true /\
                    r_sku r = JS.truthyString (sku s))
       new) /\
  List.length (orders st') = List.length (orders st) /\
  (forall id, id <> _id order ->
     findOrderById (orders st') id = findOrderById (orders st) id).
Proof.
  cbv zeta. split; [| split].
  - rewrite sweep_violations, recordNew_eq. eexists. split; [reflexivity |].
    apply Forall_forall. intros r Hr.
    apply in_map_iff in Hr as (sv & <- & Hsv).
    apply filter_In in Hsv as [Hsv _].
    rewrite packing_check_entries in Hsv.
    pose proof (entries_positive tz dealerSlas now order (packedSkus order))
      as Hpos.
    rewrite Forall_forall in Hpos.
    destruct (Hpos sv Hsv) as (Hmin & Hid & Hsku).
    apply entries_names in Hsv as (s & Hs & Hname & Hviol).
    split; [reflexivity |]. split; [exact Hid |]. split; [exact Hmin |].
    exists s. split; [exact Hs |]. split; [exact Hviol |].
    cbn [toRecord r_sku]. rewrite Hsku, Hname. reflexivity.
  - destruct (sweep_orders tz dealerSlas now order st)
      as [-> | (v & _ & _ & _ & ->)]; [reflexivity |].
    unfold updateOrderWithSLAViolation.
    induction (orders st) as [| o l IH]; [reflexivity |].
    cbn [updateOrderById]. destruct (String.eqb (_id o) (_id order));
      cbn [List.length]; [reflexivity | rewrite IH; reflexivity].
  - intros id Hid.
    destruct (sweep_orders tz dealerSlas now order st)
      as [-> | (v & _ & _ & _ & ->)]; [reflexivity |].
    unfold updateOrderWithSLAViolation.
    rewrite findOrderById_update by apply slaPatch_id.
    apply String.eqb_neq in Hid. rewrite Hid. reflexivity.
Qed.

(** X10.  Sweeping the same order again changes nothing, when the names of its
    packed SKUs are not empty: the second run inserts no record, leaves the
    order store as the first run left it and gives the same answer. *)
Theorem sweep_again_changes_nothing (order : Order) (st : Store) :
  (forall s, In s (packedSkus order) -> sku s <> "") ->
  sweep order (snd (sweep order st)) = sweep order st.
Proof.
  intros Hnames.
  assert (Hledger :
    recordNewSkuViolations order (checkOf order)
      (recordNewSkuViolations order (checkOf order) (violations st))
    = recordNewSkuViolations order (checkOf order) (violations st)).
  { apply recordNew_nothing. intros sv Hsv.
    apply recordNew_covers; assumption. }
  rewrite (surjective_pairing (sweep order (snd (sweep order st)))).
  rewrite (surjective_pairing (sweep order st)) at 3.
  f_equal.
  - rewrite !sweep_result. reflexivity.
  - apply store_eq.
    + rewrite !sweep_violations. exact Hledger.
    + rewrite (sweep_orders_eq tz dealerSlas now order (snd (sweep order st))).
      rewrite sweep_violations, Hledger.
      rewrite (sweep_orders_eq tz dealerSlas now order st).
      destruct (pc_hasViolation (checkOf order)); [| reflexivity].
      destruct (pc_violation (checkOf order)) as [v |]; [| reflexivity].
      destruct (allSkusViolated (checkOf order)) as [[|] |]; try reflexivity.
      destruct (findExistingOrderViolation _ _); [reflexivity |].
      unfold updateOrderWithSLAViolation.
      apply updateOrderById_idempotent;
        [apply slaPatch_id | apply slaPatch_idempotent].
Qed.

(** X11.  An order none of whose packed SKUs is violated (in particular an
    order with nothing packed) is left alone: the sweep answers false and
    neither the ledger nor the order store changes. *)
Theorem sweep_of_order_on_time (order : Order) (st : Store) :
  (forall s, In s (packedSkus order) ->
     skuViolated tz dealerSlas now order s = false) ->
  sweep order st = (false, st).
Proof.
  intros Hnone.
  pose proof (no_entries_without_violated_sku tz dealerSlas now order Hnone)
    as Hnil.
  rewrite (surjective_pairing (sweep order st)). f_equal.
  - rewrite sweep_result.
    induction (packedSkus order) as [| s l IH]; [reflexivity |].
    cbn [existsb]. rewrite (Hnone s (or_introl eq_refl)).
    apply IH. intros x Hx. apply Hnone. right. exact Hx.
  - apply store_eq.
    + rewrite sweep_violations. unfold recordNewSkuViolations.
      rewrite Hnil. reflexivity.
    + destruct (sweep_orders tz dealerSlas now order st)
        as [-> | (v & _ & Hhas & _)]; [reflexivity |].
      exfalso. rewrite packing_check_hasViolation in Hhas.
      destruct (packedSkus order) as [| s l]; [discriminate |].
      cbn [forallb] in Hhas. rewrite (Hnone s (or_introl eq_refl)) in Hhas.
      rewrite andb_false_r in Hhas. discriminate.
Qed.

Lemma unresolved_order_record_stops_patch (order : Order)
    (ledger : list SLAViolation) (os : list Order) (rec : SLAViolation) :
  In rec ledger -> r_order_id rec = _id order -> r_sku rec = None ->
  resolved rec = false ->
  orders (snd (sweep order {| violations := ledger; orders := os |})) = os.
Proof.
  intros Hin Hid Hsku Hres.
  destruct (sweep_orders tz dealerSlas now order
              {| violations := ledger; orders := os |})
    as [H | (w & _ & _ & Hfind & _)]; [exact H |].
  exfalso. cbn [violations] in Hfind.
  unfold findExistingOrderViolation in Hfind.
  eapply find_none in Hfind.
  2:{ rewrite recordNew_eq. apply in_or_app. left. exact Hin. }
  cbn in Hfind. rewrite Hid, Hsku, Hres, String.eqb_refl in Hfind.
  discriminate.
Qed.

(** X12.  Once an order-level record of the order is in the ledger, written by
    the middleware's [recordSLAViolation] or, for a violation without SKU, by
    the one of the utilities, the sweep no longer patches the order: the order
    store comes back unchanged. *)
Theorem order_level_record_stops_patch (order : Order) (st : Store)
    (v : ViolationData) :
  v_order_id v = _id order ->
  orders
    (snd (sweep order
            {| violations := SlaSweep.recordSLAViolation v (violations st);
               orders := orders st |}))
  = orders st /\
  (JS.chain (v_sku v) JS.truthyString = None ->
   orders
     (snd (sweep order
             {| violations :=
                  SlaViolationUtils.recordSLAViolation v (violations st);
                orders := orders st |}))
   = orders st).
Proof.
  intros Hid. split.
  - eapply unresolved_order_record_stops_patch.
    + unfold SlaSweep.recordSLAViolation. apply in_or_app. right.
      left. reflexivity.
    + exact Hid.
    + reflexivity.
    + reflexivity.
  - intros Hsku. eapply unresolved_order_record_stops_patch.
    + unfold SlaViolationUtils.recordSLAViolation. apply in_or_app. right.
      left. reflexivity.
    + exact Hid.
    + exact Hsku.
    + reflexivity.
Qed.

(** X13.  The full sweep processes every order it is given and counts as a
    violation each order with some violated packed SKU; its ledger is the old
    one followed by unresolved records of the swept orders. *)
Theorem full_sweep_counts (activeOrders : list Order) (st : Store) :
  let r := SlaSweep.checkAllActiveOrders tz dealerSlas now activeOrders st in
  SlaSweep.processedCount (fst r) = List.length activeOrders /\
  SlaSweep.violationCount (fst r)
  = List.length
      (filter (SweepSpec.anySkuViolated tz dealerSlas now) activeOrders) /\
  (SlaSweep.violationCount (fst r) <= SlaSweep.processedCount (fst r))%nat /\
  exists new,
    violations (snd r) = violations st ++ new /\
    Forall
      (fun rec => resolved rec = false /\
                  In (r_order_id rec) (map _id activeOrders))
      new.
Proof.
  cbv zeta. unfold SlaSweep.checkAllActiveOrders.
  destruct (sweepStep_fold tz dealerSlas now activeOrders
              ({| SlaSweep.processedCount := 0;
                  SlaSweep.violationCount := 0 |}, st)) as (Hv & Hp & Hc).
  cbn [fst snd SlaSweep.processedCount SlaSweep.violationCount] in Hv, Hp, Hc.
  rewrite Hv, Hp, Hc. cbn [Nat.add].
  split; [reflexivity |]. split; [reflexivity |].
  split; [apply filter_length_le |].
  apply fold_appends.
Qed.

(** X14.  Running the full sweep a second time over the same orders inserts no
    record and reports the same counts, when the names of the packed SKUs are
    not empty. *)
Theorem full_sweep_again_adds_nothing (activeOrders : list Order)
    (st : Store) :
  (forall o s, In o activeOrders -> In s (packedSkus o) -> sku s <> "") ->
  let first := SlaSweep.checkAllActiveOrders tz dealerSlas now activeOrders st in
  let second :=
    SlaSweep.checkAllActiveOrders tz dealerSlas now activeOrders (snd first) in
  violations (snd second) = violations (snd first) /\
  fst second = fst first.
Proof.
  intros Hnames. cbv zeta. unfold SlaSweep.checkAllActiveOrders.
  pose proof (sweepStep_fold tz dealerSlas now activeOrders
                ({| SlaSweep.processedCount := 0;
                    SlaSweep.violationCount := 0 |}, st)) as H1.
  cbv zeta in H1. destruct H1 as (Hv1 & Hp1 & Hc1).
  set (r1 := fold_left (SlaSweep.sweepStep tz dealerSlas now) activeOrders
               ({| SlaSweep.processedCount := 0;
                   SlaSweep.violationCount := 0 |}, st)) in *.
  pose proof (sweepStep_fold tz dealerSlas now activeOrders
                ({| SlaSweep.processedCount := 0;
                    SlaSweep.violationCount := 0 |}, snd r1)) as H2.
  cbv zeta in H2. destruct H2 as (Hv2 & Hp2 & Hc2).
  set (r2 := fold_left (SlaSweep.sweepStep tz dealerSlas now) activeOrders
               ({| SlaSweep.processedCount := 0;
                   SlaSweep.violationCount := 0 |}, snd r1)) in *.
  cbn [fst snd] in Hv1, Hp1, Hc1, Hv2, Hp2, Hc2.
  split.
  - rewrite Hv2, Hv1. apply fold_covered.
    intros o Ho. apply fold_covers; assumption.
  - destruct (fst r2), (fst r1). cbn in *. congruence.
Qed.

End SweepTheorems.

(** X15.  Marking an order as violated and reading it back: the order with the
    given id comes back with [isSLAMet] false and the violation's times and
    minutes, its other fields as before; every other order reads as before; an
    id that is not in the store changes nothing. *)
Theorem order_patch_lookup (id : string)
    (v : SlaViolationUtils.ViolationData) (orders : list OrderModel.Order) :
  let orders' := SlaViolationUtils.updateOrderWithSLAViolation id v orders in
  (forall o, OrderModel.findOrderById orders id = Some o ->
     exists o',
       OrderModel.findOrderById orders' id = Some o' /\
       OrderModel.isSLAMet (OrderModel.slaInfo o') = Some false /\
       OrderModel.violationMinutes (OrderModel.slaInfo o')
       = Some (SlaViolationUtils.violation_minutes v) /\
       OrderModel.expectedFulfillmentTime (OrderModel.slaInfo o')
       = Some (SlaViolationUtils.expected_fulfillment_time v) /\
       OrderModel.actualFulfillmentTime (OrderModel.slaInfo o')
       = Some (SlaViolationUtils.actual_fulfillment_time v) /\
       OrderModel._id o' = OrderModel._id o /\
       OrderModel.skus o' = OrderModel.skus o /\
       OrderModel.dealerMapping o' = OrderModel.dealerMapping o /\
       OrderModel.orderDate o' = OrderModel.orderDate o) /\
  (forall id', id' <> id ->
     OrderModel.findOrderById orders' id' = OrderModel.findOrderById orders id') /\
  (OrderModel.findOrderById orders id = None -> orders' = orders).
Proof.
  cbv zeta. unfold SlaViolationUtils.updateOrderWithSLAViolation.
  split; [| split].
  - intros o Ho. exists (SlaViolationUtils.slaPatch v o).
    rewrite findOrderById_update by apply slaPatch_id.
    rewrite String.eqb_refl, Ho. repeat split.
  - intros id' Hne. rewrite findOrderById_update by apply slaPatch_id.
    apply String.eqb_neq in Hne. rewrite Hne. reflexivity.
  - apply updateOrderById_missing.
Qed.

Lemma flat_map_nil {A B : Type} (f : A -> list B) (l : list A) :
  (forall x, In x l -> f x = []) -> flat_map f l = [].
Proof.
  induction l as [| x l IH]; intros H; [reflexivity |].
  cbn [flat_map]. rewrite (H x (or_introl eq_refl)), IH; [reflexivity |].
  intros y Hy. apply H. right. exact Hy.
Qed.

(** X16.  Every entry of the warning list is due after now and no later than
    the warning time, its minutes lie between zero and [warningMinutes], its
    dealer has an active SLA with a type, and it comes from one of the given
    orders; with a warning time that is not positive the list is empty. *)
Theorem approaching_orders_within_warning (tz : Z)
    (dealerSlas : list SlaUtils.DealerSLA) (now : JSDate.Date)
    (warningMinutes : Z) (activeOrders : list SlaSweep.OrderDoc) :
  let result :=
    SlaSweep.getOrdersApproachingSLAViolation tz dealerSlas now
      warningMinutes activeOrders in
  Forall
    (fun e =>
       now < SlaSweep.a_expectedFulfillmentTime e
           <= now + warningMinutes * JSDate.msPerMinute /\
       0 <= SlaSweep.minutesUntilViolation e <= warningMinutes /\
       (exists d,
          SlaSweep.findActiveDealerSLA dealerSlas (SlaSweep.a_dealerId e)
          = Some d /\
          SlaUtils.is_active d = true /\ SlaUtils.sla_type d <> None) /\
       exists o,
         In o activeOrders /\
         SlaSweep.a_order_id e = OrderModel._id (SlaSweep.doc o) /\
         SlaSweep.a_orderId e = OrderModel.orderId (SlaSweep.doc o) /\
         SlaSweep.orderStatus e = SlaSweep.docStatus o /\
         In (Some (SlaSweep.a_dealerId e))
            (map OrderModel.dm_dealerId
               (OrderModel.dealerMapping (SlaSweep.doc o))))
    result /\
  (warningMinutes <= 0 -> result = []).
Proof.
  cbv zeta. unfold SlaSweep.getOrdersApproachingSLAViolation. split.
  - apply Forall_forall. intros e He.
    apply in_flat_map in He as (o & Ho & He).
    destruct (JS.orElse _ _) as [date |]; [| contradiction].
    apply in_flat_map in He as (dm & Hdm & He).
    unfold SlaSweep.approachingOfMapping in He.
    destruct (JS.truthy (OrderModel.dm_dealerId dm)) as [dealer |] eqn:Hdealer;
      [| contradiction].
    apply truthy_inv in Hdealer as [Hdealer _].
    destruct (SlaSweep.findActiveDealerSLA dealerSlas dealer) as [d |] eqn:Hd;
      [| contradiction].
    destruct (SlaUtils.sla_type d) as [ty |] eqn:Hty; [| contradiction].
    destruct (SlaMiddleware.calculateExpectedFulfillmentTime _ _ _)
      as [expected |]; [| contradiction].
    destruct (expected <=? now + warningMinutes * 60 * 1000) eqn:Hle;
      [| contradiction].
    destruct (expected >? now) eqn:Hgt; [| contradiction].
    destruct He as [<- | []].
    cbn [SlaSweep.a_expectedFulfillmentTime SlaSweep.minutesUntilViolation
         SlaSweep.a_dealerId SlaSweep.a_order_id SlaSweep.a_orderId
         SlaSweep.orderStatus].
    apply Z.leb_le in Hle. apply Z.gtb_lt in Hgt.
    pose proof (roundDiv_minutes_bounds (expected - now)) as Hround.
    unfold JSDate.msPerMinute in *.
    split; [lia |]. split; [lia |]. split.
    + exists d. split; [exact Hd |]. split; [| congruence].
      apply find_some in Hd as [_ Hd].
      apply andb_prop in Hd as [_ Hd]. exact Hd.
    + exists o. split; [exact Ho |]. repeat split.
      rewrite <- Hdealer. apply in_map. exact Hdm.
  - intros Hw. apply flat_map_nil. intros o _.
    destruct (JS.orElse _ _) as [date |]; [| reflexivity].
    apply flat_map_nil. intros dm _.
    unfold SlaSweep.approachingOfMapping.
    destruct (JS.truthy (OrderModel.dm_dealerId dm)); [| reflexivity].
    destruct (SlaSweep.findActiveDealerSLA dealerSlas s); [| reflexivity].
    destruct (SlaUtils.sla_type d); [| reflexivity].
    destruct (SlaMiddleware.calculateExpectedFulfillmentTime _ _ _)
      as [expected |]; [| reflexivity].
    destruct (expected <=? now + warningMinutes * 60 * 1000) eqn:Hle;
      [| reflexivity].
    destruct (expected >? now) eqn:Hgt; [| reflexivity].
    apply Z.leb_le in Hle. apply Z.gtb_lt in Hgt. lia.
Qed.

(** *** Instances *)

Lemma sweep_again_changes_nothing_witness :
  let sweep :=
    SlaMiddleware.checkOrderSLAViolation Samples.tz [Samples.sla]
      Samples.sweepTime Samples.lateOrder in
  sweep (snd (sweep (Samples.emptyStore Samples.lateOrder)))
  = sweep (Samples.emptyStore Samples.lateOrder).
Proof.
  apply (sweep_again_changes_nothing Samples.tz [Samples.sla]
           Samples.sweepTime Samples.lateOrder
           (Samples.emptyStore Samples.lateOrder)).
  intros s [<- | [<- | []]]; discriminate.
Defined.

Lemma sweep_of_order_on_time_witness :
  SlaMiddleware.checkOrderSLAViolation Samples.tz [Samples.sla]
    Samples.sweepTime (Samples.orderWith [Samples.onTimeB])
    (Samples.emptyStore (Samples.orderWith [Samples.onTimeB]))
  = (false, Samples.emptyStore (Samples.orderWith [Samples.onTimeB])).
Proof.
  apply (sweep_of_order_on_time Samples.tz [Samples.sla] Samples.sweepTime
           (Samples.orderWith [Samples.onTimeB])).
  intros s [<- | []]. reflexivity.
Defined.

Lemma order_level_record_stops_patch_witness :
  SlaMiddleware.orders
    (snd (SlaMiddleware.checkOrderSLAViolation Samples.tz [Samples.sla]
            Samples.sweepTime Samples.lateOrder
            {| SlaMiddleware.violations :=
                 SlaSweep.recordSLAViolation
                   {| SlaViolationUtils.v_dealer_id := "dealer-1";
                      SlaViolationUtils.v_order_id := "order-1";
                      SlaViolationUtils.v_sku := None;
                      SlaViolationUtils.expected_fulfillment_time :=
                        Samples.expectedAt;
                      SlaViolationUtils.actual_fulfillment_time :=
                        Samples.expectedAt + 1500000;
                      SlaViolationUtils.violation_minutes := 25;
                      SlaViolationUtils.notes :=
                        SlaViolationUtils.OrderNote 2 25 |} [];
               SlaMiddleware.orders := [Samples.lateOrder] |}))
  = [Samples.lateOrder].
Proof.
  refine (proj1 (order_level_record_stops_patch Samples.tz [Samples.sla]
                   Samples.sweepTime Samples.lateOrder
                   (Samples.emptyStore Samples.lateOrder) _ _)).
  reflexivity.
Defined.

Lemma full_sweep_again_adds_nothing_witness :
  let orders := [Samples.partialOrder] in
  let first :=
    SlaSweep.checkAllActiveOrders Samples.tz [Samples.sla] Samples.sweepTime
      orders (Samples.emptyStore Samples.partialOrder) in
  let second :=
    SlaSweep.checkAllActiveOrders Samples.tz [Samples.sla] Samples.sweepTime
      orders (snd first) in
  SlaMiddleware.violations (snd second) = SlaMiddleware.violations (snd first) /\
  fst second = fst first.
Proof.
  apply (full_sweep_again_adds_nothing Samples.tz [Samples.sla]
           Samples.sweepTime [Samples.partialOrder]
           (Samples.emptyStore Samples.partialOrder)).
  intros o s [<- | []] [<- | [<- | []]]; discriminate.
Defined.

(** ** The lifecycle of a return request, continued *)

Ltac same_request :=
  unfold MoreSpec.sameRequest; cbn; repeat split; congruence.

Section LifecycleMore.
Import JSDate ReturnModel ReturnController ReturnController.Helpers
  ReturnSpec MoreSpec.

Lemma sameRequest_refl (r : Return) : sameRequest r r.
Proof. unfold sameRequest. repeat split. Qed.

Lemma sameRequest_trans (a b c : Return) :
  sameRequest a b -> sameRequest b c -> sameRequest a c.
Proof.
  unfold sameRequest. intros (?&?&?&?&?&?&?&?) (?&?&?&?&?&?&?&?).
  repeat split; congruence.
Qed.

Lemma requestsKept_refl (rs : list Return) : requestsKept rs rs.
Proof.
  intros id r H. exists r. split; [exact H |].
  split; [apply sameRequest_refl |]. exists []. symmetry. apply app_nil_r.
Qed.

Lemma requestsKept_trans (a b c : list Return) :
  requestsKept a b -> requestsKept b c -> requestsKept a c.
Proof.
  intros Hab Hbc id r H.
  destruct (Hab id r H) as (r1 & H1 & Hs1 & n1 & Hn1).
  destruct (Hbc id r1 H1) as (r2 & H2 & Hs2 & n2 & Hn2).
  exists r2. split; [exact H2 |].
  split; [eapply sameRequest_trans; eassumption |].
  exists (n1 ++ n2). rewrite Hn2, Hn1, app_assoc. reflexivity.
Qed.

Lemma requestsKept_save (rs : list Return) (r x : Return) :
  findById rs (_id r) = Some x ->
  sameRequest x r -> (exists added, notes r = notes x ++ added) ->
  requestsKept rs (saveReturn r rs).
Proof.
  intros Hfind Hsame Hnotes id y H.
  rewrite (findById_saveReturn rs r x id Hfind).
  destruct (Nat.eqb_spec (_id r) id) as [E | _].
  - subst id. rewrite Hfind in H. injection H as <-.
    exists r. split; [reflexivity |]. split; assumption.
  - exists y. split; [exact H |]. split; [apply sameRequest_refl |].
    exists []. symmetry. apply app_nil_r.
Qed.

Lemma requestsKept_append (rs : list Return) (x : Return) :
  requestsKept rs (rs ++ [x]).
Proof.
  intros id r H. rewrite findById_app, H.
  exists r. split; [reflexivity |]. split; [apply sameRequest_refl |].
  exists []. symmetry. apply app_nil_r.
Qed.

(** Saving an update of a stored request that keeps its identity and its
    notes keeps the requests. *)
Lemma requestsKept_update (db : Db) (found r : Return) (returnId : nat) :
  findById (returns db) returnId = Some found ->
  sameRequest found r -> notes r = notes found ->
  requestsKept (returns db) (saveReturn r (returns db)).
Proof.
  intros Hfind Hsame Hnotes.
  apply requestsKept_save with (x := found).
  - destruct Hsame as (Hid & _). rewrite <- Hid.
    rewrite (findById_id _ _ _ Hfind). exact Hfind.
  - exact Hsame.
  - exists []. rewrite Hnotes. symmetry. apply app_nil_r.
Qed.

Lemma helper_schedulePickup_kept (env : Env) (returnId : nat) (db db1 : Db) :
  schedulePickup env returnId db = Some db1 ->
  requestsKept (returns db) (returns db1).
Proof.
  unfold schedulePickup.
  destruct (findById (returns db) returnId) as [found |] eqn:Hfind;
    [| discriminate].
  destruct (createLogisticsPickupRequest env db found _) as [pickup |];
    [| discriminate].
  intros [= <-]. cbn [save withReturns returns].
  apply (requestsKept_update db found _ returnId Hfind);
    [same_request | reflexivity].
Qed.

Lemma save_lookup (rs : list Return) (found r : Return) (returnId : nat) :
  findById rs returnId = Some found -> _id r = _id found ->
  findById (saveReturn r rs) returnId = Some r /\
  forall id, id <> returnId ->
    findById (saveReturn r rs) id = findById rs id.
Proof.
  intros Hfind Hid. pose proof (findById_id _ _ _ Hfind) as Hfid.
  assert (Hr : findById rs (_id r) = Some found)
    by (rewrite Hid, Hfid; exact Hfind).
  split.
  - rewrite (findById_saveReturn rs r found returnId Hr).
    rewrite Hid, Hfid, Nat.eqb_refl. reflexivity.
  - intros id Hne. rewrite (findById_saveReturn rs r found id Hr).
    rewrite Hid, Hfid. apply not_eq_sym in Hne.
    apply Nat.eqb_neq in Hne. rewrite Hne. reflexivity.
Qed.

Lemma newNotifications_one (db : Db) (rest : list Notification) :
  skipn (List.length (notifications db)) (notifications db ++ rest) = rest.
Proof. apply skipn_length_app. Qed.

Lemma newNotifications_none (db : Db) :
  skipn (List.length (notifications db)) (notifications db) = [].
Proof. apply skipn_all. Qed.

Lemma status_required (s required : ReturnStatus) :
  negb (statusEqb s required) = false -> s = required.
Proof.
  intros H. apply negb_false_iff in H. apply statusEqb_eq. exact H.
Qed.

Lemma helper_schedulePickup_success (env : Env) (returnId : nat) (db : Db)
    (found : Return) (order : O.Order) :
  findById (returns db) returnId = Some found ->
  O.findOrderById (orders db) (orderId found) = Some order ->
  exists pickup,
    createLogisticsPickupRequest env db found (Some (addDays (now env) 1))
    = Some pickup /\
    schedulePickup env returnId db
    = Some (save (markPickupScheduled env pickup found) db).
Proof.
  intros Hfind Horder. unfold schedulePickup, createLogisticsPickupRequest.
  rewrite Hfind, Horder. eexists. split; reflexivity.
Qed.

Lemma findOrderById_id (orders : list O.Order) (id : string) (o : O.Order) :
  O.findOrderById orders id = Some o -> O._id o = id.
Proof.
  unfold O.findOrderById. intros H. apply find_some in H as [_ H].
  apply String.eqb_eq. exact H.
Qed.

Lemma findOrderById_replace (f : O.Order -> O.Order) (orders : list O.Order)
    (id : string) (o : O.Order) :
  O.findOrderById orders id = Some o -> O._id (f o) = id ->
  O.findOrderById (O.updateOrderById f id orders) id = Some (f o).
Proof.
  unfold O.findOrderById. intros Hfind Hid.
  induction orders as [| x l IH]; [discriminate |].
  cbn [find O.updateOrderById] in *.
  destruct (String.eqb (O._id x) id) eqn:E.
  - injection Hfind as ->. cbn [find]. rewrite Hid, String.eqb_refl.
    reflexivity.
  - cbn [find]. rewrite E. apply IH. exact Hfind.
Qed.

Lemma saveReturn_keeps_pair (rs : list Return) (r x : Return)
    (o s : string) :
  findById rs (_id r) = Some x ->
  orderId r = orderId x -> sku r = sku x ->
  findByOrderAndSku rs o s <> None ->
  findByOrderAndSku (saveReturn r rs) o s <> None.
Proof.
  unfold findById, findByOrderAndSku. intros Hfind Ho Hs.
  induction rs as [| a l IH]; [intros H; exact H |].
  cbn [find saveReturn] in *.
  destruct (Nat.eqb (_id a) (_id r)) eqn:E.
  - injection Hfind as ->. cbn [find]. rewrite Ho, Hs.
    destruct (String.eqb (orderId x) o && String.eqb (sku x) s);
      [discriminate | intros H; exact H].
  - cbn [find].
    destruct (String.eqb (orderId a) o && String.eqb (sku a) s);
      [discriminate | apply IH; exact Hfind].
Qed.

Lemma helper_schedulePickup_keeps_pair (env : Env) (returnId : nat)
    (db db1 : Db) (o s : string) :
  schedulePickup env returnId db = Some db1 ->
  findByOrderAndSku (returns db) o s <> None ->
  findByOrderAndSku (returns db1) o s <> None.
Proof.
  unfold schedulePickup.
  destruct (findById (returns db) returnId) as [found |] eqn:Hfind;
    [| discriminate].
  destruct (createLogisticsPickupRequest env db found _) as [pickup |];
    [| discriminate].
  intros [= <-]. cbn [save withReturns returns].
  apply saveReturn_keeps_pair with (x := found); [| reflexivity | reflexivity].
  cbn. rewrite (findById_id _ _ _ Hfind). exact Hfind.
Qed.

(** What a successful create request did. *)
Lemma createReturnRequest_inversion (env : Env) (req : Exports.CreateRequest)
    (db : Db) (rr : Return) (message : string) (db1 : Db) :
  Exports.createReturnRequest env req db = (SendSuccess rr message, db1) ->
  exists o s reason caller order item db3,
    truthy (Exports.c_orderId req) = Some o /\
    truthy (Exports.c_sku req) = Some s /\
    truthy (Exports.c_returnReason req) = Some reason /\
    truthy (callerOf req) = Some caller /\
    O.findOrderById (orders db) o = Some order /\
    O.findSku order s = Some item /\
    orderId rr = o /\ sku rr = s /\ customerId rr = caller /\
    _id rr = nextId db /\
    returnStatus rr
    = (if e_isEligible (validateReturnEligibility env order s)
       then Validated else Requested) /\
    isEligible rr = e_isEligible (validateReturnEligibility env order s) /\
    (if e_isEligible (validateReturnEligibility env order s)
     then schedulePickup env (_id rr) db3 = Some db1
     else db1 = db3) /\
    returns db3 = returns db ++ [rr] /\
    orders db3
    = O.updateOrderById
        (fun _ =>
           Exports.withSkus
             (map (Exports.markReturned s (_id rr)) (O.skus order)) order)
        (O._id order) (orders db) /\
    notifications db3
    = notifications db ++
      [{| recipients := [caller]; title := "Return Request Created";
          n_returnId := _id rr |}] /\
    refunds db3 = refunds db /\ providerCalls db3 = providerCalls db.
Proof.
  unfold Exports.createReturnRequest, callerOf. cbv zeta.
  destruct (truthy (Exports.c_orderId req)) as [o |]; [| discriminate].
  destruct (truthy (Exports.c_sku req)) as [s |]; [| discriminate].
  destruct (truthy (Exports.c_returnReason req)) as [reason |]; [| discriminate].
  destruct (truthy _) as [caller |]; [| discriminate].
  destruct (findByOrderAndSku (returns db) o s); [discriminate |].
  destruct (O.findOrderById (orders db) o) as [order |] eqn:Horder;
    [| discriminate].
  destruct (negb _); [discriminate |].
  destruct (O.findSku order s) as [item |] eqn:Hitem; [| discriminate].
  destruct (JS.orDefault (Exports.c_quantity req) 1 >? O.quantity item);
    [discriminate |].
  unfold insertReturn. cbv beta iota zeta.
  destruct (e_isEligible (validateReturnEligibility env order s)) eqn:Helig.
  - match goal with
    | |- context [schedulePickup env ?i ?d] =>
        destruct (schedulePickup env i d) as [db4 |] eqn:Hpick
    end; [| discriminate].
    intros [= <- _ <-].
    eexists o, s, reason, caller, order, item, _.
    cbn [orderId sku customerId _id returnStatus isEligible]. rewrite Helig.
    do 4 (split; [reflexivity |]).
    split; [exact Horder |]. split; [exact Hitem |].
    do 6 (split; [reflexivity |]). split; [exact Hpick |].
    repeat split.
  - intros [= <- _ <-].
    eexists o, s, reason, caller, order, item, _.
    cbn [orderId sku customerId _id returnStatus isEligible]. rewrite Helig.
    do 4 (split; [reflexivity |]).
    split; [exact Horder |]. split; [exact Hitem |].
    do 6 (split; [reflexivity |]). split; [reflexivity |].
    repeat split.
Qed.

End LifecycleMore.

Ltac sent :=
  cbn [ReturnModel.notify ReturnModel.save ReturnModel.withReturns
       ReturnModel.notifications];
  first [apply newNotifications_one | apply newNotifications_none].

Section LifecycleTheorems.
Import JSDate ReturnModel ReturnController ReturnController.Helpers
  ReturnSpec MoreSpec.

(** X17.  A request about a return request that is not in the store (a
    transition, a validation or a note) is answered with "Return request not
    found" and changes nothing. *)
Theorem unknown_return_request (env : Env) (rq : Request) (returnId : nat)
    (db : Db) :
  targetOf rq = Some returnId ->
  findById (returns db) returnId = None ->
  handle env rq db = (SendError (Plain "Return request not found"), db).
Proof.
  intros Htarget Hnone.
  destruct rq as [op id | id | id n | req]; cbn in Htarget;
    try discriminate; injection Htarget as ->; cbn [handle].
  - destruct op; cbn [run];
      [unfold Exports.schedulePickup | unfold Exports.completePickup
      | unfold Exports.startInspection | unfold Exports.completeInspection
      | unfold Exports.processRefund | unfold Exports.completeReturn];
      cbv zeta; rewrite Hnone; reflexivity.
  - unfold Exports.validateReturnRequest. rewrite Hnone. reflexivity.
  - unfold Exports.addNote. rewrite Hnone. reflexivity.
Qed.

(** X18.  A transition that succeeds found the return request in the status it
    requires, leaves it stored in the status the transition leads to and
    answers with the stored document; no other return request and no order
    changes, and the notifications sent are those of the transition: none
    when an inspection starts, one to the dealer when a pickup completes and
    the request names a dealer (a missing or empty id is not notified), one
    to the customer otherwise. *)
Theorem transition_success (env : Env) (op : Operation) (returnId : nat)
    (db : Db) (rr : Return) (message : string) (db1 : Db) :
  run env op returnId db = (SendSuccess rr message, db1) ->
  exists before,
    findById (returns db) returnId = Some before /\
    returnStatus before = requiredStatus op /\
    returnStatus rr = nextStatus op /\
    findById (returns db1) returnId = Some rr /\
    (forall id, id <> returnId ->
       findById (returns db1) id = findById (returns db) id) /\
    orders db1 = orders db /\
    newNotifications db db1 = notificationsOf op rr.
Proof.
  unfold newNotifications.
  destruct op; cbn [run requiredStatus nextStatus notificationsOf];
    [unfold Exports.schedulePickup | unfold Exports.completePickup
    | unfold Exports.startInspection | unfold Exports.completeInspection
    | unfold Exports.processRefund | unfold Exports.completeReturn];
    cbv zeta;
    (destruct (findById (returns db) returnId) as [found |] eqn:Hfind;
       [| discriminate]);
    (destruct (negb _) eqn:Hstatus; [discriminate |]);
    apply status_required in Hstatus.
  - destruct (createLogisticsPickupRequest env db found scheduled)
      as [pickup |]; [| discriminate].
    intros [= <- <- <-]. exists found.
    destruct (save_lookup (returns db) found
                (markPickupScheduled env pickup found) returnId Hfind eq_refl)
      as [Hsaved Hothers].
    split; [reflexivity |]. split; [exact Hstatus |]. split; [reflexivity |].
    split; [exact Hsaved |]. split; [exact Hothers |].
    split; [reflexivity |]. sent.
  - intros [= <- <- <-]. exists found.
    match goal with
    | |- context [save ?r db] =>
        destruct (save_lookup (returns db) found r returnId Hfind eq_refl)
          as [Hsaved Hothers]
    end.
    split; [reflexivity |]. split; [exact Hstatus |]. split; [reflexivity |].
    cbn [dealerId setTimestamps setPickupRequest setReturnStatus].
    destruct (truthy (dealerId found));
      (split; [exact Hsaved |]); (split; [exact Hothers |]);
      (split; [reflexivity |]).
    + sent.
    + sent.
  - intros [= <- <- <-]. exists found.
    match goal with
    | |- context [save ?r db] =>
        destruct (save_lookup (returns db) found r returnId Hfind eq_refl)
          as [Hsaved Hothers]
    end.
    split; [reflexivity |]. split; [exact Hstatus |]. split; [reflexivity |].
    split; [exact Hsaved |]. split; [exact Hothers |].
    split; [reflexivity |]. sent.
  - intros [= <- <- <-]. exists found.
    match goal with
    | |- context [save ?r db] =>
        destruct (save_lookup (returns db) found r returnId Hfind)
          as [Hsaved Hothers];
          [destruct (JS.orDefault (Exports.i_isApproved body) false);
           reflexivity |]
    end.
    split; [reflexivity |]. split; [exact Hstatus |].
    split; [destruct (JS.orDefault (Exports.i_isApproved body) false);
            reflexivity |].
    destruct (JS.orDefault (Exports.i_isApproved body) false);
      cbn [findFulfillmentAdmins];
      (split; [exact Hsaved |]); (split; [exact Hothers |]);
      (split; [reflexivity |]); sent.
  - destruct (processRefundPayment env found _ db) as [[res r0] dbp] eqn:Hrun.
    apply processRefundPayment_effects in Hrun
      as ((Hord & _ & Hnot & Heff) & _).
    destruct res as [txn rid ty | failure]; [| discriminate].
    destruct Heff as (Hr0 & Hret & _).
    intros [= <- <- <-]. exists found.
    destruct (save_lookup (returns db) found r0 returnId Hfind)
      as [Hsaved0 Hothers0]; [rewrite Hr0; reflexivity |].
    rewrite <- Hret in Hsaved0, Hothers0.
    match goal with
    | |- context [save ?r dbp] =>
        destruct (save_lookup (returns dbp) r0 r returnId Hsaved0 eq_refl)
          as [Hsaved Hothers]
    end.
    split; [reflexivity |]. split; [exact Hstatus |]. split; [reflexivity |].
    split; [exact Hsaved |].
    split; [intros id Hne; cbn [notify save withReturns returns];
            rewrite (Hothers id Hne); apply Hothers0; exact Hne |].
    split; [exact Hord |].
    cbn [notify save withReturns notifications]. rewrite Hnot.
    apply newNotifications_one.
  - intros [= <- <- <-]. exists found.
    match goal with
    | |- context [save ?r db] =>
        destruct (save_lookup (returns db) found r returnId Hfind eq_refl)
          as [Hsaved Hothers]
    end.
    split; [reflexivity |]. split; [exact Hstatus |]. split; [reflexivity |].
    split; [exact Hsaved |]. split; [exact Hothers |].
    split; [reflexivity |]. sent.
Qed.

(** X19.  A transition refused by one of its guards, that is, answered with
    an error other than the "Failed to ..." message of the handler's catch,
    was refused because the return request is not stored, or because its
    status is not the required one (the message names it), or because the
    refund processor did not succeed.  Such a refusal leaves the return
    requests, the orders, the payments, the refund ledger and the
    notifications as they were; only a refused refund may have sent requests
    to the payment gateway. *)
Theorem refused_transition_keeps_records (env : Env) (op : Operation)
    (returnId : nat) (db : Db) (message : ErrorMessage) (db1 : Db) :
  run env op returnId db = (SendError message, db1) ->
  message <> Plain (failureMessage op) ->
  ((findById (returns db) returnId = None /\
    message = Plain "Return request not found") \/
   (exists rr text,
      findById (returns db) returnId = Some rr /\
      returnStatus rr <> requiredStatus op /\
      message = Plain text /\
      namesStatus text (requiredStatus op) = true) \/
   (exists req rr failure,
      op = ProcessRefund req /\
      findById (returns db) returnId = Some rr /\
      returnStatus rr = Approved /\
      message = RefundProcessingFailed failure)) /\
  returns db1 = returns db /\ orders db1 = orders db /\
  payments db1 = payments db /\ refunds db1 = refunds db /\
  notifications db1 = notifications db /\
  (exists calls, providerCalls db1 = providerCalls db ++ calls) /\
  ((forall req, op <> ProcessRefund req) -> db1 = db).
Proof.
  intros Hrun Hguard.
  assert (Hsame : forall d : Db,
    returns d = returns d /\ orders d = orders d /\
    payments d = payments d /\ refunds d = refunds d /\
    notifications d = notifications d /\
    (exists calls, providerCalls d = providerCalls d ++ calls) /\
    ((forall req, op <> ProcessRefund req) -> d = d)).
  { intros d. repeat split. exists []. symmetry. apply app_nil_r. }
  destruct (findById (returns db) returnId) as [found |] eqn:Hfind.
  2:{ assert (Hnone :
        run env op returnId db
        = (SendError (Plain "Return request not found"), db)).
      { destruct op; cbn [run];
          [unfold Exports.schedulePickup | unfold Exports.completePickup
          | unfold Exports.startInspection | unfold Exports.completeInspection
          | unfold Exports.processRefund | unfold Exports.completeReturn];
          cbv zeta; rewrite Hfind; reflexivity. }
      rewrite Hnone in Hrun. injection Hrun as <- <-.
      split; [left; split; reflexivity | apply Hsame]. }
  destruct (statusEqb (returnStatus found) (requiredStatus op)) eqn:Hstatus.
  - apply statusEqb_eq in Hstatus.
    destruct op; cbn [run requiredStatus failureMessage] in *;
      [unfold Exports.schedulePickup in Hrun
      | unfold Exports.completePickup in Hrun
      | unfold Exports.startInspection in Hrun
      | unfold Exports.completeInspection in Hrun
      | unfold Exports.processRefund in Hrun
      | unfold Exports.completeReturn in Hrun];
      cbv zeta in Hrun; rewrite Hfind, Hstatus in Hrun;
      cbn [statusEqb negb] in Hrun; try discriminate Hrun.
    + destruct (createLogisticsPickupRequest env db found scheduled);
        [discriminate Hrun |].
      injection Hrun as <- <-. exfalso. apply Hguard. reflexivity.
    + destruct (processRefundPayment env found _ db)
        as [[res r0] dbp] eqn:Hpay.
      apply processRefundPayment_effects in Hpay
        as ((Hord & Hpayments & Hnot & Heff) & calls & Hcalls & _).
      destruct res as [txn rid ty | failure]; [discriminate Hrun |].
      destruct Heff as (_ & Hret & Href).
      injection Hrun as <- <-.
      split.
      { right. right. exists req, found, failure. repeat split.
        exact Hstatus. }
      split; [exact Hret |]. split; [exact Hord |].
      split; [exact Hpayments |].
      split; [exact Href |]. split; [exact Hnot |].
      split; [exists calls; exact Hcalls |].
      intros Hno. exfalso. apply (Hno req). reflexivity.
  - assert (Hne : returnStatus found <> requiredStatus op).
    { intros E. apply statusEqb_eq in E. congruence. }
    destruct (precondition_failure env op returnId db found Hfind Hne)
      as (text & Hrefused & Hnames).
    rewrite Hrefused in Hrun. injection Hrun as <- <-.
    split; [| apply Hsame].
    right. left. exists found, text. repeat split; assumption.
Qed.

(** X20.  No request removes a return request or changes its identity: after
    any request every stored return request is still stored under its id with
    the same order, SKU, customer, quantity, reason, dealer and refund amount,
    and with the notes it had, possibly followed by new ones. *)
Theorem requests_keep_identity (env : Env) (rq : Request) (db : Db) :
  requestsKept (returns db) (returns (snd (handle env rq db))).
Proof.
  destruct rq as [op returnId | returnId | returnId n | req]; cbn [handle].
  - destruct op; cbn [run];
      [unfold Exports.schedulePickup | unfold Exports.completePickup
      | unfold Exports.startInspection | unfold Exports.completeInspection
      | unfold Exports.processRefund | unfold Exports.completeReturn];
      cbv zeta;
      (destruct (findById (returns db) returnId) as [found |] eqn:Hfind;
         [| apply requestsKept_refl]);
      (destruct (negb _); [apply requestsKept_refl |]).
    + destruct (createLogisticsPickupRequest env db found scheduled);
        [| apply requestsKept_refl].
      cbn [snd notify save withReturns returns].
      apply (requestsKept_update db found _ returnId Hfind);
        [same_request | reflexivity].
    + destruct (truthy (dealerId found)) eqn:Hdealer;
        cbn [snd notify save withReturns returns dealerId setTimestamps
             setPickupRequest setReturnStatus];
        rewrite ?Hdealer; cbn [snd notify save withReturns returns];
        (apply (requestsKept_update db found _ returnId Hfind);
           [same_request | reflexivity]).
    + cbn [snd save withReturns returns].
      apply (requestsKept_update db found _ returnId Hfind);
        [same_request | reflexivity].
    + destruct (JS.orDefault (Exports.i_isApproved body) false);
        cbn [snd notify save withReturns returns findFulfillmentAdmins];
        (apply (requestsKept_update db found _ returnId Hfind);
           [same_request | reflexivity]).
    + destruct (processRefundPayment env found _ db) as [[res r0] dbp] eqn:Hrun.
      apply processRefundPayment_effects in Hrun as ((_ & _ & _ & Heff) & _).
      destruct res as [txn rid ty | failure].
      * destruct Heff as (Hr0 & Hret & _).
        destruct (save_lookup (returns db) found r0 returnId Hfind)
          as [Hsaved0 _]; [rewrite Hr0; reflexivity |].
        rewrite <- Hret in Hsaved0.
        cbn [snd notify save withReturns returns].
        apply requestsKept_trans with (b := returns dbp).
        -- rewrite Hret.
           apply (requestsKept_update db found r0 returnId Hfind);
             rewrite Hr0; [same_request | reflexivity].
        -- apply (requestsKept_update dbp r0 _ returnId Hsaved0);
             [same_request | reflexivity].
      * destruct Heff as (_ & Hret & _). cbn [snd]. rewrite Hret.
        apply requestsKept_refl.
    + cbn [snd notify save withReturns returns].
      apply (requestsKept_update db found _ returnId Hfind);
        [same_request | reflexivity].
  - unfold Exports.validateReturnRequest. cbv zeta.
    destruct (findById (returns db) returnId) as [found |] eqn:Hfind;
      [| apply requestsKept_refl].
    destruct (O.findOrderById (orders db) (orderId found)) as [order |];
      [| apply requestsKept_refl].
    match goal with
    | |- context [save ?r db] =>
        assert (Hsave : requestsKept (returns db) (returns (save r db)))
    end.
    { cbn [save withReturns returns].
      apply (requestsKept_update db found _ returnId Hfind);
        [same_request | reflexivity]. }
    destruct (e_isEligible _).
    + match goal with
      | |- context [schedulePickup env ?i ?d] =>
          destruct (schedulePickup env i d) as [db3 |] eqn:Hpick
      end.
      * cbn [snd]. eapply requestsKept_trans; [exact Hsave |].
        apply helper_schedulePickup_kept in Hpick. exact Hpick.
      * exact Hsave.
    + exact Hsave.
  - unfold Exports.addNote.
    destruct (findById (returns db) returnId) as [found |] eqn:Hfind;
      [| apply requestsKept_refl].
    cbn [snd save withReturns returns].
    apply requestsKept_save with (x := found).
    + cbn. rewrite (findById_id _ _ _ Hfind). exact Hfind.
    + same_request.
    + exists [n]. reflexivity.
  - destruct (createReturnRequest_store env req db)
      as [-> | (rr & db3 & Happ & [-> | Hpick])].
    + apply requestsKept_refl.
    + rewrite Happ. apply requestsKept_append.
    + eapply requestsKept_trans;
        [| apply (helper_schedulePickup_kept _ _ _ _ Hpick)].
      rewrite Happ. apply requestsKept_append.
Qed.

(** X21.  Validation has no status precondition. Whatever the status of a
    stored return request whose order exists, validating it succeeds: the
    answer shows it as Validated when it is eligible now and as Requested
    otherwise, and what is stored afterwards is Pickup_Scheduled when eligible
    (the pickup is booked at once) and Requested otherwise. *)
Theorem validation_resets_status (env : Env) (returnId : nat) (db : Db)
    (found : Return) (order : O.Order) :
  findById (returns db) returnId = Some found ->
  O.findOrderById (orders db) (orderId found) = Some order ->
  let eligible :=
    e_isEligible (validateReturnEligibility env order (sku found)) in
  exists answered stored db1,
    Exports.validateReturnRequest env returnId db
    = (SendSuccess answered "Return request validated successfully", db1) /\
    returnStatus answered = (if eligible then Validated else Requested) /\
    isEligible answered = eligible /\
    validatedAt (timestamps answered) = Some (now env) /\
    findById (returns db1) returnId = Some stored /\
    returnStatus stored = (if eligible then Pickup_Scheduled else Requested) /\
    isEligible stored = eligible /\
    orders db1 = orders db.
Proof.
  intros Hfind Horder. cbv zeta.
  unfold Exports.validateReturnRequest. rewrite Hfind, Horder. cbv zeta.
  pose proof (findById_id _ _ _ Hfind) as Hid. subst returnId.
  match goal with
  | |- context [save ?r db] =>
      destruct (save_lookup (returns db) found r (_id found) Hfind eq_refl)
        as [Hsaved _];
      set (r3 := r) in *
  end.
  destruct (e_isEligible (validateReturnEligibility env order (sku found)))
    eqn:Helig.
  - destruct (helper_schedulePickup_success env (_id found)
                (notify [customerId r3] "Return Request Validated" (_id found)
                   (save r3 db))
                r3 order Hsaved Horder) as (pickup & _ & Hpick).
    change (_id r3) with (_id found). rewrite Hpick.
    exists r3, (markPickupScheduled env pickup r3). eexists.
    split; [reflexivity |].
    split; [subst r3; cbn; rewrite ?Helig; reflexivity |].
    split; [subst r3; cbn; rewrite ?Helig; reflexivity |].
    split; [reflexivity |].
    split; [cbn [save withReturns returns notify];
            apply (proj1 (save_lookup (saveReturn r3 (returns db)) r3
                            (markPickupScheduled env pickup r3) (_id found)
                            Hsaved eq_refl)) |].
    split; [reflexivity |].
    split; [subst r3; cbn; rewrite ?Helig; reflexivity |].
    reflexivity.
  - exists r3, r3. eexists. split; [reflexivity |].
    split; [subst r3; cbn; rewrite ?Helig; reflexivity |].
    split; [subst r3; cbn; rewrite ?Helig; reflexivity |].
    split; [reflexivity |].
    split; [exact Hsaved |].
    split; [subst r3; cbn; rewrite ?Helig; reflexivity |].
    split; [subst r3; cbn; rewrite ?Helig; reflexivity |].
    reflexivity.
Qed.

(** X22.  What a successful create request leaves behind, when the id given to
    the new document is not in use: the answer shows the request as Validated
    when it is eligible and as Requested otherwise, while the stored request
    of an eligible return is already Pickup_Scheduled; the items of that SKU
    in the stored order carry the id of the return; and the customer got the
    "Return Request Created" notification. *)
Theorem created_request_state (env : Env) (req : Exports.CreateRequest)
    (db : Db) (rr : Return) (message : string) (db1 : Db) :
  findById (returns db) (nextId db) = None ->
  Exports.createReturnRequest env req db = (SendSuccess rr message, db1) ->
  exists order stored,
    O.findOrderById (orders db) (orderId rr) = Some order /\
    returnStatus rr = (if isEligible rr then Validated else Requested) /\
    isEligible rr
    = e_isEligible (validateReturnEligibility env order (sku rr)) /\
    findById (returns db1) (_id rr) = Some stored /\
    returnStatus stored
    = (if isEligible rr then Pickup_Scheduled else Requested) /\
    sameRequest rr stored /\
    O.findOrderById (orders db1) (orderId rr)
    = Some (Exports.withSkus
              (map (Exports.markReturned (sku rr) (_id rr)) (O.skus order))
              order) /\
    newNotifications db db1
    = [{| recipients := [customerId rr]; title := "Return Request Created";
          n_returnId := _id rr |}].
Proof.
  intros Hfresh Hcreate.
  apply createReturnRequest_inversion in Hcreate
    as (o & s & reason & caller & order & item & db3 & _ & _ & _ & _ &
        Horder & _ & Ho & Hs & Hcaller & Hid & Hstatus & Helig & Hnext &
        Hret & Hord & Hnot & _ & _).
  subst o s caller.
  assert (Hnew : findById (returns db3) (_id rr) = Some rr).
  { rewrite Hret, findById_app, Hid, Hfresh, <- Hid, Nat.eqb_refl.
    reflexivity. }
  assert (Horder3 :
    O.findOrderById (orders db3) (orderId rr)
    = Some (Exports.withSkus
              (map (Exports.markReturned (sku rr) (_id rr)) (O.skus order))
              order)).
  { rewrite Hord. pose proof (findOrderById_id _ _ _ Horder) as Hoid.
    rewrite Hoid.
    apply (findOrderById_replace
             (fun _ =>
                Exports.withSkus
                  (map (Exports.markReturned (sku rr) (_id rr)) (O.skus order))
                  order)
             (orders db) (orderId rr) order Horder).
    exact Hoid. }
  unfold newNotifications.
  rewrite <- Helig in Hnext, Hstatus.
  destruct (isEligible rr).
  - destruct (helper_schedulePickup_success env (_id rr) db3 rr _ Hnew Horder3)
      as (pickup & _ & Hpick).
    rewrite Hpick in Hnext. injection Hnext as <-.
    exists order, (markPickupScheduled env pickup rr).
    split; [exact Horder |]. split; [exact Hstatus |].
    split; [exact Helig |].
    split; [cbn [save withReturns returns];
            apply (proj1 (save_lookup (returns db3) rr
                            (markPickupScheduled env pickup rr) (_id rr)
                            Hnew eq_refl)) |].
    split; [reflexivity |]. split; [same_request |].
    split; [exact Horder3 |].
    cbn [save withReturns notifications]. rewrite Hnot.
    apply skipn_length_app.
  - subst db1. exists order, rr.
    split; [exact Horder |]. split; [exact Hstatus |].
    split; [exact Helig |]. split; [exact Hnew |].
    split; [exact Hstatus |]. split; [apply sameRequest_refl |].
    split; [exact Horder3 |].
    rewrite Hnot. apply skipn_length_app.
Qed.

(** X23.  After a successful create request the same request sent again is
    refused as a duplicate, whatever the collaborators answer then, and
    changes nothing. *)
Theorem create_twice_rejected (env env' : Env) (req : Exports.CreateRequest)
    (db : Db) (rr : Return) (message : string) (db1 : Db) :
  Exports.createReturnRequest env req db = (SendSuccess rr message, db1) ->
  Exports.createReturnRequest env' req db1
  = (SendError
       (Plain "Return request already exists for this order and SKU"),
     db1).
Proof.
  intros Hcreate.
  apply createReturnRequest_inversion in Hcreate
    as (o & s & reason & caller & order & item & db3 & Hto & Hts & Htr & Htc &
        _ & _ & Ho & Hs & _ & _ & _ & _ & Hnext & Hret & _).
  assert (Hpair3 : findByOrderAndSku (returns db3) o s <> None).
  { rewrite Hret. unfold findByOrderAndSku. intros H.
    assert (Hin : In rr (returns db ++ [rr]))
      by (apply in_or_app; right; left; reflexivity).
    pose proof (find_none _ _ H rr Hin) as Hrr.
    cbn in Hrr. rewrite Ho, Hs, !String.eqb_refl in Hrr. discriminate. }
  assert (Hpair : findByOrderAndSku (returns db1) o s <> None).
  { destruct (e_isEligible _).
    - apply (helper_schedulePickup_keeps_pair _ _ _ _ _ _ Hnext Hpair3).
    - subst db1. exact Hpair3. }
  unfold Exports.createReturnRequest. cbv zeta.
  unfold callerOf in Htc. rewrite Hto, Hts, Htr, Htc.
  destruct (findByOrderAndSku (returns db1) o s); [reflexivity | contradiction].
Qed.

(** X24.  A successful refund request writes exactly one entry into the refund
    ledger, for the return request and its stored refund amount, and the
    return request is stamped with the id of that entry, the gateway's
    transaction id, the status "Completed", the requested method and the time. *)
Theorem refund_success_bookkeeping (env : Env) (returnId : nat)
    (req : Exports.RefundRequest) (db : Db) (rr : Return) (message : string)
    (db1 : Db) :
  Exports.processRefund env returnId req db = (SendSuccess rr message, db1) ->
  exists entry txn,
    refunds db1 = refunds db ++ [entry] /\
    rr_return_id entry = returnId /\
    rr_amount entry = refundAmount (refund rr) /\
    (razorpay_payout_id entry = Some txn \/
     razorpay_refund_id entry = Some txn) /\
    refund_id (refund rr) = Some (rr_id entry) /\
    transactionId (refund rr) = Some txn /\
    refundStatus (refund rr) = Some "Completed" /\
    refundMethod (refund rr)
    = Some (JS.orDefault (Exports.rq_refundMethod req)
              "Original_Payment_Method") /\
    processedBy (refund rr) = Exports.adminId req /\
    processedAt (refund rr) = Some (now env) /\
    refundProcessedAt (timestamps rr) = Some (now env).
Proof.
  unfold Exports.processRefund. cbv zeta.
  destruct (findById (returns db) returnId) as [found |] eqn:Hfind;
    [| discriminate].
  destruct (negb _); [discriminate |].
  destruct (processRefundPayment env found _ db) as [[res r0] dbp] eqn:Hrun.
  apply processRefundPayment_effects in Hrun as ((_ & _ & _ & Heff) & _).
  destruct res as [txn rid ty | failure]; [| discriminate].
  destruct Heff as (Hr0 & _ & entry & Href & Hrid & Hret & Hamount & Hkind).
  intros [= <- _ <-]. exists entry, txn.
  cbn [notify save withReturns refunds refund timestamps setTimestamps
       setRefund setReturnStatus Exports.setProcessedRefund refundAmount
       refund_id transactionId refundStatus refundMethod processedBy
       processedAt stampRefundProcessedAt refundProcessedAt].
  rewrite Hr0.
  cbn [refund setRefund setRefundId refundAmount refund_id].
  split; [exact Href |].
  split; [rewrite Hret; apply (findById_id _ _ _ Hfind) |].
  split; [exact Hamount |].
  split; [destruct Hkind as [(_ & _ & H) | (_ & _ & H)];
          [left | right]; exact H |].
  split; [rewrite Hrid; reflexivity |].
  repeat split.
Qed.

(** X25.  A failing carrier does not fail the pickup. For a validated return
    request whose order exists the pickup is scheduled even when the request
    to the carrier fails: the request becomes Pickup_Scheduled, for the date
    asked for (now, when none is given), with local placeholders for the
    pickup id and the tracking number and no carrier order id. *)
Theorem pickup_survives_carrier_failure (env : Env) (returnId : nat)
    (scheduled : option Date) (db : Db) (found : Return) (order : O.Order) :
  findById (returns db) returnId = Some found ->
  returnStatus found = Validated ->
  O.findOrderById (orders db) (orderId found) = Some order ->
  borzoResponse env = None ->
  exists rr db1,
    Exports.schedulePickup env returnId scheduled db
    = (SendSuccess rr "Pickup scheduled successfully", db1) /\
    returnStatus rr = Pickup_Scheduled /\
    scheduledDate (pickupRequest rr)
    = Some (JS.orDefault scheduled (now env)) /\
    pickupId (pickupRequest rr) = Some (LocalPickup (now env)) /\
    trackingNumber (pickupRequest rr) = Some (LocalTracking (now env)) /\
    borzoOrderId (pickupRequest rr) = None /\
    borzoTrackingUrl (pickupRequest rr) = None /\
    logisticsPartner (pickupRequest rr) = Some "Borzo" /\
    pickupScheduledAt (timestamps rr) = Some (now env).
Proof.
  intros Hfind Hstatus Horder Hcarrier.
  unfold Exports.schedulePickup, createLogisticsPickupRequest.
  rewrite Hfind, Hstatus, Horder, Hcarrier. cbn.
  eexists _, _. repeat split.
Qed.

(** X26.  When the refund goes to the bank account and the three requests of
    the payout succeed, the gateway is asked for a contact, a fund account and
    a payout of the refund amount in paise and for nothing else (the original
    payment is neither fetched nor refunded); the ledger gets one entry of
    type "Refund-COD" with the payout's id and status, and the return request
    is stamped with the id of that entry. *)
Theorem bank_payout_success (env : Env) (rr : Return) (method : string)
    (db : Db) (order : O.Order) (payment : Payment) (contact fund : string)
    (payout : PayoutData) :
  O.findOrderById (orders db) (orderId rr) = Some order ->
  paymentOf db order = Some payment ->
  useBankPayout (userResponse env) method payment = true ->
  contactResp env = Some contact ->
  fundResp env = Some fund ->
  payoutResp env = Some payout ->
  exists r1 db1 entry refundId,
    processRefundPayment env rr method db
    = (RefundSucceeded (po_id payout) refundId "Bank_Payout", r1, db1) /\
    rr_id entry = refundId /\
    newCalls db db1
    = [CreateContact; CreateFundAccount contact;
       CreatePayout fund (toPaise (refundAmount (refund rr)))] /\
    newRefunds db db1 = [entry] /\
    refund_type entry = "Refund-COD" /\
    razorpay_payout_id entry = Some (po_id payout) /\
    razorpay_refund_id entry = None /\
    rr_return_id entry = _id rr /\
    rr_amount entry = refundAmount (refund rr) /\
    rr_status entry = po_status payout /\
    refund_id (refund r1) = Some (rr_id entry) /\
    returnStatus r1 = returnStatus rr /\
    notifications db1 = notifications db.
Proof.
  intros Horder Hpayment Hbank Hcontact Hfund Hpayout.
  rewrite (processRefundPayment_paths env rr method db order payment
             Horder Hpayment).
  rewrite Hbank. unfold requestPayout. rewrite Hcontact, Hfund, Hpayout.
  unfold recordRefund, insertRefund. cbv beta iota zeta.
  eexists _, _, _, _. split; [reflexivity |].
  unfold newCalls, newRefunds.
  cbn [logCall save withReturns providerCalls refunds notifications
       rr_id refund_type razorpay_payout_id razorpay_refund_id rr_return_id
       rr_amount rr_status refund setRefund setRefundId refund_id
       returnStatus].
  rewrite <- !app_assoc. cbn [app].
  split; [| split; [apply skipn_length_app |
                    split; [apply skipn_length_app | repeat split]]].
  reflexivity.
Qed.

End LifecycleTheorems.

(** *** Instances *)

Lemma unknown_return_request_witness :
  ReturnSpec.handle ReturnSamples.payoutDown (ReturnSpec.Validate 0)
    ReturnSamples.freshDb
  = (ReturnController.SendError
       (ReturnController.Plain "Return request not found"),
     ReturnSamples.freshDb).
Proof.
  apply (unknown_return_request ReturnSamples.payoutDown
           (ReturnSpec.Validate 0) 0%nat ReturnSamples.freshDb);
    reflexivity.
Defined.

Lemma transition_success_witness :
  exists before,
    ReturnModel.findById (ReturnModel.returns ReturnSamples.db) 0
    = Some before /\
    ReturnModel.returnStatus before = ReturnModel.Approved.
Proof.
  destruct (transition_success ReturnSamples.payoutDownSourceUp
              (ReturnSpec.ProcessRefund ReturnSamples.bankRefund) 0%nat
              ReturnSamples.db _ _ _ eq_refl)
    as (before & Hfind & Hstatus & _).
  exists before. split; [exact Hfind | exact Hstatus].
Defined.

Lemma refused_transition_keeps_records_witness :
  ReturnModel.refunds
    (snd (ReturnSpec.run ReturnSamples.payoutDown
            (ReturnSpec.ProcessRefund ReturnSamples.bankRefund) 0
            ReturnSamples.db))
  = ReturnModel.refunds ReturnSamples.db.
Proof.
  destruct (refused_transition_keeps_records ReturnSamples.payoutDown
              (ReturnSpec.ProcessRefund ReturnSamples.bankRefund) 0%nat
              ReturnSamples.db _ _ eq_refl)
    as (_ & _ & _ & _ & Hrefunds & _);
    [discriminate | exact Hrefunds].
Defined.

Lemma validation_resets_status_witness :
  exists answered stored db1,
    ReturnController.Exports.validateReturnRequest ReturnSamples.tenDaysLater
      0 ReturnSamples.db
    = (ReturnController.SendSuccess answered
         "Return request validated successfully", db1) /\
    ReturnModel.returnStatus answered = ReturnModel.Requested /\
    ReturnModel.findById (ReturnModel.returns db1) 0 = Some stored /\
    ReturnModel.returnStatus stored = ReturnModel.Requested.
Proof.
  destruct (validation_resets_status ReturnSamples.tenDaysLater 0%nat
              ReturnSamples.db ReturnSamples.approved ReturnSamples.order
              eq_refl eq_refl)
    as (answered & stored & db1 & Hrun & Hstatus & _ & _ & Hfind & Hstored & _).
  exists answered, stored, db1.
  split; [exact Hrun |]. split; [exact Hstatus |].
  split; [exact Hfind | exact Hstored].
Defined.

Lemma created_request_state_witness :
  exists stored,
    ReturnModel.findById
      (ReturnModel.returns
         (snd (ReturnController.Exports.createReturnRequest
                 ReturnSamples.payoutDown (ReturnSamples.createRequest 2)
                 ReturnSamples.freshDb))) 0
    = Some stored /\
    ReturnModel.returnStatus stored = ReturnModel.Pickup_Scheduled.
Proof.
  destruct (created_request_state ReturnSamples.payoutDown
              (ReturnSamples.createRequest 2) ReturnSamples.freshDb _ _ _
              eq_refl eq_refl)
    as (order & stored & _ & _ & _ & Hfind & Hstatus & _).
  exists stored. split; [exact Hfind | exact Hstatus].
Defined.

Lemma create_twice_rejected_witness :
  ReturnController.Exports.createReturnRequest ReturnSamples.tenDaysLater
    (ReturnSamples.createRequest 2)
    (snd (ReturnController.Exports.createReturnRequest
            ReturnSamples.payoutDown (ReturnSamples.createRequest 2)
            ReturnSamples.freshDb))
  = (ReturnController.SendError
       (ReturnController.Plain
          "Return request already exists for this order and SKU"),
     snd (ReturnController.Exports.createReturnRequest
            ReturnSamples.payoutDown (ReturnSamples.createRequest 2)
            ReturnSamples.freshDb)).
Proof.
  exact (create_twice_rejected ReturnSamples.payoutDown
           ReturnSamples.tenDaysLater (ReturnSamples.createRequest 2)
           ReturnSamples.freshDb _ _ _ eq_refl).
Defined.

Lemma refund_success_bookkeeping_witness :
  exists entry,
    ReturnModel.refunds
      (snd (ReturnController.Exports.processRefund
              ReturnSamples.payoutDownSourceUp 0 ReturnSamples.bankRefund
              ReturnSamples.db))
    = [entry] /\
    ReturnModel.rr_return_id entry = 0%nat.
Proof.
  destruct (refund_success_bookkeeping ReturnSamples.payoutDownSourceUp 0%nat
              ReturnSamples.bankRefund ReturnSamples.db _ _ _ eq_refl)
    as (entry & txn & Hrefunds & Hid & _).
  exists entry. split; [exact Hrefunds | exact Hid].
Defined.

Lemma pickup_survives_carrier_failure_witness :
  exists rr db1,
    ReturnController.Exports.schedulePickup ReturnSamples.payoutDown 0 None
      MoreSamples.validatedDb
    = (ReturnController.SendSuccess rr "Pickup scheduled successfully", db1) /\
    ReturnModel.returnStatus rr = ReturnModel.Pickup_Scheduled.
Proof.
  destruct (pickup_survives_carrier_failure ReturnSamples.payoutDown 0%nat
              None MoreSamples.validatedDb
              (ReturnModel.setReturnStatus ReturnModel.Validated
                 ReturnSamples.approved)
              ReturnSamples.order eq_refl eq_refl eq_refl eq_refl)
    as (rr & db1 & Hrun & Hstatus & _).
  exists rr, db1. split; [exact Hrun | exact Hstatus].
Defined.

Lemma bank_payout_success_witness :
  ReturnSpec.newCalls ReturnSamples.db
    (snd (ReturnController.Helpers.processRefundPayment MoreSamples.payoutUp
            ReturnSamples.approved "Bank_Account" ReturnSamples.db))
  = [ReturnModel.CreateContact; ReturnModel.CreateFundAccount "cont_1";
     ReturnModel.CreatePayout "fa_1" 3998].
Proof.
  destruct (bank_payout_success MoreSamples.payoutUp ReturnSamples.approved
              "Bank_Account" ReturnSamples.db ReturnSamples.order
              ReturnSamples.payment "cont_1" "fa_1"
              {| ReturnController.po_id := "pout_1";
                 ReturnController.po_currency := Some "INR";
                 ReturnController.po_status := "processing" |}
              eq_refl eq_refl eq_refl eq_refl eq_refl eq_refl)
    as (r1 & db1 & entry & refundId & Hrun & _ & Hcalls & _).
  rewrite Hrun. exact Hcalls.
Defined.

(** ** The addresses of a pickup *)

Section AddressFacts.
Import Addresses.

Lemma truthyString_nonempty (s t : string) :
  JS.truthyString s = Some t -> t = s /\ s <> "".
Proof.
  unfold JS.truthyString. destruct (String.eqb_spec s ""); [discriminate |].
  intros [= <-]. split; [reflexivity | assumption].
Qed.

Lemma filterBoolean_nonempty (parts : list (option string)) :
  Forall (fun s => s <> "") (filterBoolean parts).
Proof.
  induction parts as [| p parts IH]; [constructor |].
  cbn [filterBoolean]. destruct p as [s |]; cbn [JS.chain]; [| exact IH].
  destruct (JS.truthyString s) as [t |] eqn:Ht; [| exact IH].
  apply truthyString_nonempty in Ht as [-> Hne].
  constructor; assumption.
Qed.

Lemma filterBoolean_app (l k : list (option string)) :
  filterBoolean (l ++ k) = filterBoolean l ++ filterBoolean k.
Proof.
  induction l as [| p l IH]; [reflexivity |].
  cbn [app filterBoolean]. destruct (JS.chain p JS.truthyString);
    rewrite IH; reflexivity.
Qed.

Lemma filterBoolean_nil_iff (parts : list (option string)) :
  filterBoolean parts = []
  <-> Forall (fun p => JS.chain p JS.truthyString = None) parts.
Proof.
  induction parts as [| p parts IH].
  - split; [constructor | reflexivity].
  - cbn [filterBoolean]. destruct (JS.chain p JS.truthyString) eqn:Hp.
    + split; [discriminate |]. intros H. inversion H. congruence.
    + rewrite IH. split.
      * intros H. constructor; assumption.
      * intros H. inversion H. assumption.
Qed.

Lemma append_nonempty (a b : string) : a <> "" -> (a ++ b)%string <> "".
Proof. destruct a; [contradiction | discriminate]. Qed.

Lemma concat_empty_iff (sep : string) (l : list string) :
  Forall (fun s => s <> "") l ->
  (String.concat sep l = "" <-> l = []).
Proof.
  intros Hne. split; [| intros ->; reflexivity].
  destruct l as [| x l]; [reflexivity |].
  inversion Hne as [| ? ? Hx _]. subst.
  intros H. exfalso. destruct l as [| y l].
  - cbn in H. contradiction.
  - cbn [String.concat] in H. apply (append_nonempty x _ Hx H).
Qed.

Lemma orString_cases (a : option string) (b : string) :
  (exists s, JS.chain a JS.truthyString = Some s /\ s <> "" /\
             orString a b = s) \/
  (JS.chain a JS.truthyString = None /\ orString a b = b).
Proof.
  unfold orString. destruct a as [s |]; cbn [JS.chain].
  - destruct (JS.truthyString s) as [t |] eqn:Ht.
    + left. exists t. apply truthyString_nonempty in Ht as [-> Hne].
      repeat split. exact Hne.
    + right. split; reflexivity.
  - right. split; reflexivity.
Qed.

Lemma orString_nonempty (a : option string) (b : string) :
  b <> "" -> orString a b <> "".
Proof.
  intros Hb. destruct (orString_cases a b) as [(s & _ & Hs & ->) | (_ & ->)];
    assumption.
Qed.

Lemma orString_truthy (s b : string) : s <> "" -> orString (Some s) b = s.
Proof.
  intros Hne. unfold orString, JS.truthyString. cbn [JS.chain].
  apply String.eqb_neq in Hne. rewrite Hne. reflexivity.
Qed.

Lemma built_with_country_nonempty (parts : AddressParts) :
  buildAddressString (withDefaultCountry parts) <> "".
Proof.
  unfold buildAddressString. intros H.
  apply concat_empty_iff in H; [| apply filterBoolean_nonempty].
  apply filterBoolean_nil_iff in H.
  do 6 (apply Forall_inv_tail in H). apply Forall_inv in H.
  cbn [withDefaultCountry country JS.chain] in H.
  unfold JS.orDefault in H.
  destruct (JS.chain (country parts) JS.truthyString) as [c |] eqn:Hc.
  - destruct (country parts) as [c0 |]; [| discriminate].
    cbn [JS.chain] in Hc. apply truthyString_nonempty in Hc as [-> Hne].
    unfold JS.truthyString in H. apply String.eqb_neq in Hne.
    rewrite Hne in H. discriminate.
  - discriminate.
Qed.

End AddressFacts.

(** X27.  The address string is empty exactly when every part is missing or
    empty; otherwise it is not empty. *)
Theorem address_string_empty_iff (parts : Addresses.AddressParts) :
  Addresses.buildAddressString parts = ""
  <-> Forall (fun p => JS.chain p JS.truthyString = None)
        [Addresses.building_no parts; Addresses.street parts;
         Addresses.area parts; Addresses.city parts; Addresses.state parts;
         Addresses.pincode parts; Addresses.country parts].
Proof.
  unfold Addresses.buildAddressString.
  rewrite concat_empty_iff by apply filterBoolean_nonempty.
  apply filterBoolean_nil_iff.
Qed.

(** X28.  The addresses sent to the carrier are never empty, and the last
    alternatives are never used: because the country defaults to "India", the
    built string is always there, so the pickup address is never "Customer
    Address" by default and the drop address never comes from the dealer's
    business or registered address nor from "Dealer Address"; a dealer without
    address parts is addressed as "India". *)
Theorem address_fallbacks_never_used
    (pickupAddress customerAddress : option string)
    (details : Addresses.AddressParts)
    (dealerInfo : option Addresses.DealerInfo) :
  Addresses.customerAddressString pickupAddress customerAddress details
  = Addresses.orString pickupAddress
      (Addresses.orString customerAddress
         (Addresses.buildAddressString
            (Addresses.withDefaultCountry details))) /\
  Addresses.customerAddressString pickupAddress customerAddress details <> "" /\
  Addresses.dealerAddressString dealerInfo
  = Addresses.orString (JS.chain dealerInfo Addresses.address_full)
      (Addresses.buildAddressString
         (Addresses.withDefaultCountry
            match dealerInfo with
            | Some d => Addresses.address d
            | None => Addresses.noParts
            end)) /\
  Addresses.dealerAddressString dealerInfo <> "" /\
  Addresses.dealerAddressString None = "India".
Proof.
  unfold Addresses.customerAddressString, Addresses.dealerAddressString.
  rewrite !(orString_truthy _ _ (built_with_country_nonempty _)).
  split; [reflexivity |].
  split; [apply orString_nonempty, orString_nonempty,
          built_with_country_nonempty |].
  split; [reflexivity |].
  split; [apply orString_nonempty, built_with_country_nonempty |].
  reflexivity.
Qed.
